(** * GetVybz backend: the escrow / transaction ledger core

    A shallow embedding of the services that move money:

    - [recordTransaction], [initializeEscrow], [handleWebhook], [releaseFunds],
      [refundFunds], [reconcileEscrows]       (services/escrowService.js)
    - [settleEscrow]                           (services/escrowSettlementService.js)
    - [createDispute], [resolveDispute]        (services/disputeService.js)
    - [reconcileTransactions]                  (services/reconciliationService.js)
    - [paystackRoute], [flutterwaveRoute]      (routes/webhooks.js)

    together with the Mongoose schemas they go through (models/Escrow.js,
    Transaction.js, Booking.js, Dispute.js, ReconciliationReport.js).

    Modelling conventions.

    - A collection is the list of its documents in insertion order; the
      [_id] of a document is its position in that list, so ids are unique
      and a new document gets a fresh one.  Nothing in these services
      deletes a document.
    - Schemas are strict (the Mongoose default): a property that the schema
      does not declare reads as [undefined] on a loaded document, and
      assigning it changes the in-memory object only, [save()] does not
      write it.  A [required] path left undefined, or a string outside the
      path's [enum], makes [save()]/[create()] reject with a validation
      error before anything is written.
    - Enumerated paths are inductive types; where the code compares such a
      path with a string literal the model compares the constructor's name.
    - JS numbers are exact rationals, dates are milliseconds in [Z].
    - A string that the code trims and measures (the comment of a review)
      is the list of its UTF-16 code units, as in JS; the other strings
      are only stored and compared.
    - Calls that leave the process (gateway HTTP calls, HMAC checks, the
      clock, the random suffix of a reference) are inputs of the operation.
    - Opaque audit payloads that no code path reads ([gatewayResponse],
      [metadata], evidence lists) are left out of the records. *)

From Stdlib Require Import ZArith QArith String Ascii List DecimalString Lia.
From stdpp Require Import base decidable option list.
Import ListNotations.
Local Open Scope string_scope.
Local Open Scope nat_scope.

(** ** Values *)

Abbreviation ObjectId := nat (only parsing).
Abbreviation Date := Z (only parsing).
Abbreviation Number := Q (only parsing).

Definition show_nat (n : nat) : string := NilZero.string_of_uint (Nat.to_uint n).
Definition show_Z (z : Z) : string := NilZero.string_of_int (Z.to_int z).

(** [String(x)] for an id that may be undefined. *)
Definition String_of_oid (o : option ObjectId) : string :=
  match o with Some i => show_nat i | None => "undefined" end.

(** JS truthiness of the values that occur in [||] chains. *)
Definition truthyN (x : Number) : bool := negb (Z.eqb (Qnum x) 0).
Definition truthyS (s : string) : bool := negb (String.eqb s "").

(** [a || b] on possibly-undefined strings and numbers. *)
Definition orS (a b : option string) : option string :=
  match a with
  | Some s => if truthyS s then Some s else b
  | None => b
  end.

Definition orN (a : option Number) (b : option Number) : option Number :=
  match a with
  | Some x => if truthyN x then Some x else b
  | None => b
  end.

(** [a || b] where [b] is a defined number. *)
Definition orQ (a b : Number) : Number := if truthyN a then a else b.
Definition orNQ (a : option Number) (b : Number) : Number :=
  match a with Some x => orQ x b | None => b end.

Definition orO {A} (a b : option A) : option A :=
  match a with Some x => Some x | None => b end.

Definition lower_ascii (c : ascii) : ascii :=
  let n := nat_of_ascii c in
  if andb (Nat.leb 65 n) (Nat.leb n 90) then ascii_of_nat (n + 32) else c.

Fixpoint toLowerCase (s : string) : string :=
  match s with
  | EmptyString => EmptyString
  | String c r => String (lower_ascii c) (toLowerCase r)
  end.

(** [String(x).toLowerCase()] for a possibly-undefined string. *)
Definition lowerOpt (o : option string) : string :=
  match o with Some s => toLowerCase s | None => "undefined" end.

Fixpoint includes (l : list string) (s : string) : bool :=
  match l with
  | [] => false
  | x :: r => orb (String.eqb x s) (includes r s)
  end.

(** ** Enumerated schema paths *)

(** Escrow.state *)
Inductive EscrowState :=
  st_pending | st_held | st_released | st_refunded | st_disputed | st_cancelled.

(** Transaction.type *)
Inductive TxType := ty_escrow | ty_release | ty_refund | ty_payout | ty_fee.

(** Transaction.status *)
Inductive TxStatus := tx_pending | tx_success | tx_failed.

(** Booking.paymentStatus *)
Inductive PaymentStatus :=
  ps_unpaid | ps_pending | ps_escrowed | ps_released | ps_refunded | ps_failed.

(** Booking.status *)
Inductive BookingStatus :=
  bs_pending | bs_confirmed | bs_in_progress | bs_completed | bs_cancelled.

(** Dispute.status *)
Inductive DisputeStatus := ds_open | ds_under_review | ds_resolved | ds_cancelled.

(** Dispute.resolution *)
Inductive Resolution :=
  rs_refund_customer | rs_release_pro | rs_split | rs_no_action | rs_other.

Definition TxType_name (t : TxType) : string :=
  match t with
  | ty_escrow => "escrow" | ty_release => "release" | ty_refund => "refund"
  | ty_payout => "payout" | ty_fee => "fee"
  end.

Definition EscrowState_name (s : EscrowState) : string :=
  match s with
  | st_pending => "pending" | st_held => "held" | st_released => "released"
  | st_refunded => "refunded" | st_disputed => "disputed"
  | st_cancelled => "cancelled"
  end.

(** The enum validator of Booking.status: the strings it lets through. *)
Definition BookingStatus_of_string (s : string) : option BookingStatus :=
  if String.eqb s "pending" then Some bs_pending
  else if String.eqb s "confirmed" then Some bs_confirmed
  else if String.eqb s "in_progress" then Some bs_in_progress
  else if String.eqb s "completed" then Some bs_completed
  else if String.eqb s "cancelled" then Some bs_cancelled
  else None.

(** The enum validator of Dispute.resolution. *)
Definition Resolution_of_string (s : string) : option Resolution :=
  if String.eqb s "refund_customer" then Some rs_refund_customer
  else if String.eqb s "release_pro" then Some rs_release_pro
  else if String.eqb s "split" then Some rs_split
  else if String.eqb s "no_action" then Some rs_no_action
  else if String.eqb s "other" then Some rs_other
  else None.

#[global] Instance EscrowState_eq_dec : EqDecision EscrowState.
Proof. solve_decision. Defined.
#[global] Instance TxType_eq_dec : EqDecision TxType.
Proof. solve_decision. Defined.
#[global] Instance TxStatus_eq_dec : EqDecision TxStatus.
Proof. solve_decision. Defined.
#[global] Instance PaymentStatus_eq_dec : EqDecision PaymentStatus.
Proof. solve_decision. Defined.
#[global] Instance BookingStatus_eq_dec : EqDecision BookingStatus.
Proof. solve_decision. Defined.
#[global] Instance DisputeStatus_eq_dec : EqDecision DisputeStatus.
Proof. solve_decision. Defined.
#[global] Instance Resolution_eq_dec : EqDecision Resolution.
Proof. solve_decision. Defined.
#[global] Instance Number_eq_dec : EqDecision Number.
Proof. solve_decision. Defined.
#[global] Instance string_eq_dec' : EqDecision string := String.string_dec.

(** ** Documents *)

(** models/Escrow.js *)
Record Escrow := mkEscrow {
  e_bookingId : ObjectId;
  e_amount : Number;
  e_state : EscrowState;
  e_paymentGateway : option string;
  e_gatewayReference : option string;
  e_idempotencyKey : option string;
  e_reconciled : bool;
  e_initiatedBy : option ObjectId;
  e_updatedAt : Date
}.

(** models/Transaction.js.  [bookingId] is [required], yet
    reconcileTransactions tests for its absence, so a stored document may
    lack it; [create]/[save] never writes one without. *)
Record Transaction := mkTransaction {
  t_bookingId : option ObjectId;
  t_customerId : option ObjectId;
  t_creativeId : option ObjectId;
  t_amount : Number;
  t_type : TxType;
  t_status : TxStatus;
  t_paymentGateway : option string;
  t_reference : string;
  t_idempotencyKey : option string;
  t_note : string
}.

(** models/Booking.js.  The schema declares neither [creativeId] nor
    [completedAt]. *)
Record Booking := mkBooking {
  b_customerId : ObjectId;
  b_proId : ObjectId;
  b_status : BookingStatus;
  b_totalAmount : Number;
  b_escrowAmount : Number;
  b_paymentStatus : PaymentStatus;
  b_paymentGateway : option string;
  b_escrowId : option ObjectId;
  b_paymentReference : option string;
  b_txRef : option string;
  b_customerReviewed : bool;
  b_proReviewed : bool;
  b_paymentReleased : bool;
  b_settledAt : option Date;
  b_updatedAt : Date
}.

(** models/Dispute.js *)
Record Dispute := mkDispute {
  d_bookingId : ObjectId;
  d_initiatorId : ObjectId;
  d_respondentId : ObjectId;
  d_reason : string;
  d_description : string;
  d_status : DisputeStatus;
  d_resolution : option Resolution;
  d_resolvedBy : option ObjectId;
  d_resolvedAt : option Date
}.

(** models/User.js, as far as this core looks at it: that the user exists. *)
Record User := mkUser { u_name : string; u_role : string }.

(** One entry of ReconciliationReport.issues. *)
Record Related := mkRelated {
  rel_transactionId : option ObjectId;
  rel_escrowId : option ObjectId;
  rel_bookingId : option ObjectId
}.

Record Issue := mkIssue {
  i_type : string;
  i_severity : string;
  i_message : string;
  i_related : Related
}.

(** models/ReconciliationReport.js *)
Record ReconciliationReport := mkReport {
  r_runBy : option ObjectId;
  r_totalTransactionsChecked : nat;
  r_totalEscrowsChecked : nat;
  r_totalIssues : nat;
  r_issues : list Issue
}.

(** What reaches the admins.  A document of models/Notification.js goes to
    one user, its [userId]; a document of models/AdminNotification.js has
    no recipient and carries a severity. *)
Record Notification := mkNotification {
  n_userId : option ObjectId;
  n_type : string;
  n_title : string;
  n_severity : option string
}.

#[global] Instance Escrow_eq_dec : EqDecision Escrow.
Proof. solve_decision. Defined.
#[global] Instance Booking_eq_dec : EqDecision Booking.
Proof. solve_decision. Defined.

(** ** The database *)

Record World := mkWorld {
  bookings : list Booking;
  escrows : list Escrow;
  transactions : list Transaction;
  disputes : list Dispute;
  users : list User;
  reports : list ReconciliationReport;
  notifications : list Notification
}.

Definition set_bookings (l : list Booking) (w : World) : World :=
  mkWorld l (escrows w) (transactions w) (disputes w) (users w) (reports w)
          (notifications w).
Definition set_escrows (l : list Escrow) (w : World) : World :=
  mkWorld (bookings w) l (transactions w) (disputes w) (users w) (reports w)
          (notifications w).
Definition set_transactions (l : list Transaction) (w : World) : World :=
  mkWorld (bookings w) (escrows w) l (disputes w) (users w) (reports w)
          (notifications w).
Definition set_disputes (l : list Dispute) (w : World) : World :=
  mkWorld (bookings w) (escrows w) (transactions w) l (users w) (reports w)
          (notifications w).
Definition set_reports (l : list ReconciliationReport) (w : World) : World :=
  mkWorld (bookings w) (escrows w) (transactions w) (disputes w) (users w) l
          (notifications w).
Definition set_notifications (l : list Notification) (w : World) : World :=
  mkWorld (bookings w) (escrows w) (transactions w) (disputes w) (users w)
          (reports w) l.

(** ** Errors and the service monad *)

Inductive Err :=
| Error (msg : string)
| ValidationError (path : string)
| DuplicateKey (path : string)
| TypeError (msg : string).

Inductive Result (A : Type) :=
| Ok (a : A)
| Throw (e : Err).
Arguments Ok {A} a.
Arguments Throw {A} e.

(** A service call: it reads and writes the database and returns or throws.
    What was written before a throw stays written. *)
Definition M (A : Type) : Type := World -> Result A * World.

#[global] Instance M_ret : MRet M := fun A a w => (Ok a, w).
#[global] Instance M_bind : MBind M := fun A B k m w =>
  match m w with
  | (Ok a, w') => k a w'
  | (Throw e, w') => (Throw e, w')
  end.
Definition throw {A} (e : Err) : M A := fun w => (Throw e, w).
Definition gets {A} (f : World -> A) : M A := fun w => (Ok (f w), w).
Definition modify (f : World -> World) : M unit := fun w => (Ok tt, f w).

(** [session.startTransaction() ... commitTransaction()], with
    [abortTransaction()] in the catch: every write of [m] went through the
    session, so a throw leaves the database as it was. *)
Definition withTransaction {A} (m : M A) : M A :=
  fun w => match m w with
           | (Ok a, w') => (Ok a, w')
           | (Throw e, _) => (Throw e, w)
           end.

(** [err.message]; the text of the database's own messages is shortened
    to the path at fault. *)
Definition err_message (e : Err) : string :=
  match e with
  | Error m => m
  | ValidationError p => "validation failed: " ++ p
  | DuplicateKey p => "E11000 duplicate key: " ++ p
  | TypeError m => m
  end.

(** [_error(msg, err)]: log and rethrow with the message prefixed. *)
Definition _error {A} (msg : string) (e : Err) : M A :=
  throw (Error (msg ++ " — " ++ err_message e)).

(** ** Collection access *)

Definition Booking_findById (i : ObjectId) : M (option Booking) :=
  gets (fun w => bookings w !! i).

Definition Escrow_findOne_bookingId (b : ObjectId) : M (option (ObjectId * Escrow)) :=
  gets (fun w => list_find (fun e => e_bookingId e = b) (escrows w)).

Definition Escrow_findOne_gatewayReference (r : string)
  : M (option (ObjectId * Escrow)) :=
  gets (fun w => list_find (fun e => e_gatewayReference e = Some r) (escrows w)).

Definition Transaction_findOne_reference (r : string)
  : M (option (ObjectId * Transaction)) :=
  gets (fun w => list_find (fun t => t_reference t = r) (transactions w)).

(** [doc.save()] of a loaded document: the changed paths are written to the
    document with that [_id], and Mongoose stamps [updatedAt] when there is
    something to write. *)
Definition Escrow_save (i : ObjectId) (old new : Escrow) (now : Date) : M unit :=
  modify (fun w =>
    if decide (old = new) then w
    else set_escrows (<[ i := mkEscrow (e_bookingId new) (e_amount new)
                               (e_state new) (e_paymentGateway new)
                               (e_gatewayReference new) (e_idempotencyKey new)
                               (e_reconciled new) (e_initiatedBy new) now ]>
                        (escrows w)) w).

Definition Booking_stamp (b : Booking) (now : Date) : Booking :=
  mkBooking (b_customerId b) (b_proId b) (b_status b) (b_totalAmount b)
            (b_escrowAmount b) (b_paymentStatus b) (b_paymentGateway b)
            (b_escrowId b) (b_paymentReference b) (b_txRef b) (b_customerReviewed b)
            (b_proReviewed b) (b_paymentReleased b) (b_settledAt b) now.

Definition Booking_save (i : ObjectId) (old new : Booking) (now : Date) : M unit :=
  modify (fun w =>
    if decide (old = new) then w
    else set_bookings (<[ i := Booking_stamp new now ]> (bookings w)) w).

(** An insert: the new document goes to the end of the collection; its
    [_id] is returned. *)
Definition Escrow_insert (e : Escrow) : M ObjectId :=
  fun w => (Ok (length (escrows w)), set_escrows (escrows w ++ [e]) w).

(** [new Escrow({...}).save()] / [Escrow.create({...})]: the unique index on
    [bookingId], then the insert. *)
Definition Escrow_create (e : Escrow) : M ObjectId :=
  dup ← Escrow_findOne_bookingId (e_bookingId e);
  match dup with
  | Some _ => throw (DuplicateKey "bookingId")
  | None => Escrow_insert e
  end.

Definition try_catch {A} (m : M A) (h : Err -> M A) : M A :=
  fun w => match m w with
           | (Ok a, w') => (Ok a, w')
           | (Throw e, w') => h e w'
           end.

(** ** services/escrowService.js *)

Definition PAYSTACK : string := "paystack".
Definition FLUTTERWAVE : string := "flutterwave".

(** [makeIdempotencyKey(prefix, bookingId, reference)].  The key is the
    sha256 digest of the string built here; the model keeps that string
    itself.  No code path reads the key back. *)
Definition makeIdempotencyKey (prefix : string) (bookingId : option ObjectId)
    (reference : string) : string :=
  prefix ++ ":" ++ String_of_oid bookingId ++ ":" ++ reference.

(** The object that [recordTransaction] destructures. *)
Record TxParams := mkTxParams {
  p_bookingId : option ObjectId;
  p_customerId : option ObjectId;
  p_creativeId : option ObjectId;
  p_amount : option Number;
  p_type : TxType;
  p_status : TxStatus;
  p_paymentGateway : option string;
  p_reference : option string;
  p_idempotencyKey : option string;
  p_note : string
}.

(** [new Transaction({...}).save()]: the schema's [required] paths
    ([bookingId], [amount], [reference]; [type] is always a literal of the
    enum here), then the unique index on [reference], then the insert. *)
Definition Transaction_create (p : TxParams) : M (ObjectId * Transaction) :=
  match p_bookingId p, p_amount p, p_reference p with
  | None, _, _ => throw (ValidationError "bookingId")
  | Some _, None, _ => throw (ValidationError "amount")
  | Some _, Some _, None => throw (ValidationError "reference")
  | Some b, Some a, Some r =>
      if negb (truthyS r) then throw (ValidationError "reference")
      else
        dup ← Transaction_findOne_reference r;
        match dup with
        | Some _ => throw (DuplicateKey "reference")
        | None =>
            let tx := mkTransaction (Some b) (p_customerId p) (p_creativeId p) a
                        (p_type p) (p_status p) (p_paymentGateway p) r
                        (p_idempotencyKey p) (p_note p) in
            fun w => (Ok (length (transactions w), tx),
                      set_transactions (transactions w ++ [tx]) w)
        end
  end.

(** [recordTransaction]: idempotent by reference. *)
Definition recordTransaction (p : TxParams) : M (ObjectId * Transaction) :=
  existing ← match p_reference p with
             | Some r => if truthyS r then Transaction_findOne_reference r
                         else mret None
             | None => mret None
             end;
  match existing with
  | Some tx => mret tx
  | None => Transaction_create p
  end.

(** What a gateway adapter's [initialize] hands back. *)
Record InitResult := mkInitResult {
  ir_authorization_url : option string;
  ir_reference : option string;
  ir_gd_reference : option string;
  ir_gd_tx_ref : option string
}.

Record InitReturn := mkInitReturn {
  ret_success : bool;
  ret_message : option string;
  ret_authorizationUrl : option string;
  ret_reference : option string;
  ret_escrowId : option ObjectId
}.

Definition state_in_held_released (s : EscrowState) : bool :=
  match s with st_held | st_released => true | _ => false end.

Definition state_in_held_pending_disputed (s : EscrowState) : bool :=
  match s with st_held | st_pending | st_disputed => true | _ => false end.

(** [initializeEscrow({bookingId, amount, email, gateway, metadata})].
    [initResult] is what the adapter's [initialize] returned, [None] when
    the HTTP call threw. *)
Definition initializeEscrow (bookingId : ObjectId) (amount : option Number)
    (gateway : string) (initResult : option InitResult) (now : Date)
  : M InitReturn :=
  try_catch (withTransaction (
    booking ← Booking_findById bookingId;
    match booking with
    | None => throw (Error "Booking not found")
    | Some booking =>
      escrow ← Escrow_findOne_bookingId bookingId;
      match escrow with
      | Some (eid, e) =>
          if state_in_held_released (e_state e)
          then mret (Some (mkInitReturn false
                       (Some "Escrow already initialized or completed")
                       None None (Some eid)))
          else mret None
      | None => mret None
      end ≫= fun early =>
      match early with
      | Some r => mret r
      | None =>
        (* Create or update escrow to pending *)
        eid ← match amount with
              | None => throw (ValidationError "amount")
              | Some a =>
                match escrow with
                | None =>
                    Escrow_create (mkEscrow bookingId a st_pending (Some gateway)
                       None (Some (makeIdempotencyKey "init" (Some bookingId) ""))
                       false None now)
                | Some (eid, e) =>
                    Escrow_save eid e
                      (mkEscrow (e_bookingId e) a st_pending (Some gateway)
                         (e_gatewayReference e)
                         (Some (makeIdempotencyKey "init" (Some bookingId) ""))
                         (e_reconciled e) (e_initiatedBy e) (e_updatedAt e)) now;;
                    mret eid
                end
              end;
        (* Call gateway adapter *)
        ir ← (if orb (String.eqb gateway PAYSTACK) (String.eqb gateway FLUTTERWAVE)
              then match initResult with
                   | Some ir => mret ir
                   | None => throw (Error "gateway request failed")
                   end
              else throw (Error "Unsupported payment gateway"));
        let reference :=
          orS (ir_reference ir) (orS (ir_gd_reference ir) (ir_gd_tx_ref ir)) in
        (* record a pending transaction *)
        recordTransaction (mkTxParams (Some bookingId) (Some (b_customerId booking))
          None amount ty_escrow tx_pending (Some gateway) reference
          (Some (makeIdempotencyKey "tx:init" (Some bookingId)
                   (default "undefined" reference)))
          "initialization");;
        (* update booking quick view *)
        Booking_save bookingId booking
          (mkBooking (b_customerId booking) (b_proId booking) (b_status booking)
             (b_totalAmount booking) (b_escrowAmount booking) ps_pending
             (Some gateway) (b_escrowId booking) (b_paymentReference booking) (b_txRef booking)
             (b_customerReviewed booking) (b_proReviewed booking)
             (b_paymentReleased booking) (b_settledAt booking)
             (b_updatedAt booking)) now;;
        mret (mkInitReturn true None (ir_authorization_url ir) reference (Some eid))
      end
    end))
    (fun e => _error "initializeEscrow failed" e).

(** The part of a webhook payload object that [handleWebhook] reads. *)
Record WebhookData := mkWebhookData {
  wd_reference : option string;
  wd_tx_ref : option string;
  wd_id : option string;
  wd_transaction_id : option string;
  wd_metadata_bookingId : option ObjectId;
  wd_meta_bookingId : option ObjectId;
  wd_meta_booking_id : option ObjectId;
  wd_status : option string;
  wd_amount : option Number
}.

(** The parsed body: its [event], its [data] object when there is one, and
    the same fields read off the body itself (Flutterwave's flat shape). *)
Record WebhookBody := mkWebhookBody {
  wb_event : option string;
  wb_data : option WebhookData;
  wb_self : WebhookData
}.

(** What the adapter's [verify(reference)] returned. *)
Record VerifyResult := mkVerifyResult {
  v_status : option string;
  v_amount : Number
}.

Record WebhookResult := mkWebhookResult {
  wr_success : bool;
  wr_reason : option string;
  wr_handled : option string;
  wr_error : option string
}.

Definition successEvents : list string :=
  ["charge.success"; "transfer.success"; "successful"; "charge.completed"].
Definition failureEvents : list string :=
  ["failed"; "charge.failed"; "payment.failed"; "cancelled"].

(** [data.amount / (gateway === PAYSTACK ? 100 : 1)] when [data.amount] is
    truthy. *)
Definition scaled_amount (gateway : string) (data : option WebhookData)
  : option Number :=
  match data ≫= wd_amount with
  | Some a =>
      if truthyN a
      then Some (if String.eqb gateway PAYSTACK then Qred (a / 100) else a)
      else None
  | None => None
  end.

Definition wr_plain (ok : bool) : WebhookResult := mkWebhookResult ok None None None.
Definition wr_reason_of (ok : bool) (r : string) : WebhookResult :=
  mkWebhookResult ok (Some r) None None.
Definition wr_handled_of (h : string) : WebhookResult :=
  mkWebhookResult true None (Some h) None.
Definition wr_error_of (e : Err) : WebhookResult :=
  mkWebhookResult false None None (Some (err_message e)).

(** [Escrow.findOneAndUpdate({bookingId}, {$setOnInsert: {...}},
    {upsert: true, new: true})]: an existing document only gets its
    timestamp touched, otherwise the document is inserted. *)
Definition Escrow_upsert_bookingId (fresh : Escrow) (now : Date)
  : M (ObjectId * Escrow) :=
  found ← Escrow_findOne_bookingId (e_bookingId fresh);
  match found with
  | Some (i, e) =>
      let e' := mkEscrow (e_bookingId e) (e_amount e) (e_state e)
                  (e_paymentGateway e) (e_gatewayReference e)
                  (e_idempotencyKey e) (e_reconciled e) (e_initiatedBy e) now in
      modify (fun w => set_escrows (<[ i := e' ]> (escrows w)) w);;
      mret (i, e')
  | None => i ← Escrow_insert fresh; mret (i, fresh)
  end.

Definition Escrow_with_held (e : Escrow) (reference : string)
    (verifiedAmount : option Number) : Escrow :=
  mkEscrow (e_bookingId e) (orNQ verifiedAmount (e_amount e)) st_held
    (e_paymentGateway e) (Some reference) (e_idempotencyKey e)
    (e_reconciled e) (e_initiatedBy e) (e_updatedAt e).

Definition Escrow_with_state (e : Escrow) (s : EscrowState) : Escrow :=
  mkEscrow (e_bookingId e) (e_amount e) s (e_paymentGateway e)
    (e_gatewayReference e) (e_idempotencyKey e) (e_reconciled e)
    (e_initiatedBy e) (e_updatedAt e).

(** Normalize event and data; determine reference and bookingId. *)
Definition webhook_eventType (gateway : string) (body : WebhookBody)
  : option string :=
  if String.eqb gateway PAYSTACK then wb_event body
  else orS (wb_event body)
           (orS (wb_data body ≫= wd_status) (wd_status (wb_self body))).

Definition webhook_data (gateway : string) (body : WebhookBody)
  : option WebhookData :=
  if String.eqb gateway PAYSTACK then wb_data body
  else Some (default (wb_self body) (wb_data body)).

Definition webhook_reference (gateway : string) (body : WebhookBody)
  : option string :=
  let data := webhook_data gateway body in
  orS (data ≫= wd_reference) (orS (data ≫= wd_tx_ref) (orS (data ≫= wd_id)
    (orS (data ≫= wd_transaction_id) (data ≫= wd_tx_ref)))).

Definition webhook_bookingId (gateway : string) (body : WebhookBody)
  : option ObjectId :=
  let data := webhook_data gateway body in
  orO (data ≫= wd_metadata_bookingId)
      (orO (data ≫= wd_meta_bookingId) (data ≫= wd_meta_booking_id)).

Definition webhook_isSuccess (gateway : string) (body : WebhookBody) : bool :=
  orb (includes successEvents (lowerOpt (webhook_eventType gateway body)))
      (String.eqb (lowerOpt (webhook_data gateway body ≫= wd_status)) "success").

Definition webhook_isFailure (gateway : string) (body : WebhookBody) : bool :=
  orb (includes failureEvents (lowerOpt (webhook_eventType gateway body)))
      (String.eqb (lowerOpt (webhook_data gateway body ≫= wd_status)) "failed").

(** [handleWebhook({headers, body, gateway})].  [signatureOk] is the outcome
    of the adapter's [verifyWebhook(headers, body)], [verify] what the
    adapter's [verify(reference)] returned ([None] when it threw). *)
Definition handleWebhook (signatureOk : bool) (body : WebhookBody)
    (gateway : string) (verify : option VerifyResult) (now : Date)
  : M WebhookResult :=
  let isPaystack := String.eqb gateway PAYSTACK in
  try_catch (
    (* Verify signature first *)
    verified ← (if isPaystack then mret signatureOk
                else if String.eqb gateway FLUTTERWAVE then mret signatureOk
                else throw (Error "Unknown gateway for webhook"));
    if negb verified
    then mret (wr_reason_of false "signature_verification_failed")
    else
    let data := webhook_data gateway body in
    let bookingId := webhook_bookingId gateway body in
    match webhook_reference gateway body with
    | None => mret (wr_reason_of false "no_reference")
    | Some reference =>
      if negb (truthyS reference)
      then mret (wr_reason_of false "no_reference")
      else
      (* If bookingId present, load it; otherwise locate escrow by
         gatewayReference *)
      eb ← match bookingId with
           | Some bid =>
               booking ← Booking_findById bid;
               match booking with
               | None => mret (None, None)
               | Some b =>
                   e ← Escrow_findOne_bookingId bid; mret (e, Some (bid, b))
               end
           | None =>
               e ← Escrow_findOne_gatewayReference reference;
               match e with
               | Some (eid, ed) =>
                   booking ← Booking_findById (e_bookingId ed);
                   mret (Some (eid, ed), pair (e_bookingId ed) <$> booking)
               | None => mret (None, None)
               end
           end;
      let booking : option (ObjectId * Booking) := snd eb in
      (* If escrow not found and booking found, create escrow *)
      escrow ← match fst eb, booking with
               | None, Some (bid, b) =>
                   e ← Escrow_upsert_bookingId
                         (mkEscrow bid
                            (orQ (b_escrowAmount b) (orQ (b_totalAmount b) 0%Q))
                            st_pending (Some gateway) (Some reference)
                            (Some (makeIdempotencyKey "webhook:create" (Some bid)
                                     reference))
                            false None now) now;
                   mret (Some e)
               | e, _ => mret e
               end;
      let ownerId : option ObjectId :=
        orO (fst <$> booking) (e_bookingId ∘ snd <$> escrow) in
      (* Process success events *)
      if webhook_isSuccess gateway body then
        let verifiedAmount : option Number :=
          orN (v_amount <$> verify) (scaled_amount gateway data) in
        try_catch (withTransaction (
          (* Idempotency: a success transaction for this reference exists *)
          existingTx ← Transaction_findOne_reference reference;
          if match existingTx with
             | Some (_, tx) => bool_decide (t_status tx = tx_success)
             | None => false
             end
          then mret (wr_reason_of true "already_processed")
          else
            (* create success transaction *)
            recordTransaction (mkTxParams ownerId
              (b_customerId ∘ snd <$> booking) None
              (Some (orNQ verifiedAmount
                       (default 0%Q (scaled_amount gateway data))))
              ty_escrow tx_success (Some gateway) (Some reference)
              (Some (makeIdempotencyKey "tx:webhook" ownerId reference))
              "webhook_success");;
            (* update/create escrow *)
            escrow' ← match escrow, booking with
                      | None, Some (bid, b) =>
                          let e := mkEscrow bid
                            (orNQ verifiedAmount
                               (orQ (b_escrowAmount b)
                                  (orQ (b_totalAmount b) 0%Q)))
                            st_held (Some gateway) (Some reference)
                            (Some (makeIdempotencyKey "escrow:webhook" (Some bid)
                                     reference))
                            false None now in
                          eid ← Escrow_create e; mret (Some (eid, e))
                      | Some (eid, e), _ =>
                          let e' := Escrow_with_held e reference verifiedAmount in
                          Escrow_save eid e e' now;; mret (Some (eid, e'))
                      | None, None => mret None
                      end;
            (* Update booking convenience fields *)
            match booking with
            | Some (bid, b) =>
                let escrowAmount :=
                  orNQ (e_amount ∘ snd <$> escrow')
                       (orQ (b_escrowAmount b) (b_totalAmount b)) in
                Booking_save bid b
                  (mkBooking (b_customerId b) (b_proId b)
                     (if bool_decide (b_status b = bs_pending) then bs_confirmed
                      else b_status b)
                     (b_totalAmount b) escrowAmount ps_escrowed (Some gateway)
                     (orO (fst <$> escrow') (b_escrowId b))
                     (b_paymentReference b) (b_txRef b) (b_customerReviewed b)
                     (b_proReviewed b) (b_paymentReleased b) (b_settledAt b)
                     (b_updatedAt b)) now
            | None => mret tt
            end;;
            mret (wr_plain true)))
          (fun dbErr => mret (wr_error_of dbErr))
      else
      (* Handle failed/cancelled events -> record failed transaction *)
      if webhook_isFailure gateway body then
        try_catch (
          recordTransaction (mkTxParams ownerId
            (b_customerId ∘ snd <$> booking) None
            (Some (default 0%Q (scaled_amount gateway data)))
            ty_escrow tx_failed (Some gateway) (Some reference)
            (Some (makeIdempotencyKey "tx:webhook:fail" ownerId reference))
            "webhook_failed");;
          match booking with
          | Some (bid, b) =>
              Booking_save bid b
                (mkBooking (b_customerId b) (b_proId b) (b_status b)
                   (b_totalAmount b) (b_escrowAmount b) ps_failed
                   (b_paymentGateway b) (b_escrowId b) (b_paymentReference b) (b_txRef b)
                   (b_customerReviewed b) (b_proReviewed b)
                   (b_paymentReleased b) (b_settledAt b) (b_updatedAt b)) now
          | None => mret tt
          end;;
          match escrow with
          | Some (eid, e) => Escrow_save eid e (Escrow_with_state e st_cancelled) now
          | None => mret tt
          end;;
          mret (wr_handled_of "failure"))
          (fun err => mret (wr_error_of err))
      else
        (* Unhandled event types *)
        mret (wr_handled_of "noop")
    end)
    (fun err => mret (wr_error_of err)).

(** What a gateway adapter's [payout] / [refund] hands back. *)
Record PayoutResult := mkPayoutResult {
  po_success : bool;
  po_reference : option string
}.

Record FundsReturn := mkFundsReturn {
  fr_success : bool;
  fr_reference : string
}.

(** A save that always has something to write (here [metadata] is assigned
    a new object each time). *)
Definition Escrow_write (i : ObjectId) (new : Escrow) (now : Date) : M unit :=
  modify (fun w =>
    set_escrows (<[ i := mkEscrow (e_bookingId new) (e_amount new)
                           (e_state new) (e_paymentGateway new)
                           (e_gatewayReference new) (e_idempotencyKey new)
                           (e_reconciled new) (e_initiatedBy new) now ]>
                   (escrows w)) w).

(** Release and refund are the same function up to these five constants. *)
Record FundsKind := mkFundsKind {
  fk_prefix : string;
  fk_type : TxType;
  fk_done : EscrowState;
  fk_paymentStatus : PaymentStatus;
  fk_bookingStatus : BookingStatus;
  fk_guard_message : string;
  fk_failed_message : string
}.

Definition releaseKind : FundsKind :=
  mkFundsKind "REL-" ty_release st_released ps_released bs_completed
    "Escrow not in releasable state (current: " "releaseFunds failed".
Definition refundKind : FundsKind :=
  mkFundsKind "REF-" ty_refund st_refunded ps_refunded bs_cancelled
    "Escrow not in refundable state (current: " "refundFunds failed".

(** [`REL-${Date.now()}-${Math.round(Math.random() * 10000)}`] *)
Definition local_reference (k : FundsKind) (now : Date) (rnd : nat) : string :=
  fk_prefix k ++ show_Z now ++ "-" ++ show_nat rnd.

(** [payoutResult?.success], as a boolean. *)
Definition payout_ok (result : option PayoutResult) : bool :=
  match result with Some r => po_success r | None => false end.

(** [payoutResult?.data?.reference || reference] *)
Definition funds_reference (k : FundsKind) (result : option PayoutResult)
    (now : Date) (rnd : nat) : string :=
  default (local_reference k now rnd)
    (orS (result ≫= po_reference) (Some (local_reference k now rnd))).

(** The common body of [releaseFunds] and [refundFunds].  [call] is the
    outcome of the adapter call (it threw, it returned nothing, or it
    returned a result), [rnd] the random suffix of the local reference. *)
Definition moveFunds (k : FundsKind) (bookingId : ObjectId)
    (initiatedBy : option ObjectId) (note : string) (defaultNote : string)
    (call : Result (option PayoutResult)) (now : Date) (rnd : nat)
  : M FundsReturn :=
  try_catch (withTransaction (
    booking ← Booking_findById bookingId;
    match booking with
    | None => throw (Error "Booking not found")
    | Some booking =>
      escrow ← Escrow_findOne_bookingId bookingId;
      match escrow with
      | None => throw (Error "Escrow record not found for booking")
      | Some (eid, escrow) =>
        if negb (state_in_held_pending_disputed (e_state escrow))
        then throw (Error (fk_guard_message k ++ EscrowState_name (e_state escrow)
                           ++ ")"))
        else
          let amount :=
            orQ (e_amount escrow)
                (orQ (b_escrowAmount booking) (b_totalAmount booking)) in
          let gateway :=
            default PAYSTACK
              (orS (e_paymentGateway escrow)
                   (orS (b_paymentGateway booking) (Some PAYSTACK))) in
          let reference := local_reference k now rnd in
          (* call gateway adapter *)
          result ← match call with
                   | Ok r => mret r
                   | Throw e => throw e
                   end;
          let ok := payout_ok result in
          let txReference := funds_reference k result now rnd in
          (* Record the transaction *)
          recordTransaction (mkTxParams (Some bookingId)
            (Some (b_customerId booking)) None (Some amount) (fk_type k)
            (if ok then tx_success else tx_failed) (Some gateway)
            (Some txReference)
            (Some (makeIdempotencyKey ("tx:" ++ TxType_name (fk_type k))
                     (Some bookingId) reference))
            (if truthyS note then note else defaultNote));;
          (* Update escrow & booking states *)
          Escrow_write eid
            (mkEscrow (e_bookingId escrow) (e_amount escrow)
               (if ok then fk_done k else st_disputed)
               (e_paymentGateway escrow) (e_gatewayReference escrow)
               (e_idempotencyKey escrow) (e_reconciled escrow) initiatedBy
               (e_updatedAt escrow)) now;;
          Booking_save bookingId booking
            (mkBooking (b_customerId booking) (b_proId booking)
               (if ok then fk_bookingStatus k else b_status booking)
               (b_totalAmount booking) (b_escrowAmount booking)
               (if ok then fk_paymentStatus k else b_paymentStatus booking)
               (b_paymentGateway booking) (b_escrowId booking)
               (b_paymentReference booking) (b_txRef booking) (b_customerReviewed booking)
               (b_proReviewed booking) (b_paymentReleased booking)
               (b_settledAt booking) (b_updatedAt booking)) now;;
          mret (mkFundsReturn ok txReference)
      end
    end))
    (fun e => _error (fk_failed_message k) e).

(** [releaseFunds({bookingId, initiatedBy, note})] *)
Definition releaseFunds (bookingId : ObjectId) (initiatedBy : option ObjectId)
    (note : string) (payout : Result (option PayoutResult)) (now : Date)
    (rnd : nat) : M FundsReturn :=
  moveFunds releaseKind bookingId initiatedBy note "release" payout now rnd.

(** [refundFunds({bookingId, initiatedBy, reason})] *)
Definition refundFunds (bookingId : ObjectId) (initiatedBy : option ObjectId)
    (reason : string) (refund : Result (option PayoutResult)) (now : Date)
    (rnd : nat) : M FundsReturn :=
  moveFunds refundKind bookingId initiatedBy reason "refund" refund now rnd.

Record ReconcileSummary := mkReconcileSummary {
  rs_checked : nat;
  rs_reconciled : nat;
  rs_flagged : nat;
  rs_errors : list ObjectId
}.

(** [Escrow.findByIdAndUpdate(id, update)]: an update operation, which
    always stamps [updatedAt]. *)
Definition Escrow_findByIdAndUpdate (i : ObjectId) (f : Escrow -> Escrow)
    (now : Date) : M unit :=
  modify (fun w =>
    match escrows w !! i with
    | Some e =>
        let e' := f e in
        set_escrows (<[ i := mkEscrow (e_bookingId e') (e_amount e')
                               (e_state e') (e_paymentGateway e')
                               (e_gatewayReference e') (e_idempotencyKey e')
                               (e_reconciled e') (e_initiatedBy e') now ]>
                       (escrows w)) w
    | None => w
    end).

Definition Escrow_set_reconciled (e : Escrow) : Escrow :=
  mkEscrow (e_bookingId e) (e_amount e) (e_state e) (e_paymentGateway e)
    (e_gatewayReference e) (e_idempotencyKey e) true (e_initiatedBy e)
    (e_updatedAt e).

(** One turn of the loop of [reconcileEscrows] on the lean copy [e] of the
    escrow [i].  [verify gateway reference] is the adapter's answer, [None]
    when the call throws. *)
Definition reconcileEscrows_step (verify : string -> string -> option VerifyResult)
    (now : Date) (ie : ObjectId * Escrow) (s : ReconcileSummary)
  : M ReconcileSummary :=
  let '(i, e) := ie in
  let s := mkReconcileSummary (S (rs_checked s)) (rs_reconciled s)
             (rs_flagged s) (rs_errors s) in
  match orS (e_gatewayReference e) None with
  | None =>
      mret (mkReconcileSummary (rs_checked s) (rs_reconciled s)
              (S (rs_flagged s)) (rs_errors s))
  | Some gref =>
      let gateway := default PAYSTACK (orS (e_paymentGateway e) (Some PAYSTACK)) in
      match verify gateway gref with
      | None =>
          mret (mkReconcileSummary (rs_checked s) (rs_reconciled s)
                  (rs_flagged s) (rs_errors s ++ [i]))
      | Some v =>
          let isSuccess := String.eqb (lowerOpt (v_status v)) "success" in
          (if andb isSuccess (negb (state_in_held_released (e_state e)))
           then Escrow_findByIdAndUpdate i
                  (fun d => Escrow_set_reconciled (Escrow_with_state d st_held)) now
           else Escrow_findByIdAndUpdate i Escrow_set_reconciled now);;
          mret (mkReconcileSummary (rs_checked s) (S (rs_reconciled s))
                  (rs_flagged s) (rs_errors s))
      end
  end.

Fixpoint reconcileEscrows_loop (verify : string -> string -> option VerifyResult)
    (now : Date) (l : list (ObjectId * Escrow)) (s : ReconcileSummary)
  : M ReconcileSummary :=
  match l with
  | [] => mret s
  | ie :: rest =>
      s' ← reconcileEscrows_step verify now ie s;
      reconcileEscrows_loop verify now rest s'
  end.

(** The documents of a collection with their ids. *)
Definition with_ids {A} (l : list A) : list (ObjectId * A) := imap pair l.

(** The query of [reconcileEscrows]: [{reconciled: false}], with
    [updatedAt >= since] when [since] is given. *)
Definition reconcile_query (since : option Date) (ie : ObjectId * Escrow) : bool :=
  andb (negb (e_reconciled (snd ie)))
       match since with
       | Some t => Z.leb t (e_updatedAt (snd ie))
       | None => true
       end.

(** [reconcileEscrows({since})] *)
Definition reconcileEscrows (since : option Date)
    (verify : string -> string -> option VerifyResult) (now : Date)
  : M ReconcileSummary :=
  found ← gets (fun w => List.filter (reconcile_query since) (with_ids (escrows w)));
  reconcileEscrows_loop verify now found (mkReconcileSummary 0 0 0 []).

(** ** services/escrowSettlementService.js *)

(** Properties that [settleEscrow] and [reconcileTransactions] read but no
    schema declares: they are [undefined] on every loaded document. *)
Definition Escrow_status (e : Escrow) : option string := None.
Definition Escrow_amountHeld (e : Escrow) : option Number := None.
Definition Booking_completedAt (b : Booking) : option Date := None.

(** An Escrow document in memory: the schema paths, and the two properties
    [settleEscrow] assigns on the object. *)
Record EscrowDoc := mkEscrowDoc {
  doc_id : ObjectId;
  doc : Escrow;
  doc_status : option string;
  doc_releasedAt : option Date
}.

Definition Escrow_load (ie : ObjectId * Escrow) : EscrowDoc :=
  mkEscrowDoc (fst ie) (snd ie) (Escrow_status (snd ie)) None.

Definition gracePeriodMs : Z := 3 * 24 * 60 * 60 * 1000.

(** [now - new Date(completedAt) > gracePeriodMs], with
    [completedAt = booking.completedAt || booking.updatedAt || now]. *)
Definition graceExpired (booking : Booking) (now : Date) : bool :=
  let completedAt := default (b_updatedAt booking) (Booking_completedAt booking) in
  Z.ltb gracePeriodMs (now - completedAt).

(** [!graceExpired && (!customerReviewed || !proReviewed)] *)
Definition settle_waits (booking : Booking) (now : Date) : bool :=
  let customerReviewed := b_customerReviewed booking in
  let proReviewed := b_proReviewed booking in
  andb (negb (graceExpired booking now))
       (orb (negb customerReviewed) (negb proReviewed)).

(** The object handed to [Transaction.create] by [settleEscrow]; [userId]
    is not a path of TransactionSchema. *)
Definition payout_params (bookingId : ObjectId) (escrow : Escrow) : TxParams :=
  mkTxParams (Some bookingId) None None (Escrow_amountHeld escrow) ty_payout
    tx_success None (Some ("PAYOUT-" ++ show_nat bookingId)) None "".

(** [settleEscrow(bookingId)] at time [now]; [None] is JS [null]. *)
Definition settleEscrow (bookingId : ObjectId) (now : Date)
  : M (option EscrowDoc) :=
  booking ← Booking_findById bookingId;
  match booking with
  | None => throw (Error "Booking not found")
  | Some booking =>
    found ← Escrow_findOne_bookingId bookingId;
    match found with
    | None => throw (Error "Escrow record not found")
    | Some ie =>
      let escrow := Escrow_load ie in
      if bool_decide (doc_status escrow = Some "released") then mret (Some escrow)
      else
        if settle_waits booking now
        then mret None
        else
          (* Release payment *)
          let escrow := mkEscrowDoc (doc_id escrow) (doc escrow)
                          (Some "released") (Some now) in
          Escrow_save (doc_id escrow) (snd ie) (doc escrow) now;;
          pro ← gets (fun w => users w !! b_proId booking);
          match pro with
          | None => throw (Error "Pro user not found")
          | Some _ =>
              Transaction_create (payout_params bookingId (doc escrow));;
              Booking_save bookingId booking
                (mkBooking (b_customerId booking) (b_proId booking)
                   (b_status booking) (b_totalAmount booking)
                   (b_escrowAmount booking) (b_paymentStatus booking)
                   (b_paymentGateway booking) (b_escrowId booking)
                   (b_paymentReference booking) (b_txRef booking) (b_customerReviewed booking)
                   (b_proReviewed booking) true (Some now)
                   (b_updatedAt booking)) now;;
              (* recalcTrustScoreJob: another service, inside try/catch *)
              mret (Some escrow)
          end
    end
  end.

(** ** services/adminNotificationService.js, services/notificationService.js *)

(** models/AdminNotification.js: the enums of [type] and [severity]. *)
Definition AdminNotification_types : list string :=
  ["RECONCILIATION_ISSUE"; "DISPUTE_ALERT"; "PAYMENT_ERROR"; "SYSTEM_EVENT"].
Definition AdminNotification_severities : list string :=
  ["low"; "medium"; "high"; "critical"].

(** [createNotification(data)]: [AdminNotification.create(data)] inside
    try/catch; a document that fails validation is logged and dropped.
    Every caller passes a non-empty message. *)
Definition createNotification (type title severity : string) : M unit :=
  modify (fun w =>
    if andb (andb (includes AdminNotification_types type)
                  (includes AdminNotification_severities severity))
            (truthyS title)
    then set_notifications
           (notifications w ++ [mkNotification None type title (Some severity)]) w
    else w).

(** [notifyAdmin(title, message, meta)], with [meta.type] and
    [meta.severity] given. *)
Definition notifyAdmin (title : string) (type : string) (severity : string)
  : M unit :=
  createNotification type title severity.

(** [User.find({ role: "admin" })] *)
Definition admins (w : World) : list (ObjectId * User) :=
  List.filter (fun iu => String.eqb (u_role (snd iu)) "admin") (with_ids (users w)).

(** [notificationService.notifyAdmins({type, title, message, meta})]: one
    Notification per admin, each create inside try/catch; the creates are
    started in the order of the admins and the model lists the documents
    in that order.  [title] is required, and every caller passes a
    non-empty message. *)
Definition notifyAdmins (type title : string) : M unit :=
  modify (fun w =>
    if truthyS title
    then set_notifications
           (notifications w ++
            map (fun iu => mkNotification (Some (fst iu)) type title None)
                (admins w)) w
    else w).

(** ** services/disputeService.js *)

(** The object handed to [Dispute.create]. *)
Record DisputeInput := mkDisputeInput {
  di_bookingId : option ObjectId;
  di_initiatorId : option ObjectId;
  di_respondentId : option ObjectId;
  di_reason : option string;
  di_description : option string;
  di_status : DisputeStatus
}.

(** [Dispute.create({...})]: the [required] paths of DisputeSchema, then the
    insert.  The schema gives [resolution] no default. *)
Definition Dispute_create (d : DisputeInput) : M (ObjectId * Dispute) :=
  match di_bookingId d, di_initiatorId d, di_respondentId d, di_reason d with
  | None, _, _, _ => throw (ValidationError "bookingId")
  | Some _, None, _, _ => throw (ValidationError "initiatorId")
  | Some _, Some _, None, _ => throw (ValidationError "respondentId")
  | Some _, Some _, Some _, None => throw (ValidationError "reason")
  | Some b, Some i, Some r, Some reason =>
      if negb (truthyS reason) then throw (ValidationError "reason")
      else
        let doc := mkDispute b i r reason (default "" (di_description d))
                     (di_status d) None None None in
        fun w => (Ok (length (disputes w), doc),
                  set_disputes (disputes w ++ [doc]) w)
  end.

(** [createDispute({bookingId, raisedBy, reason, description})].  [raisedBy]
    is not a path of DisputeSchema, so it does not reach the document. *)
Definition createDispute (bookingId : ObjectId) (raisedBy : option ObjectId)
    (reason description : option string) : M (ObjectId * Dispute) :=
  booking ← Booking_findById bookingId;
  match booking with
  | None => throw (Error "Booking not found")
  | Some _ =>
      dispute ← Dispute_create
                  (mkDisputeInput (Some bookingId) None None reason description
                     ds_open);
      notifyAdmin "New Dispute Raised" "DISPUTE" "high";;
      mret dispute
  end.

(** [resolveDispute({disputeId, resolvedBy, resolution, winnerId})].
    [resolution] is the caller's raw value, [None] when it passes none.
    [winnerId] is not a path of DisputeSchema. *)
Definition resolveDispute (disputeId : ObjectId) (resolvedBy : option ObjectId)
    (resolution : option string) (now : Date) : M (ObjectId * Dispute) :=
  found ← gets (fun w => disputes w !! disputeId);
  match found with
  | None => throw (Error "Dispute not found")
  | Some dispute =>
    (* dispute.save(): the enum of [resolution] is validated *)
    res ← match resolution with
          | None => mret None
          | Some s => match Resolution_of_string s with
                      | Some r => mret (Some r)
                      | None => throw (ValidationError "resolution")
                      end
          end;
    let dispute := mkDispute (d_bookingId dispute) (d_initiatorId dispute)
                     (d_respondentId dispute) (d_reason dispute)
                     (d_description dispute) ds_resolved res resolvedBy
                     (Some now) in
    modify (fun w => set_disputes (<[ disputeId := dispute ]> (disputes w)) w);;
    (* Update booking status if needed *)
    booking ← Booking_findById (d_bookingId dispute);
    match booking with
    | Some b =>
        match BookingStatus_of_string "dispute_resolved" with
        | Some st =>
            Booking_save (d_bookingId dispute) b
              (mkBooking (b_customerId b) (b_proId b) st (b_totalAmount b)
                 (b_escrowAmount b) (b_paymentStatus b) (b_paymentGateway b)
                 (b_escrowId b) (b_paymentReference b) (b_txRef b) (b_customerReviewed b)
                 (b_proReviewed b) (b_paymentReleased b) (b_settledAt b)
                 (b_updatedAt b)) now
        | None => throw (ValidationError "status")
        end;;
        (* trust scores of both parties: another service *)
        notifyAdmin "Dispute Resolved" "DISPUTE_RESOLVED" "medium";;
        mret (disputeId, dispute)
    | None =>
        throw (TypeError "Cannot read properties of null (reading 'proId')")
    end
  end.

(** ** services/reconciliationService.js *)

Definition MAX_ISSUES : nat := 500.

Definition rel (tx esc bk : option ObjectId) : Related := mkRelated tx esc bk.

(** The body of the [try] in the transaction loop: the issues it pushes for
    transaction [tx] with id [i]. *)
Definition check_transaction (w : World) (i : ObjectId) (tx : Transaction)
  : list Issue :=
  match t_bookingId tx with
  | None =>
      [mkIssue "txn_without_booking" "high" "Transaction missing bookingId"
         (rel (Some i) None None)]
  | Some bid =>
    match bookings w !! bid with
    | None =>
        [mkIssue "txn_booking_missing" "high"
           "Transaction references a missing booking"
           (rel (Some i) None (Some bid))]
    | Some booking =>
      if andb (String.eqb (TxType_name (t_type tx)) "payment")
              (bool_decide (t_status tx = tx_success))
      then
        match list_find (fun e => e_bookingId e = bid) (escrows w) with
        | None =>
            [mkIssue "txn_missing_escrow" "high"
               "Successful payment transaction but no escrow found"
               (rel (Some i) None (Some bid))]
        | Some (eid, escrow) =>
            (* Number(escrow.amountHeld || 0) !== Number(tx.amount || 0) *)
            (if negb (Qeq_bool (orNQ (Escrow_amountHeld escrow) 0%Q)
                               (orQ (t_amount tx) 0%Q))
             then [mkIssue "amount_mismatch" "high"
                     "Escrow amount differs from transaction amount"
                     (rel (Some i) (Some eid) (Some bid))]
             else [])
            ++
            (if andb (bool_decide (Escrow_status escrow = Some "released"))
                     (negb (b_paymentReleased booking))
             then [mkIssue "escrow_released_booking_not_updated" "medium"
                     "Escrow released but booking.paymentReleased still false"
                     (rel (Some i) (Some eid) (Some bid))]
             else [])
        end
      else []
    end
  end.

(** The body of the [try] in the escrow loop. *)
Definition check_escrow (w : World) (i : ObjectId) (esc : Escrow) : list Issue :=
  match bookings w !! e_bookingId esc with
  | None =>
      [mkIssue "escrow_without_booking" "high" "Escrow exists for missing booking"
         (rel None (Some i) (Some (e_bookingId esc)))]
  | Some _ =>
      match list_find (fun t => t_bookingId t = Some (e_bookingId esc)
                                ∧ TxType_name (t_type t) = "payment"
                                ∧ t_status t = tx_success)
                      (transactions w) with
      | None =>
          [mkIssue "escrow_without_txn" "medium"
             "Escrow exists but no successful payment transaction found"
             (rel None (Some i) (Some (e_bookingId esc)))]
      | Some _ => []
      end
  end.

(** A [for await] loop over a cursor, with the [break] at the top of its
    body: [checked] counts the documents looked at. *)
Fixpoint scan {A} (check : ObjectId -> A -> list Issue) (limit : nat)
    (l : list (ObjectId * A)) (issues : list Issue) (checked : nat)
  : list Issue * nat :=
  match l with
  | [] => (issues, checked)
  | (i, x) :: rest =>
      if orb (Nat.leb limit checked) (Nat.leb MAX_ISSUES (length issues))
      then (issues, checked)
      else scan check limit rest (issues ++ check i x) (S checked)
  end.

(** The [runBy] argument: left out (the default, the string "system"),
    [null], or a user id. *)
Inductive RunBy := RunBy_default | RunBy_null | RunBy_user (u : ObjectId).

(** [reconcileTransactions({limit, runBy})].  [runBy] is an ObjectId path of
    ReconciliationReportSchema, which the default string cannot be cast
    to. *)
Definition reconcileTransactions (limit : nat) (runBy : RunBy)
  : M ReconciliationReport :=
  w ← gets id;
  (* 1. Check Transactions *)
  let '(issues, txChecked) :=
    scan (check_transaction w) limit (with_ids (transactions w)) [] 0 in
  (* 2. Check Escrows *)
  let '(issues, escrowsChecked) :=
    scan (check_escrow w) limit (with_ids (escrows w)) issues 0 in
  (* 3. Generate Report *)
  report ← match runBy with
           | RunBy_default => throw (ValidationError "runBy")
           | _ =>
               let report :=
                 mkReport match runBy with
                          | RunBy_user u => Some u
                          | _ => None
                          end
                   txChecked escrowsChecked (length issues)
                   (take MAX_ISSUES issues) in
               modify (fun w => set_reports (reports w ++ [report]) w);;
               mret report
           end;
  (* 4. Notify Admins *)
  (if Nat.ltb 0 (length issues)
   then
     notifyAdmins "reconciliation_alert"
       ("Reconciliation found " ++ show_nat (length issues) ++ " issue(s)");;
     createNotification "RECONCILIATION_ISSUE" "Reconciliation Issues Detected"
       (if Nat.ltb 10 (r_totalIssues report) then "high" else "medium")
   else mret tt);;
  mret report.

(** ** routes/webhooks.js *)

(** [router.post("/paystack")].  [authorized] is the outcome of the
    signature test ([NODE_ENV] is "test", or the HMAC of the raw body
    equals the header).  The value is the HTTP status of the response. *)
Definition paystackRoute (authorized : bool) (event : option string)
    (data_reference : option string) (data_amount : option Number) (now : Date)
  : M nat :=
  try_catch (
    if negb authorized then mret 403
    else
      let reference := default "dummy_ref" (orS data_reference (Some "dummy_ref")) in
      (* Find or create booking *)
      found ← gets (fun w =>
                 list_find (fun b => b_paymentReference b = Some reference)
                           (bookings w));
      booking ← match found with
                | Some b => mret b
                | None =>
                    (* the arguments of Booking.create call [require], which
                       an ES module does not define: a ReferenceError *)
                    throw (Error "require is not defined")
                end;
      (* Find or create transaction *)
      tx ← Transaction_findOne_reference reference;
      tx ← match tx with
           | Some t => mret t
           | None =>
               Transaction_create (mkTxParams (Some (fst booking)) None None
                 (Some (b_totalAmount (snd booking))) ty_escrow tx_pending
                 (Some "paystack") (Some reference) None "")
           end;
      let set_tx (ty : TxType) : M unit :=
        modify (fun w =>
          set_transactions
            (<[ fst tx := mkTransaction (t_bookingId (snd tx))
                            (t_customerId (snd tx)) (t_creativeId (snd tx))
                            (t_amount (snd tx)) ty tx_success
                            (t_paymentGateway (snd tx)) (t_reference (snd tx))
                            (t_idempotencyKey (snd tx)) (t_note (snd tx)) ]>
               (transactions w)) w) in
      (* Update transaction and escrow based on event *)
      (if bool_decide (event = Some "charge.success") then
         set_tx (t_type (snd tx));;
         escrow ← Escrow_findOne_gatewayReference reference;
         match escrow with
         | None =>
             Escrow_create (mkEscrow (fst booking) (b_totalAmount (snd booking))
               st_held (Some "paystack") (Some reference) None false None now);;
             mret tt
         | Some (eid, e) => Escrow_save eid e (Escrow_with_state e st_held) now
         end
       else if bool_decide (event = Some "refund.processed") then
         escrow ← Escrow_findOne_gatewayReference reference;
         match escrow with
         | Some (eid, e) => Escrow_save eid e (Escrow_with_state e st_refunded) now
         | None => mret tt
         end;;
         set_tx ty_refund
       else mret tt);;
      mret 200)
    (fun err => mret 500).

(** [router.post("/flutterwave")].  [authorized]: [NODE_ENV] is "test", or
    the header [verif-hash] is present and equals the secret.
    [body_event] is [req.body.event], the other arguments are read from
    [req.body.data]. *)
Definition flutterwaveRoute (authorized : bool)
    (body_event data_status data_tx_ref data_reference : option string)
    (data_amount : option Number) (now : Date)
  : M nat :=
  try_catch (
    if negb authorized then mret 403
    else
      let event := orS body_event data_status in
      let reference :=
        default "dummy_flw_ref"
          (orS data_tx_ref (orS data_reference (Some "dummy_flw_ref"))) in
      found ← gets (fun w =>
                 list_find (fun b => b_txRef b = Some reference) (bookings w));
      booking ← match found with
                | Some b => mret b
                | None =>
                    (* as in the Paystack route: [require] is not defined *)
                    throw (Error "require is not defined")
                end;
      tx ← Transaction_findOne_reference reference;
      tx ← match tx with
           | Some t => mret t
           | None =>
               Transaction_create (mkTxParams (Some (fst booking)) None None
                 (Some (b_totalAmount (snd booking))) ty_escrow tx_pending
                 (Some "flutterwave") (Some reference) None "")
           end;
      let set_tx (ty : TxType) : M unit :=
        modify (fun w =>
          set_transactions
            (<[ fst tx := mkTransaction (t_bookingId (snd tx))
                            (t_customerId (snd tx)) (t_creativeId (snd tx))
                            (t_amount (snd tx)) ty tx_success
                            (t_paymentGateway (snd tx)) (t_reference (snd tx))
                            (t_idempotencyKey (snd tx)) (t_note (snd tx)) ]>
               (transactions w)) w) in
      (if orb (bool_decide (event = Some "charge.completed"))
              (bool_decide (data_status = Some "successful")) then
         set_tx (t_type (snd tx));;
         escrow ← Escrow_findOne_gatewayReference reference;
         match escrow with
         | None =>
             Escrow_create (mkEscrow (fst booking) (b_totalAmount (snd booking))
               st_held (Some "flutterwave") (Some reference) None false None now);;
             mret tt
         | Some (eid, e) => Escrow_save eid e (Escrow_with_state e st_held) now
         end
       else if bool_decide (event = Some "refund.completed") then
         escrow ← Escrow_findOne_gatewayReference reference;
         match escrow with
         | Some (eid, e) => Escrow_save eid e (Escrow_with_state e st_refunded) now
         | None => mret tt
         end;;
         set_tx ty_refund
       else mret tt);;
      mret 200)
    (fun err => mret 500).

(** * Operations and escrow state arrows *)

(** One call into the core, with everything it gets from outside.  These
    are the functions of the repository that assign the [state] of a stored
    escrow, together with [settleEscrow] and [reconcileTransactions], which
    read escrows. *)
Inductive Op :=
| op_handleWebhook (signatureOk : bool) (body : WebhookBody) (gateway : string)
    (verify : option VerifyResult) (now : Date)
| op_paystackRoute (authorized : bool) (event data_reference : option string)
    (data_amount : option Number) (now : Date)
| op_releaseFunds (bookingId : ObjectId) (initiatedBy : option ObjectId)
    (note : string) (payout : Result (option PayoutResult)) (now : Date)
    (rnd : nat)
| op_refundFunds (bookingId : ObjectId) (initiatedBy : option ObjectId)
    (reason : string) (refund : Result (option PayoutResult)) (now : Date)
    (rnd : nat)
| op_settleEscrow (bookingId : ObjectId) (now : Date)
| op_reconcileEscrows (since : option Date)
    (verify : string -> string -> option VerifyResult) (now : Date)
| op_reconcileTransactions (limit : nat) (runBy : RunBy)
| op_initializeEscrow (bookingId : ObjectId) (amount : option Number)
    (gateway : string) (initResult : option InitResult) (now : Date)
| op_flutterwaveRoute (authorized : bool)
    (body_event data_status data_tx_ref data_reference : option string)
    (data_amount : option Number) (now : Date).

(** The database after the call, whether it returned or threw. *)
Definition run (op : Op) (w : World) : World :=
  match op with
  | op_handleWebhook s b g v t => snd (handleWebhook s b g v t w)
  | op_paystackRoute a e r m t => snd (paystackRoute a e r m t w)
  | op_releaseFunds b i n p t r => snd (releaseFunds b i n p t r w)
  | op_refundFunds b i n p t r => snd (refundFunds b i n p t r w)
  | op_settleEscrow b t => snd (settleEscrow b t w)
  | op_reconcileEscrows s v t => snd (reconcileEscrows s v t w)
  | op_reconcileTransactions l r => snd (reconcileTransactions l r w)
  | op_initializeEscrow b a g i t => snd (initializeEscrow b a g i t w)
  | op_flutterwaveRoute a e s x r m t => snd (flutterwaveRoute a e s x r m t w)
  end.

Definition runs (ops : list Op) (w : World) : World :=
  fold_left (fun w op => run op w) ops w.

(** The state changes each operation can make: [handleWebhook] assigns
    "held" or "cancelled", the /paystack and /flutterwave routes "held" or
    "refunded", all three without looking at the current state; release and
    refund test the current state first; [reconcileEscrows] assigns "held"
    and [initializeEscrow] "pending", both unless the state is held or
    released. *)
Definition webhook_targets (s s' : EscrowState) : Prop :=
  s' = st_held \/ s' = st_cancelled.

Definition route_targets (s s' : EscrowState) : Prop :=
  s' = st_held \/ s' = st_refunded.

Definition funds_arrow (k : FundsKind) (s s' : EscrowState) : Prop :=
  state_in_held_pending_disputed s = true /\ (s' = fk_done k \/ s' = st_disputed).

Definition reconcile_arrow (s s' : EscrowState) : Prop :=
  state_in_held_released s = false /\ s' = st_held.

Definition init_arrow (s s' : EscrowState) : Prop :=
  state_in_held_released s = false /\ s' = st_pending.

Definition arrow (op : Op) : EscrowState -> EscrowState -> Prop :=
  match op with
  | op_handleWebhook _ _ _ _ _ => webhook_targets
  | op_paystackRoute _ _ _ _ _ => route_targets
  | op_releaseFunds _ _ _ _ _ _ => funds_arrow releaseKind
  | op_refundFunds _ _ _ _ _ _ => funds_arrow refundKind
  | op_settleEscrow _ _ => fun _ _ => False
  | op_reconcileEscrows _ _ _ => reconcile_arrow
  | op_reconcileTransactions _ _ => fun _ _ => False
  | op_initializeEscrow _ _ _ _ _ => init_arrow
  | op_flutterwaveRoute _ _ _ _ _ _ _ => route_targets
  end.

Definition terminal (s : EscrowState) : bool :=
  match s with st_released | st_refunded | st_cancelled => true | _ => false end.

(** The operations that cannot move an escrow out of the terminal state
    [s]: none of the three webhook handlers, and [reconcileEscrows] and
    [initializeEscrow] only for [released]. *)
Definition keeps (s : EscrowState) (op : Op) : Prop :=
  match op with
  | op_handleWebhook _ _ _ _ _ | op_paystackRoute _ _ _ _ _
  | op_flutterwaveRoute _ _ _ _ _ _ _ => False
  | op_reconcileEscrows _ _ _ | op_initializeEscrow _ _ _ _ _ => s = st_released
  | _ => True
  end.

(** [moved T l0 w]: every escrow of [l0] is still in [w], in the state it
    had or in a state that [T] allows from it. *)
Definition moved (T : EscrowState -> EscrowState -> Prop) (l0 : list Escrow)
    (w : World) : Prop :=
  forall i e, l0 !! i = Some e ->
    exists e', escrows w !! i = Some e' /\
               (e_state e' = e_state e \/ T (e_state e) (e_state e')).

(** ** Dispute operations *)






(** A property of the ledger alone. *)
Definition on_ledger (P : list Transaction -> Prop) (w : World) : Prop :=
  P (transactions w).

(** [preserves I m]: running [m] keeps the database property [I], whether
    [m] returns or throws. *)
Definition preserves {A} (I : World -> Prop) (m : M A) : Prop :=
  forall w, I w -> I (snd (m w)).

(** * Scenarios

    The worlds and payloads at which the properties below are evaluated. *)

(** Booking B1 of 5000, customer 0, professional 1, last written at time 0. *)
Definition booking_B1 : Booking :=
  mkBooking 0 1 bs_pending 5000%Q 0%Q ps_unpaid None None None None
    false false false None 0%Z.

Definition world_B1 : World :=
  mkWorld [booking_B1] [] [] [] [mkUser "Ada" "customer"; mkUser "Tunde" "pro"]
    [] [].

(** The customer starts the payment: the gateway hands out reference R1. *)
Definition world_initialized : World := Eval vm_compute in
  snd (initializeEscrow 0 (Some 5000%Q) PAYSTACK
         (Some (mkInitResult (Some "https://checkout.paystack.com/x") (Some "R1")
                  None None))
         1000%Z world_B1).

(** Paystack's [charge.success] for R1 (amount in kobo). *)
Definition charge_success_R1 : WebhookBody :=
  mkWebhookBody (Some "charge.success")
    (Some (mkWebhookData (Some "R1") None None None (Some 0) None None
             (Some "success") (Some 500000%Q)))
    (mkWebhookData None None None None None None None None None).

Definition verify_success_5000 : option VerifyResult :=
  Some (mkVerifyResult (Some "success") 5000%Q).

(** One delivery of that webhook at time [now], and a run of deliveries. *)
Definition deliver (now : Date) : M WebhookResult :=
  handleWebhook true charge_success_R1 PAYSTACK verify_success_5000 now.

Definition deliveries (times : list Date) (w : World) : World :=
  fold_left (fun w t => snd (deliver t w)) times w.

(** The database when the same webhook reaches a booking that was never
    initialized, first at time [t]. *)
Definition world_paid_directly (t : Date) : World :=
  mkWorld
    [mkBooking 0 1 bs_confirmed 5000%Q 5000%Q ps_escrowed (Some "paystack")
       (Some 0) None None false false false None t]
    [mkEscrow 0 5000%Q st_held (Some "paystack") (Some "R1")
       (Some "webhook:create:0:R1") false None t]
    [mkTransaction (Some 0) (Some 0) None 5000%Q ty_escrow tx_success
       (Some "paystack") "R1" (Some "tx:webhook:0:R1") "webhook_success"]
    [] (users world_B1) [] [].

(** The ledger entries with reference [r] and status [success]. *)
Definition success_entries (r : string) (w : World) : list Transaction :=
  List.filter (fun t => andb (String.eqb (t_reference t) r)
                             (bool_decide (t_status t = tx_success)))
              (transactions w).

(** The database once the first delivery, at time [t], has been handled. *)
Definition world_held (t : Date) : World :=
  mkWorld
    [mkBooking 0 1 bs_confirmed 5000%Q 5000%Q ps_escrowed (Some "paystack")
       (Some 0) None None false false false None t]
    [mkEscrow 0 5000%Q st_held (Some "paystack") (Some "R1") (Some "init:0:")
       false None t]
    (transactions world_initialized)
    [] (users world_B1) [] [].

(** Two paid bookings, both escrows held. *)
Definition world_two_held : World :=
  mkWorld
    [mkBooking 0 1 bs_confirmed 5000%Q 5000%Q ps_escrowed (Some "paystack")
       (Some 0) None None false false false None 2000%Z;
     mkBooking 0 1 bs_confirmed 7000%Q 7000%Q ps_escrowed (Some "paystack")
       (Some 1) None None false false false None 2500%Z]
    [mkEscrow 0 5000%Q st_held (Some "paystack") (Some "R1") None false None
       2000%Z;
     mkEscrow 1 7000%Q st_held (Some "paystack") (Some "R2") None false None
       2500%Z]
    [mkTransaction (Some 0) (Some 0) None 5000%Q ty_escrow tx_success
       (Some "paystack") "R1" None "webhook_success";
     mkTransaction (Some 1) (Some 0) None 7000%Q ty_escrow tx_success
       (Some "paystack") "R2" None "webhook_success"]
    [] [mkUser "Ada" "customer"; mkUser "Tunde" "pro"] [] [].

(** The Paystack adapter's payout answer at millisecond 1700000000000:
    [{success: true, data: {reference: `REL-PS-${Date.now()}`}}]. *)
Definition payout_at_ms : Result (option PayoutResult) :=
  Ok (Some (mkPayoutResult true (Some "REL-PS-1700000000000"))).

(** Booking 1 is released in that millisecond. *)
Definition world_first_released : World := Eval vm_compute in
  snd (releaseFunds 1 None "" payout_at_ms 1700000000000%Z 4821 world_two_held).

(** The [release] entries of the ledger for booking [b]. *)
Definition release_entries (b : ObjectId) (w : World) : list Transaction :=
  List.filter (fun t => andb (bool_decide (t_type t = ty_release))
                             (bool_decide (t_bookingId t = Some b)))
              (transactions w).

(** Booking B1 paid and done, last written at time 0, nobody has reviewed;
    its escrow is held. *)
Definition world_completed : World :=
  mkWorld
    [mkBooking 0 1 bs_completed 5000%Q 5000%Q ps_escrowed (Some "paystack")
       (Some 0) None None false false false None 0%Z]
    [mkEscrow 0 5000%Q st_held (Some "paystack") (Some "R1") None false None
       0%Z]
    [mkTransaction (Some 0) (Some 0) None 5000%Q ty_escrow tx_success
       (Some "paystack") "R1" None "webhook_success"]
    [] [mkUser "Ada" "customer"; mkUser "Tunde" "pro"] [] [].

Definition four_days : Date := 4 * 24 * 60 * 60 * 1000.

(** A successful payment whose booking exists and has no Escrow document. *)
Definition world_paid_without_escrow : World :=
  mkWorld
    [mkBooking 0 1 bs_confirmed 5000%Q 5000%Q ps_escrowed (Some "paystack")
       None None None false false false None 2000%Z]
    []
    [mkTransaction (Some 0) (Some 0) None 5000%Q ty_escrow tx_success
       (Some "paystack") "R1" None "webhook_success"]
    [] [mkUser "Ada" "customer"; mkUser "Tunde" "pro"] [] [].



(** Booking B1 with an open dispute that has no resolution yet. *)
Definition world_disputed : World :=
  mkWorld (bookings world_completed) (escrows world_completed)
    (transactions world_completed)
    [mkDispute 0 0 1 "no_show" "The professional did not come" ds_open None
       None None]
    (users world_completed) [] [].

(** Booking B1 done long ago, its escrow frozen as [disputed]. *)
Definition world_frozen : World :=
  mkWorld (bookings world_completed)
    [mkEscrow 0 5000%Q st_disputed (Some "paystack") (Some "R1") None false
       None 0%Z]
    (transactions world_completed) (disputes world_disputed)
    (users world_completed) [] [].

(** A second payment attempt for booking 1 that fails, and one that
    succeeds, each with a reference of its own. *)
Definition charge_failed_retry : WebhookBody :=
  mkWebhookBody (Some "charge.failed")
    (Some (mkWebhookData (Some "R2-b") None None None (Some 1) None None
             (Some "failed") (Some 700000%Q)))
    (mkWebhookData None None None None None None None None None).

Definition charge_success_retry : WebhookBody :=
  mkWebhookBody (Some "charge.success")
    (Some (mkWebhookData (Some "R2-c") None None None (Some 1) None None
             (Some "success") (Some 700000%Q)))
    (mkWebhookData None None None None None None None None None).

(** A gateway that reports every reference as paid. *)
Definition verify_all_success (gateway reference : string) : option VerifyResult :=
  Some (mkVerifyResult (Some "success") 7000%Q).

(** * Callers of the core *)

(** What an Express handler hands back: the status and the JSON body. *)
Record Response (A : Type) := mkResponse { res_status : nat; res_json : A }.
Arguments mkResponse {A} res_status res_json.
Arguments res_status {A} r.
Arguments res_json {A} r.

(** A handler reads and writes the database and always answers. *)
Definition Handler (A : Type) : Type := World -> Response A * World.

(** [try { ... res.status(s).json(ok) } catch (err) { res.status(s').json(...) }] *)
Definition respond {A B} (m : M A) (ok : A -> Response B) (err : Err -> Response B)
  : Handler B :=
  fun w => match m w with
           | (Ok a, w') => (ok a, w')
           | (Throw e, w') => (err e, w')
           end.

(** [!x] for a possibly-undefined number and string. *)
Definition falsyN (x : option Number) : bool :=
  match x with Some a => negb (truthyN a) | None => true end.
Definition falsyS (x : option string) : bool :=
  match x with Some s => negb (truthyS s) | None => true end.

(** The gateways the service has an adapter for. *)
Definition gateway_supported (gateway : string) : bool :=
  orb (String.eqb gateway PAYSTACK) (String.eqb gateway FLUTTERWAVE).

(** [grown w w']: [w'] is [w] with at most one pending escrow added at the
    end of the collection; bookings and ledger are the same. *)
Definition grown (w w' : World) : Prop :=
  bookings w' = bookings w /\ transactions w' = transactions w /\
  (escrows w' = escrows w \/
   exists e, escrows w' = (escrows w ++ [e])%list /\ e_state e = st_pending).

(** The document that one turn of the loop of [reconcileEscrows] leaves
    under the id of the escrow [e] it looked at. *)
Definition reconcile_doc (verify : string -> string -> option VerifyResult)
    (now : Date) (e : Escrow) : Escrow :=
  match orS (e_gatewayReference e) None with
  | None => e
  | Some gref =>
      match verify (default PAYSTACK (orS (e_paymentGateway e) (Some PAYSTACK)))
                   gref with
      | None => e
      | Some v =>
          mkEscrow (e_bookingId e) (e_amount e)
            (if andb (String.eqb (lowerOpt (v_status v)) "success")
                     (negb (state_in_held_released (e_state e)))
             then st_held else e_state e)
            (e_paymentGateway e) (e_gatewayReference e) (e_idempotencyKey e)
            true (e_initiatedBy e) now
      end
  end.

(** What the summary has counted besides [checked]. *)
Definition summary_total (s : ReconcileSummary) : nat :=
  rs_reconciled s + rs_flagged s + length (rs_errors s).

(** The escrows after the loop went through [l]. *)
Definition reconciled_list (verify : string -> string -> option VerifyResult)
    (now : Date) (l : list (ObjectId * Escrow)) (docs : list Escrow)
  : list Escrow :=
  fold_left (fun acc ie => <[fst ie := reconcile_doc verify now (snd ie)]> acc)
            l docs.

(** ** services/escrowSettlementService.js: the batch *)

(** [Escrow.find({ status: s })].  [status] is not a path of EscrowSchema:
    with [strictQuery] on, Mongoose drops the condition and every escrow is
    found; with it off the condition reaches the database, where no stored
    document has the field. *)
Definition Escrow_find_status (strictQuery : bool) (s : string)
  : M (list (ObjectId * Escrow)) :=
  gets (fun w =>
    if strictQuery then with_ids (escrows w)
    else List.filter (fun ie => bool_decide (Escrow_status (snd ie) = Some s))
                     (with_ids (escrows w))).

(** The loop of [autoSettlePendingEscrows]; [clock k] is the time of the
    [k]-th call of [settleEscrow]. *)
Fixpoint autoSettle_loop (clock : nat -> Date) (k : nat)
    (pending : list (ObjectId * Escrow)) (releasedCount : nat) : M nat :=
  match pending with
  | [] => mret releasedCount
  | (_, escrow) :: rest =>
      releasedCount ← try_catch
        (settleEscrow (e_bookingId escrow) (clock k);; mret (S releasedCount))
        (fun err => mret releasedCount);
      autoSettle_loop clock (S k) rest releasedCount
  end.

(** [autoSettlePendingEscrows()] *)
Definition autoSettlePendingEscrows (strictQuery : bool) (clock : nat -> Date)
  : M nat :=
  pending ← Escrow_find_status strictQuery "held";
  autoSettle_loop clock 0 pending 0.

(** The escrows for which [settleEscrow] answers [null]: the booking is
    there and its review window is still open at the time of the call. *)
Definition still_waiting (clock : nat -> Date) (w : World)
    (ie : ObjectId * Escrow) : bool :=
  match bookings w !! e_bookingId (snd ie) with
  | Some booking => settle_waits booking (clock (fst ie))
  | None => false
  end.

(** ** services/reviewService.js *)

(** Review.reviewerRole / Review.targetRole *)
Inductive Role := role_customer | role_pro.

(** A JS string: its UTF-16 code units, each in 0 .. 65535. *)
Abbreviation CodeUnit := N (only parsing).
Abbreviation JsString := (list N) (only parsing).

(** models/Review.js *)
Record Review := mkReview {
  rv_bookingId : ObjectId;
  rv_reviewerId : ObjectId;
  rv_targetId : ObjectId;
  rv_reviewerRole : Role;
  rv_targetRole : Role;
  rv_rating : Number;
  rv_comment : option JsString
}.

(** The database together with the reviews collection. *)
Record ReviewWorld := mkReviewWorld {
  rw_db : World;
  rw_reviews : list Review
}.

(** A call of the review service. *)
Definition RM (A : Type) : Type := ReviewWorld -> Result A * ReviewWorld.

#[global] Instance RM_ret : MRet RM := fun A a w => (Ok a, w).
#[global] Instance RM_bind : MBind RM := fun A B k m w =>
  match m w with
  | (Ok a, w') => k a w'
  | (Throw e, w') => (Throw e, w')
  end.

Definition rthrow {A} (e : Err) : RM A := fun w => (Throw e, w).

(** A call into the core from the review service. *)
Definition on_db {A} (m : M A) : RM A :=
  fun w => match m (rw_db w) with
           | (r, db) => (r, mkReviewWorld db (rw_reviews w))
           end.

Definition rtry_catch {A} (m : RM A) (h : Err -> RM A) : RM A :=
  fun w => match m w with
           | (Ok a, w') => (Ok a, w')
           | (Throw e, w') => h e w'
           end.

(** WhiteSpace and LineTerminator of ECMAScript, the code units that
    [String.prototype.trim] strips: tab, line feed, vertical tab, form feed,
    carriage return, space, no-break space, U+1680, U+2000 to U+200A, the
    line and paragraph separators, U+202F, U+205F, U+3000 and the byte
    order mark.  All of them are single code units. *)
Definition is_space (c : CodeUnit) : bool :=
  (orb (andb (N.leb 9 c) (N.leb c 13))
  (orb (N.eqb c 32)
  (orb (N.eqb c 160)
  (orb (N.eqb c 5760)
  (orb (andb (N.leb 8192 c) (N.leb c 8202))
  (orb (N.eqb c 8232)
  (orb (N.eqb c 8233)
  (orb (N.eqb c 8239)
  (orb (N.eqb c 8287)
  (orb (N.eqb c 12288)
       (N.eqb c 65279)))))))))))%N.

Fixpoint trimStart (s : JsString) : JsString :=
  match s with
  | c :: r => if is_space c then trimStart r else s
  | [] => []
  end.

(** [s.trim()] *)
Definition trim (s : JsString) : JsString :=
  rev (trimStart (rev (trimStart s))).

(** [Review.findOne({ bookingId, reviewerId, targetId })] *)
Definition Review_findOne (bookingId reviewerId targetId : ObjectId)
  : RM (option (ObjectId * Review)) :=
  fun w => (Ok (list_find (fun r => rv_bookingId r = bookingId
                                    /\ rv_reviewerId r = reviewerId
                                    /\ rv_targetId r = targetId)
                          (rw_reviews w)), w).

(** [Review.create({...})]: [rating] is required and lies between 1 and 5,
    [comment] is trimmed by the setter of the path and then has at most
    1000 code units ([maxlength] compares [v.length]); then the unique
    index on (bookingId, reviewerId, targetId), then the insert. *)
Definition Review_create (bookingId reviewerId targetId : ObjectId)
    (reviewerRole targetRole : Role) (rating : option Number)
    (comment : option JsString) : RM Review :=
  match rating with
  | None => rthrow (ValidationError "rating")
  | Some r =>
      if negb (andb (Qle_bool 1 r) (Qle_bool r 5))
      then rthrow (ValidationError "rating")
      else
        let comment := trim <$> comment in
        if match comment with
           | Some c => Nat.ltb 1000 (length c)
           | None => false
           end
        then rthrow (ValidationError "comment")
        else
          dup ← Review_findOne bookingId reviewerId targetId;
          match dup with
          | Some _ => rthrow (DuplicateKey "bookingId_1_reviewerId_1_targetId_1")
          | None =>
              let review := mkReview bookingId reviewerId targetId reviewerRole
                              targetRole r comment in
              fun w => (Ok review,
                        mkReviewWorld (rw_db w) (rw_reviews w ++ [review]))
          end
  end.

(** [reviewerRole], [targetId] and [targetRole]: the customer reviews the
    professional, the professional the customer, nobody else reviews. *)
Definition review_roles (booking : Booking) (reviewerId : ObjectId)
  : option (Role * ObjectId * Role) :=
  if decide (b_customerId booking = reviewerId)
  then Some (role_customer, b_proId booking, role_pro)
  else if decide (b_proId booking = reviewerId)
       then Some (role_pro, b_customerId booking, role_customer)
       else None.

(** [createReview({ bookingId, reviewerId, rating, comment })].  [now] is
    the time of [booking.save()], [later] the time at which [settleEscrow]
    reads the clock.  The rating statistics that go to the target's User
    document, the trust score job and the loyalty hook write paths of User
    that this model does not carry; the last two run inside try/catch. *)
Definition createReview (bookingId reviewerId : ObjectId)
    (rating : option Number) (comment : option JsString) (now later : Date)
  : RM Review :=
  booking ← on_db (Booking_findById bookingId);
  match booking with
  | None => rthrow (Error "Booking not found")
  | Some booking =>
    if negb (bool_decide (b_status booking = bs_completed))
    then rthrow (Error "You can only review after booking completion")
    else
      match review_roles booking reviewerId with
      | None => rthrow (Error "You are not a participant in this booking")
      | Some (reviewerRole, targetId, targetRole) =>
        (* Prevent duplicate reviews *)
        existing ← Review_findOne bookingId reviewerId targetId;
        match existing with
        | Some _ =>
            rthrow (Error "You have already submitted a review for this booking")
        | None =>
          (* Create review *)
          review ← Review_create bookingId reviewerId targetId reviewerRole
                     targetRole rating comment;
          (* Mark booking review status *)
          on_db (Booking_save bookingId booking
            (mkBooking (b_customerId booking) (b_proId booking) (b_status booking)
               (b_totalAmount booking) (b_escrowAmount booking)
               (b_paymentStatus booking) (b_paymentGateway booking)
               (b_escrowId booking) (b_paymentReference booking) (b_txRef booking)
               (match reviewerRole with
                | role_customer => true
                | role_pro => b_customerReviewed booking
                end)
               (match reviewerRole with
                | role_pro => true
                | role_customer => b_proReviewed booking
                end)
               (b_paymentReleased booking) (b_settledAt booking)
               (b_updatedAt booking)) now);;
          (* Attempt escrow release *)
          rtry_catch (on_db (settleEscrow bookingId later);; mret tt)
                     (fun err => mret tt);;
          mret review
        end
      end
  end.

(** ** routes/escrowRoutes.js *)

Inductive InitiateBody :=
| initiate_required
| initiate_data (data : InitReturn)
| initiate_error (error : string).

(** [router.post("/initiate")]; [gateway] defaults to Paystack. *)
Definition escrow_initiate (bookingId : option ObjectId) (amount : option Number)
    (email : option string) (gateway : option string)
    (initResult : option InitResult) (now : Date) : Handler InitiateBody :=
  match bookingId with
  | Some bid =>
      if orb (falsyN amount) (falsyS email)
      then fun w => (mkResponse 400 initiate_required, w)
      else respond (initializeEscrow bid amount (default PAYSTACK gateway)
                      initResult now)
             (fun result => mkResponse 200 (initiate_data result))
             (fun err => mkResponse 500 (initiate_error (err_message err)))
  | None => fun w => (mkResponse 400 initiate_required, w)
  end.

Inductive FundsBody :=
| funds_data (data : FundsReturn)
| funds_error (error : string).

(** [router.post("/release/:bookingId")]; [bookingId] is the id the path
    parameter spells, [user] is [req.user?._id]. *)
Definition escrow_release (bookingId : ObjectId) (user : option ObjectId)
    (note : option string) (payout : Result (option PayoutResult)) (now : Date)
    (rnd : nat) : Handler FundsBody :=
  respond (releaseFunds bookingId user (default "" (orS note (Some "")))
             payout now rnd)
    (fun result => mkResponse 200 (funds_data result))
    (fun err => mkResponse 500 (funds_error (err_message err))).

(** [router.post("/refund/:bookingId")] *)
Definition escrow_refund (bookingId : ObjectId) (user : option ObjectId)
    (reason : option string) (refund : Result (option PayoutResult)) (now : Date)
    (rnd : nat) : Handler FundsBody :=
  respond (refundFunds bookingId user (default "" (orS reason (Some "")))
             refund now rnd)
    (fun result => mkResponse 200 (funds_data result))
    (fun err => mkResponse 500 (funds_error (err_message err))).

(** [router.post("/webhook/paystack")]; [body] is the parsed payload. *)
Definition escrow_webhook_paystack (signatureOk : bool) (body : WebhookBody)
    (verify : option VerifyResult) (now : Date) : Handler WebhookResult :=
  respond (handleWebhook signatureOk body PAYSTACK verify now)
    (fun result => mkResponse 200 result)
    (fun err => mkResponse 200 (wr_error_of err)).

(** [router.post("/webhook/flutterwave")] *)
Definition escrow_webhook_flutterwave (signatureOk : bool) (body : WebhookBody)
    (verify : option VerifyResult) (now : Date) : Handler WebhookResult :=
  respond (handleWebhook signatureOk body FLUTTERWAVE verify now)
    (fun result => mkResponse 200 result)
    (fun err => mkResponse 200 (wr_error_of err)).

(** ** controllers/disputeController.js *)

Inductive DisputeBody :=
| dispute_message (message : string)
| dispute_doc (dispute : ObjectId * Dispute).

(** [createDispute(req, res)].  The controller hands the service
    [{bookingId, initiatorId, reason, description, evidence}]; the service
    destructures [raisedBy], which that object does not have. *)
Definition disputeController_createDispute (initiatorId : option ObjectId)
    (bookingId : option ObjectId) (reason description : option string)
  : Handler DisputeBody :=
  match bookingId with
  | Some bid =>
      if falsyS reason
      then fun w => (mkResponse 400
                       (dispute_message "bookingId and reason are required"), w)
      else respond (createDispute bid None reason description)
             (fun dispute => mkResponse 201 (dispute_doc dispute))
             (fun err => mkResponse 400 (dispute_message (err_message err)))
  | None => fun w => (mkResponse 400
                        (dispute_message "bookingId and reason are required"), w)
  end.

(** The service's [resolveDispute] applied to an argument whose [disputeId]
    may be undefined: [Dispute.findById(undefined)] finds nothing. *)
Definition resolveDispute_call (disputeId : option ObjectId)
    (resolvedBy : option ObjectId) (resolution : option string) (now : Date)
  : M (ObjectId * Dispute) :=
  match disputeId with
  | Some i => resolveDispute i resolvedBy resolution now
  | None => throw (Error "Dispute not found")
  end.

(** [resolveDispute(req, res)].  The controller calls
    [disputeService.resolveDispute(id, {...})]: the service destructures its
    first argument, the id string, none of whose properties is defined. *)
Definition disputeController_resolveDispute (id : ObjectId)
    (resolvedBy : option ObjectId) (resolution : option string) (now : Date)
  : Handler DisputeBody :=
  if falsyS resolution
  then fun w => (mkResponse 400 (dispute_message "resolution is required"), w)
  else respond (resolveDispute_call None None None now)
         (fun dispute => mkResponse 200 (dispute_doc dispute))
         (fun err => mkResponse 400 (dispute_message (err_message err))).

(** ** controllers/reconciliationController.js *)

Inductive ReconciliationBody :=
| reconciliation_report (report : ReconciliationReport)
| reconciliation_error (error : string).

(** [runReconciliation(req, res)]; [user] is [req.user?.id], so [runBy] is
    [req.user?.id || null].  The function is exported by the controller
    module; no router mounted by index.js calls it. *)
Definition runReconciliation (user : option ObjectId)
  : Handler ReconciliationBody :=
  respond (reconcileTransactions 5000
             match user with Some u => RunBy_user u | None => RunBy_null end)
    (fun report => mkResponse 201 (reconciliation_report report))
    (fun err => mkResponse 500 (reconciliation_error (err_message err))).

(** ** routes/webhooks.js: the reference of a Paystack event *)

(** [data.reference || "dummy_ref"] *)
Definition paystack_reference (data_reference : option string) : string :=
  default "dummy_ref" (orS data_reference (Some "dummy_ref")).

(** A booking that carries the payment reference PR1, initialized: its
    escrow is pending and has no gateway reference yet, the ledger entry for
    PR1 is pending. *)
Definition world_pending_reference : World :=
  mkWorld
    [mkBooking 0 1 bs_pending 5000%Q 0%Q ps_pending (Some "paystack") None
       (Some "PR1") None false false false None 1000%Z]
    [mkEscrow 0 5000%Q st_pending (Some "paystack") None (Some "init:0:") false
       None 1000%Z]
    [mkTransaction (Some 0) (Some 0) None 5000%Q ty_escrow tx_pending
       (Some "paystack") "PR1" (Some "tx:init:0:PR1") "initialization"]
    [] [mkUser "Ada" "customer"; mkUser "Tunde" "pro"] [] [].

(** * Properties *)

(** ** Reasoning about service calls *)

Section Preserves.
Context (I : World -> Prop).

Lemma preserves_ret {A} (a : A) : preserves I (mret a).
Proof. intros w H; exact H. Qed.

Lemma preserves_throw {A} (e : Err) : preserves I (@throw A e).
Proof. intros w H; exact H. Qed.

Lemma preserves_error {A} (msg : string) (e : Err) : preserves I (@_error A msg e).
Proof. intros w H; exact H. Qed.

Lemma preserves_gets {A} (f : World -> A) : preserves I (gets f).
Proof. intros w H; exact H. Qed.

Lemma preserves_modify (f : World -> World) :
  (forall w, I w -> I (f w)) -> preserves I (modify f).
Proof. intros Hf w H; apply Hf, H. Qed.

Lemma preserves_bind {A B} (m : M A) (k : A -> M B) :
  preserves I m -> (forall a, preserves I (k a)) -> preserves I (m ≫= k).
Proof.
  intros Hm Hk w H. unfold mbind, M_bind.
  specialize (Hm w H). destruct (m w) as [[a|e] w']; simpl in *.
  - apply Hk, Hm.
  - exact Hm.
Qed.

Lemma preserves_try_catch {A} (m : M A) (h : Err -> M A) :
  preserves I m -> (forall e, preserves I (h e)) -> preserves I (try_catch m h).
Proof.
  intros Hm Hh w H. unfold try_catch.
  specialize (Hm w H). destruct (m w) as [[a|e] w']; simpl in *.
  - exact Hm.
  - apply Hh, Hm.
Qed.

Lemma preserves_withTransaction {A} (m : M A) :
  preserves I m -> preserves I (withTransaction m).
Proof.
  intros Hm w H. unfold withTransaction.
  specialize (Hm w H). destruct (m w) as [[a|e] w']; simpl in *; assumption.
Qed.
End Preserves.

(** Walk down the code of a service: binds, handlers, branches. *)
Ltac preserves_step leaf :=
  lazymatch goal with
  | |- preserves _ (mret _) => apply preserves_ret
  | |- preserves _ (throw _) => apply preserves_throw
  | |- preserves _ (_error _ _) => apply preserves_error
  | |- preserves _ (gets _) => apply preserves_gets
  | |- preserves _ (mbind _ _) => apply preserves_bind; [| intros ?]
  | |- preserves _ (try_catch _ _) => apply preserves_try_catch; [| intros ?]
  | |- preserves _ (withTransaction _) => apply preserves_withTransaction
  | |- preserves _ (match ?x with _ => _ end) => destruct x
  | |- preserves _ (let '(_, _) := ?x in _) => destruct x
  | |- _ => leaf
  end.

Ltac preserves_walk leaf := repeat (preserves_step leaf).

(** The reads. *)
Lemma preserves_Booking_findById I i : preserves I (Booking_findById i).
Proof. apply preserves_gets. Qed.
Lemma preserves_Escrow_findOne_bookingId I b :
  preserves I (Escrow_findOne_bookingId b).
Proof. apply preserves_gets. Qed.
Lemma preserves_Escrow_findOne_gatewayReference I r :
  preserves I (Escrow_findOne_gatewayReference r).
Proof. apply preserves_gets. Qed.
Lemma preserves_Transaction_findOne_reference I r :
  preserves I (Transaction_findOne_reference r).
Proof. apply preserves_gets. Qed.

Create HintDb reads.
#[global] Hint Resolve preserves_Booking_findById preserves_Escrow_findOne_bookingId
  preserves_Escrow_findOne_gatewayReference
  preserves_Transaction_findOne_reference : reads.

(** ** The ledger is write-once per reference *)

(** A property of the ledger alone is kept by every write to the other
    collections. *)
Section LedgerFrame.
Context (P : list Transaction -> Prop).

Lemma ledger_Escrow_save i old new now : preserves (on_ledger P) (Escrow_save i old new now).
Proof.
  apply preserves_modify. intros w H.
  destruct (decide (old = new)); exact H.
Qed.

Lemma ledger_Escrow_write i new now : preserves (on_ledger P) (Escrow_write i new now).
Proof. apply preserves_modify. intros w H. exact H. Qed.

Lemma ledger_Booking_save i old new now : preserves (on_ledger P) (Booking_save i old new now).
Proof.
  apply preserves_modify. intros w H.
  destruct (decide (old = new)); exact H.
Qed.

Lemma ledger_Escrow_insert e : preserves (on_ledger P) (Escrow_insert e).
Proof. intros w H. exact H. Qed.

Lemma ledger_Escrow_create e : preserves (on_ledger P) (Escrow_create e).
Proof.
  unfold Escrow_create.
  preserves_walk ltac:(first [apply ledger_Escrow_insert | solve [auto with reads]]).
Qed.

Lemma ledger_Escrow_upsert_bookingId e now :
  preserves (on_ledger P) (Escrow_upsert_bookingId e now).
Proof.
  unfold Escrow_upsert_bookingId.
  preserves_walk ltac:(first [apply ledger_Escrow_insert
                             | solve [auto with reads]
                             | (apply preserves_modify; intros ? H; exact H)]).
Qed.
End LedgerFrame.

(** [recordTransaction] on a reference the ledger holds: the stored
    document comes back and nothing is written. *)
Lemma recordTransaction_existing (w : World) (p : TxParams) (r : string)
    (i : ObjectId) (tx : Transaction) :
  p_reference p = Some r ->
  truthyS r = true ->
  list_find (fun t => t_reference t = r) (transactions w) = Some (i, tx) ->
  recordTransaction p w = (Ok (i, tx), w).
Proof.
  intros Hr Ht Hf. unfold recordTransaction. rewrite Hr, Ht.
  unfold mbind, M_bind, Transaction_findOne_reference, gets. rewrite Hf.
  reflexivity.
Qed.

Lemma ledger_recordTransaction_existing (l : list Transaction) (p : TxParams)
    (r : string) (i : ObjectId) (tx : Transaction) :
  p_reference p = Some r ->
  truthyS r = true ->
  list_find (fun t => t_reference t = r) l = Some (i, tx) ->
  preserves (fun w => transactions w = l) (recordTransaction p).
Proof.
  intros Hr Ht Hf w Hw. subst l.
  rewrite (recordTransaction_existing w p r i tx Hr Ht Hf). reflexivity.
Qed.

Lemma truthyS_true (r : string) : r <> "" -> truthyS r = true.
Proof.
  intros H. unfold truthyS. destruct (String.eqb_spec r ""); [contradiction|reflexivity].
Qed.

(** A webhook whose reference the ledger already holds writes nothing to
    the ledger, whatever its event. *)
Lemma handleWebhook_ledger_unchanged (l : list Transaction) (r : string)
    (i : ObjectId) (tx : Transaction) signatureOk body gateway verify now :
  list_find (fun t => t_reference t = r) l = Some (i, tx) ->
  webhook_reference gateway body = Some r ->
  preserves (fun w => transactions w = l)
            (handleWebhook signatureOk body gateway verify now).
Proof.
  intros Hf Hr. unfold handleWebhook. rewrite Hr.
  destruct (truthyS r) eqn:Ht; simpl negb; cbv iota.
  - preserves_walk ltac:(first
      [ solve [auto with reads]
      | apply (ledger_Escrow_save (fun l' => l' = l))
      | apply (ledger_Booking_save (fun l' => l' = l))
      | apply (ledger_Escrow_create (fun l' => l' = l))
      | apply (ledger_Escrow_upsert_bookingId (fun l' => l' = l))
      | (eapply ledger_recordTransaction_existing; [reflexivity | exact Ht | exact Hf]) ]).
  - preserves_walk ltac:(solve [auto with reads]).
Qed.

(** C10. The ledger is write-once per reference: when the ledger holds a
    Transaction with reference [r], every call of recordTransaction with
    that reference returns the stored document and writes nothing, whatever
    status, amount and type the call supplies; and a webhook delivery for
    [r] leaves the ledger as it was, so an entry that is still [pending]
    stays [pending] under a success webhook. *)
Theorem ledger_write_once (w : World) (r : string) (i : ObjectId)
    (tx : Transaction) :
  r <> "" ->
  list_find (fun t => t_reference t = r) (transactions w) = Some (i, tx) ->
  (forall p : TxParams,
      p_reference p = Some r -> recordTransaction p w = (Ok (i, tx), w)) /\
  (forall signatureOk body gateway verify now,
      webhook_reference gateway body = Some r ->
      webhook_isSuccess gateway body = true ->
      let w' := snd (handleWebhook signatureOk body gateway verify now w) in
      transactions w' = transactions w /\
      transactions w' !! i = Some tx /\
      (t_status tx = tx_pending ->
       forall t, transactions w' !! i = Some t -> t_status t = tx_pending)).
Proof.
  intros Hne Hf. split.
  - intros p Hp. apply (recordTransaction_existing w p r i tx Hp); auto using truthyS_true.
  - intros signatureOk body gateway verify now Hr _ w'.
    assert (Hl : transactions w' = transactions w).
    { apply (handleWebhook_ledger_unchanged (transactions w) r i tx); auto. }
    apply list_find_Some in Hf as (Hi & _ & _).
    rewrite Hl. split; [reflexivity|]. split; [exact Hi|].
    intros Hs t Ht. congruence.
Qed.

Lemma ledger_write_once_witness :
  (forall p : TxParams,
      p_reference p = Some "R1" ->
      recordTransaction p world_initialized
      = (Ok (0, mkTransaction (Some 0) (Some 0) None 5000%Q ty_escrow tx_pending
                  (Some "paystack") "R1" (Some "tx:init:0:R1") "initialization"),
         world_initialized)) /\
  (forall signatureOk body gateway verify now,
      webhook_reference gateway body = Some "R1" ->
      webhook_isSuccess gateway body = true ->
      let w' := snd (handleWebhook signatureOk body gateway verify now
                       world_initialized) in
      transactions w' = transactions world_initialized /\
      transactions w' !! 0 =
        Some (mkTransaction (Some 0) (Some 0) None 5000%Q ty_escrow tx_pending
                (Some "paystack") "R1" (Some "tx:init:0:R1") "initialization") /\
      (tx_pending = tx_pending ->
       forall t, transactions w' !! 0 = Some t -> t_status t = tx_pending)).
Proof.
  apply (ledger_write_once world_initialized "R1" 0).
  - discriminate.
  - vm_compute. reflexivity.
Defined.

(** ** Webhook deliveries after initialization *)

Lemma Escrow_save_same i e now w : Escrow_save i e e now w = (Ok tt, w).
Proof.
  unfold Escrow_save, modify. rewrite decide_True by reflexivity. reflexivity.
Qed.

Lemma Booking_save_same i b now w : Booking_save i b b now w = (Ok tt, w).
Proof.
  unfold Booking_save, modify. rewrite decide_True by reflexivity. reflexivity.
Qed.

Lemma first_delivery t :
  deliver t world_initialized = (Ok (wr_plain true), world_held t).
Proof. vm_compute. reflexivity. Qed.

Lemma next_delivery t t' :
  deliver t' (world_held t) = (Ok (wr_plain true), world_held t).
Proof.
  unfold deliver, handleWebhook.
  cbv -[Escrow_save Booking_save].
  rewrite Escrow_save_same.
  cbv -[Escrow_save Booking_save].
  rewrite Booking_save_same.
  reflexivity.
Qed.

Lemma deliveries_held ts t : deliveries ts (world_held t) = world_held t.
Proof.
  induction ts as [|t' ts IH]; [reflexivity|].
  change (deliveries ts (snd (deliver t' (world_held t))) = world_held t).
  rewrite next_delivery. exact IH.
Qed.

(** Where no initialization went before, the webhook is idempotent: the
    first delivery records the one [success] Transaction and holds the
    escrow, every later one is answered [already_processed] and writes
    nothing. *)
Lemma webhook_without_initialization_is_idempotent (t t' : Date) :
  deliver t world_B1 = (Ok (wr_plain true), world_paid_directly t) /\
  deliver t' (world_paid_directly t)
  = (Ok (wr_reason_of true "already_processed"), world_paid_directly t) /\
  length (success_entries "R1" (world_paid_directly t)) = 1.
Proof. repeat split; vm_compute; reflexivity. Qed.

(** C1, at the ordinary flow.  The customer initializes the escrow of
    booking B1 (the ledger gets a [pending] entry with reference R1), then
    Paystack delivers [charge.success] for R1 one or more times, at any
    times.  After the deliveries the ledger holds no [success] Transaction
    for R1, where the claim has exactly one: the ledger is the one of
    initialization, and a further delivery is again answered with a plain
    [{success: true}], never with [already_processed]. *)
Theorem webhook_after_initialization_records_no_success (t : Date)
    (ts : list Date) :
  let w := deliveries (t :: ts) world_initialized in
  success_entries "R1" w = [] /\
  transactions w = transactions world_initialized /\
  w = world_held t /\
  forall t', fst (deliver t' w) = Ok (wr_plain true).
Proof.
  intros w. subst w.
  change (deliveries (t :: ts) world_initialized)
    with (deliveries ts (snd (deliver t world_initialized))).
  rewrite first_delivery. cbn [snd]. rewrite deliveries_held.
  split; [reflexivity|]. split; [reflexivity|]. split; [reflexivity|].
  intros t'. rewrite next_delivery. reflexivity.
Qed.

(** ** Release and refund *)

Lemma truthyS_append (a b : string) : truthyS a = true -> truthyS (a ++ b) = true.
Proof. destruct a; [discriminate|reflexivity]. Qed.

Lemma orS_truthy (a : option string) (s : string) :
  truthyS s = true -> exists r, orS a (Some s) = Some r /\ truthyS r = true.
Proof.
  intros Hs. destruct a as [x|]; simpl; [destruct (truthyS x) eqn:Hx|]; eauto.
Qed.

Lemma funds_reference_truthy k result now rnd :
  truthyS (fk_prefix k) = true -> truthyS (funds_reference k result now rnd) = true.
Proof.
  intros Hk. unfold funds_reference.
  destruct (orS_truthy (result ≫= po_reference) (local_reference k now rnd))
    as (r & -> & Hr); [|exact Hr].
  unfold local_reference. apply truthyS_append, Hk.
Qed.

(** What [releaseFunds] / [refundFunds] do to a booking that has an escrow,
    when the adapter call returns. *)
Lemma moveFunds_outcome (k : FundsKind) (w : World) (bookingId : ObjectId)
    (booking : Booking) (eid : ObjectId) (escrow : Escrow) initiatedBy note dflt
    (result : option PayoutResult) now rnd :
  truthyS (fk_prefix k) = true ->
  bookings w !! bookingId = Some booking ->
  list_find (fun e => e_bookingId e = bookingId) (escrows w) = Some (eid, escrow) ->
  let ok := payout_ok result in
  let reference := funds_reference k result now rnd in
  let out := moveFunds k bookingId initiatedBy note dflt (Ok result) now rnd w in
  (state_in_held_pending_disputed (e_state escrow) = false ->
     (exists e, fst out = Throw e) /\ snd out = w) /\
  (state_in_held_pending_disputed (e_state escrow) = true ->
     fst out = Ok (mkFundsReturn ok reference) /\
     (exists e', escrows (snd out) !! eid = Some e' /\
                 e_state e' = if ok then fk_done k else st_disputed) /\
     match list_find (fun t => t_reference t = reference) (transactions w) with
     | Some _ => transactions (snd out) = transactions w
     | None =>
         exists t, transactions (snd out) = (transactions w ++ [t])%list /\
                   t_type t = fk_type k /\
                   t_status t = (if ok then tx_success else tx_failed) /\
                   t_reference t = reference /\
                   t_bookingId t = Some bookingId
     end).
Proof.
  intros Hk Hb He. cbv zeta.
  pose proof (funds_reference_truthy k result now rnd Hk) as Hrt.
  assert (Hlt : eid < length (escrows w)).
  { apply list_find_Some in He as (Hi & _). eapply lookup_lt_Some, Hi. }
  unfold moveFunds, try_catch, withTransaction, mbind, M_bind,
    Booking_findById, Escrow_findOne_bookingId, gets.
  rewrite Hb, He. cbv zeta.
  destruct (state_in_held_pending_disputed (e_state escrow)) eqn:Hg; cbn [negb].
  - split; [discriminate|]. intros _.
    cbn [mret M_ret].
    unfold recordTransaction, mbind, M_bind. cbn [p_reference].
    remember (funds_reference k result now rnd) as reference eqn:Href.
    remember (payout_ok result) as ok eqn:Hok.
    rewrite Hrt.
    unfold Transaction_findOne_reference, gets.
    destruct (list_find (λ t, t_reference t = reference) (transactions w))
      as [[j t]|] eqn:Hf.
    + cbn. destruct (decide (booking = _)); cbn.
      all: split; [reflexivity|]; split; [|reflexivity].
      all: eexists; split; [apply list_lookup_insert_eq, Hlt|reflexivity].
    + unfold Transaction_create. cbn [p_bookingId p_amount p_reference].
      rewrite Hrt. cbn [negb].
      unfold mbind, M_bind, Transaction_findOne_reference, gets.
      rewrite Hf. cbn. destruct (decide (booking = _)); cbn.
      all: split; [reflexivity|]; split.
      all: try (eexists; split; [apply list_lookup_insert_eq, Hlt|reflexivity]).
      all: eexists; split; [reflexivity|]; cbn; auto.
  - split; [|discriminate]. intros _. cbn. split; [eauto|reflexivity].
Qed.

(** C2, as the code has it.  For a booking with an escrow, releaseFunds
    throws and changes nothing when the escrow is not held, pending or
    disputed.  When the guard passes and the payout call returns, the escrow
    ends [released] if the payout succeeded and [disputed] otherwise, never
    [held]; a [release] Transaction whose status mirrors the payout result
    is appended to the ledger unless the ledger already holds a Transaction
    with the payout's reference, in which case the ledger is left as it
    is. *)
Theorem releaseFunds_outcome (w : World) (bookingId : ObjectId)
    (booking : Booking) (eid : ObjectId) (escrow : Escrow)
    (initiatedBy : option ObjectId) (note : string)
    (result : option PayoutResult) (now : Date) (rnd : nat) :
  bookings w !! bookingId = Some booking ->
  list_find (fun e => e_bookingId e = bookingId) (escrows w) = Some (eid, escrow) ->
  let ok := payout_ok result in
  let reference := funds_reference releaseKind result now rnd in
  let out := releaseFunds bookingId initiatedBy note (Ok result) now rnd w in
  (state_in_held_pending_disputed (e_state escrow) = false ->
     (exists e, fst out = Throw e) /\ snd out = w) /\
  (state_in_held_pending_disputed (e_state escrow) = true ->
     fst out = Ok (mkFundsReturn ok reference) /\
     (exists e', escrows (snd out) !! eid = Some e' /\
                 e_state e' = (if ok then st_released else st_disputed) /\
                 e_state e' <> st_held) /\
     match list_find (fun t => t_reference t = reference) (transactions w) with
     | Some _ => transactions (snd out) = transactions w
     | None =>
         exists t, transactions (snd out) = (transactions w ++ [t])%list /\
                   t_type t = ty_release /\
                   t_status t = (if ok then tx_success else tx_failed) /\
                   t_reference t = reference /\
                   t_bookingId t = Some bookingId
     end).
Proof.
  intros Hb He ok reference out.
  destruct (moveFunds_outcome releaseKind w bookingId booking eid escrow
              initiatedBy note "release" result now rnd eq_refl Hb He)
    as [Hfail Hpass].
  split; [exact Hfail|].
  intros Hg. destruct (Hpass Hg) as (Hr & (e' & He' & Hs) & Hl).
  split; [exact Hr|]. split; [|exact Hl].
  exists e'. split; [exact He'|]. split; [exact Hs|].
  rewrite Hs. cbn. destruct (payout_ok result); discriminate.
Qed.

Lemma releaseFunds_outcome_witness :
  let out := releaseFunds 1 None "" payout_at_ms 1700000000000%Z 4821
               world_two_held in
  (state_in_held_pending_disputed st_held = false ->
     (exists e, fst out = Throw e) /\ snd out = world_two_held) /\
  (state_in_held_pending_disputed st_held = true ->
     fst out = Ok (mkFundsReturn true "REL-PS-1700000000000") /\
     (exists e', escrows (snd out) !! 1 = Some e' /\
                 e_state e' = st_released /\ e_state e' <> st_held) /\
     exists t, transactions (snd out)
               = (transactions world_two_held ++ [t])%list /\
               t_type t = ty_release /\
               t_status t = tx_success /\
               t_reference t = "REL-PS-1700000000000" /\
               t_bookingId t = Some 1).
Proof.
  exact (releaseFunds_outcome world_two_held 1
           (mkBooking 0 1 bs_confirmed 7000%Q 7000%Q ps_escrowed
              (Some "paystack") (Some 1) None None false false false None 2500%Z)
           1
           (mkEscrow 1 7000%Q st_held (Some "paystack") (Some "R2") None false
              None 2500%Z)
           None "" (Some (mkPayoutResult true (Some "REL-PS-1700000000000")))
           1700000000000%Z 4821 eq_refl eq_refl).
Defined.

(** C2 as stated fails: booking 0 is released in the millisecond in which
    booking 1 was, so the adapter hands out the reference that the ledger
    already holds.  The guard passes, the call reports success, the escrow
    becomes [released], and no [release] Transaction is recorded for the
    booking.  And when the payout call itself throws, the guard has passed
    but nothing is recorded and the escrow stays [held]. *)
Lemma releaseFunds_records_nothing_on_known_reference :
  let out := releaseFunds 0 None "" payout_at_ms 1700000000000%Z 1717
               world_first_released in
  let out' := releaseFunds 0 None "" (Throw (Error "timeout of 10000ms exceeded"))
                1700000000000%Z 1717 world_first_released in
  (exists e, list_find (fun e => e_bookingId e = 0) (escrows world_first_released)
             = Some (0, e) /\
             state_in_held_pending_disputed (e_state e) = true) /\
  fst out = Ok (mkFundsReturn true "REL-PS-1700000000000") /\
  (exists e', escrows (snd out) !! 0 = Some e' /\ e_state e' = st_released) /\
  transactions (snd out) = transactions world_first_released /\
  release_entries 0 (snd out) = [] /\
  (exists err, fst out' = Throw err) /\
  (exists e', escrows (snd out') !! 0 = Some e' /\ e_state e' = st_held) /\
  release_entries 0 (snd out') = [].
Proof.
  cbv zeta. split; [eexists; split; vm_compute; reflexivity|].
  split; [vm_compute; reflexivity|].
  split; [eexists; split; vm_compute; reflexivity|].
  split; [vm_compute; reflexivity|].
  split; [vm_compute; reflexivity|].
  split; [eexists; vm_compute; reflexivity|].
  split; [eexists; split; vm_compute; reflexivity|].
  vm_compute; reflexivity.
Qed.

(** ** Settlement *)

(** [settleEscrow] in closed form.  The test on [escrow.status] cannot fire
    on a loaded document, the save has no schema path to write, and the
    payout insert lacks the required [amount]. *)
Lemma settleEscrow_unfold (w : World) (bookingId : ObjectId) (now : Date) :
  settleEscrow bookingId now w =
  (match bookings w !! bookingId with
   | None => Throw (Error "Booking not found")
   | Some booking =>
     match list_find (fun e => e_bookingId e = bookingId) (escrows w) with
     | None => Throw (Error "Escrow record not found")
     | Some ie =>
       if settle_waits booking now then Ok None
       else match users w !! b_proId booking with
            | None => Throw (Error "Pro user not found")
            | Some _ => Throw (ValidationError "amount")
            end
     end
   end, w).
Proof.
  unfold settleEscrow, mbind, M_bind, Booking_findById, Escrow_findOne_bookingId, gets.
  destruct (bookings w !! bookingId) as [booking|]; [|reflexivity].
  destruct (list_find _ (escrows w)) as [ie|]; [|reflexivity].
  unfold Escrow_load, Escrow_status. cbn [doc_status bool_decide].
  rewrite bool_decide_eq_false_2 by discriminate.
  destruct (settle_waits booking now); [reflexivity|].
  cbn [doc doc_id fst snd]. rewrite Escrow_save_same.
  destruct (users w !! b_proId booking); reflexivity.
Qed.

Lemma settleEscrow_world (w : World) (bookingId : ObjectId) (now : Date) :
  snd (settleEscrow bookingId now w) = w.
Proof. rewrite settleEscrow_unfold. reflexivity. Qed.

(** C4, at a booking whose grace period is over.  Booking B1 was last
    written at time 0, nobody reviewed, its escrow is held, the professional
    exists.  Four days later settleEscrow releases nothing: it throws the
    validation error of the payout insert and the database is the one
    before the call, with the escrow held, no [payout] Transaction and
    [paymentReleased] false.  At exactly three days it still waits. *)
Theorem settleEscrow_after_grace_releases_nothing :
  (forall b, bookings world_completed !! 0 = Some b ->
             graceExpired b four_days = true) /\
  settleEscrow 0 four_days world_completed
  = (Throw (ValidationError "amount"), world_completed) /\
  (exists e, escrows world_completed !! 0 = Some e /\ e_state e = st_held) /\
  (exists b, bookings world_completed !! 0 = Some b /\
             b_paymentReleased b = false /\ b_settledAt b = None) /\
  settleEscrow 0 gracePeriodMs world_completed = (Ok None, world_completed).
Proof.
  split; [intros b [= <-]; reflexivity|].
  split; [rewrite settleEscrow_unfold; reflexivity|].
  split; [eexists; split; reflexivity|].
  split; [eexists; split; [reflexivity|split; reflexivity]|].
  rewrite settleEscrow_unfold. reflexivity.
Qed.

(** C7. Whenever settleEscrow fails, the database is the one before the
    call: no escrow is left marked released without its payout Transaction
    and Booking update.  On the release path the payout insert is rejected
    and that rejection is what the caller receives. *)
Theorem settleEscrow_no_partial_state (w : World) (bookingId : ObjectId)
    (now : Date) :
  (forall e, fst (settleEscrow bookingId now w) = Throw e ->
             snd (settleEscrow bookingId now w) = w) /\
  (forall booking ie pro,
      bookings w !! bookingId = Some booking ->
      list_find (fun e => e_bookingId e = bookingId) (escrows w) = Some ie ->
      settle_waits booking now = false ->
      users w !! b_proId booking = Some pro ->
      exists e,
        Transaction_create (payout_params bookingId (snd ie)) w = (Throw e, w) /\
        settleEscrow bookingId now w = (Throw e, w)).
Proof.
  split.
  - intros e _. apply settleEscrow_world.
  - intros booking ie pro Hb He Hg Hp.
    exists (ValidationError "amount"). split; [reflexivity|].
    rewrite settleEscrow_unfold, Hb, He, Hg, Hp. reflexivity.
Qed.

Lemma settleEscrow_no_partial_state_witness :
  snd (settleEscrow 0 four_days world_completed) = world_completed /\
  exists e,
    Transaction_create
      (payout_params 0 (mkEscrow 0 5000%Q st_held (Some "paystack") (Some "R1")
                          None false None 0%Z))
      world_completed = (Throw e, world_completed) /\
    settleEscrow 0 four_days world_completed = (Throw e, world_completed).
Proof.
  split.
  - apply (proj1 (settleEscrow_no_partial_state world_completed 0 four_days)
                 (ValidationError "amount")).
    vm_compute. reflexivity.
  - apply (proj2 (settleEscrow_no_partial_state world_completed 0 four_days)
                 (mkBooking 0 1 bs_completed 5000%Q 5000%Q ps_escrowed
                    (Some "paystack") (Some 0) None None false false false None 0%Z)
                 (0, mkEscrow 0 5000%Q st_held (Some "paystack") (Some "R1")
                       None false None 0%Z)
                 (mkUser "Tunde" "pro")); reflexivity.
Defined.

(** ** Reconciliation *)

Lemma TxType_never_payment (t : TxType) : String.eqb (TxType_name t) "payment" = false.
Proof. destruct t; reflexivity. Qed.

(** The branch guarded by [tx.type === "payment"] is dead: a transaction
    whose booking exists raises no issue at all. *)
Lemma check_transaction_closed (w : World) (i : ObjectId) (tx : Transaction) :
  check_transaction w i tx =
  match t_bookingId tx with
  | None =>
      [mkIssue "txn_without_booking" "high" "Transaction missing bookingId"
         (rel (Some i) None None)]
  | Some bid =>
    match bookings w !! bid with
    | None =>
        [mkIssue "txn_booking_missing" "high"
           "Transaction references a missing booking"
           (rel (Some i) None (Some bid))]
    | Some _ => []
    end
  end.
Proof.
  unfold check_transaction. rewrite TxType_never_payment.
  destruct (t_bookingId tx); [|reflexivity].
  destruct (bookings w !! _); reflexivity.
Qed.

Lemma check_transaction_never_missing_escrow (w : World) (i : ObjectId)
    (tx : Transaction) (iss : Issue) :
  In iss (check_transaction w i tx) -> i_type iss <> "txn_missing_escrow".
Proof.
  rewrite check_transaction_closed.
  destruct (t_bookingId tx) as [bid|]; [destruct (bookings w !! bid)|];
    cbn; intros H; intuition (subst; cbn; discriminate).
Qed.

(** C5, at a successful payment without escrow.  The ledger holds one
    Transaction of type [escrow] and status [success] for an existing
    booking that has no Escrow document.  The run checks that transaction
    and reports no issue, where the claim has one [txn_missing_escrow]. *)
Theorem reconcileTransactions_misses_missing_escrow :
  fst (reconcileTransactions 5000 RunBy_null world_paid_without_escrow)
  = Ok (mkReport None 1 0 0 []).
Proof. vm_compute. reflexivity. Qed.

Lemma check_transaction_length w i tx : length (check_transaction w i tx) <= 1.
Proof.
  rewrite check_transaction_closed.
  destruct (t_bookingId tx) as [bid|]; [destruct (bookings w !! bid)|]; cbn; lia.
Qed.






(** ** Disputes *)







Lemma Dispute_create_frame (d : DisputeInput) (w : World) :
  let w' := snd (Dispute_create d w) in
  escrows w' = escrows w /\ bookings w' = bookings w /\
  transactions w' = transactions w.
Proof.
  unfold Dispute_create.
  destruct (di_bookingId d), (di_initiatorId d), (di_respondentId d),
    (di_reason d) as [reason|]; cbn; auto.
  destruct (truthyS reason); cbn; auto.
Qed.

(** C6, as the code has it.  createDispute writes no Escrow, Booking or
    Transaction: the booking's escrow keeps the state it had.  And
    settleEscrow does not look at the escrow's state: whatever that state
    is, [disputed] included, it skips (returns null) exactly when the
    reviews are incomplete and the grace period has not expired. *)
Theorem createDispute_leaves_escrow_alone (w : World) (bookingId : ObjectId)
    (raisedBy : option ObjectId) (reason description : option string) :
  let w' := snd (createDispute bookingId raisedBy reason description w) in
  escrows w' = escrows w /\ bookings w' = bookings w /\
  transactions w' = transactions w /\
  forall now booking ie,
    bookings w' !! bookingId = Some booking ->
    list_find (fun e => e_bookingId e = bookingId) (escrows w') = Some ie ->
    (fst (settleEscrow bookingId now w') = Ok None
     <-> settle_waits booking now = true).
Proof.
  cbv zeta. split; [|split; [|split]].
  1-3: unfold createDispute, mbind, M_bind, Booking_findById, gets;
       destruct (bookings w !! bookingId); [|reflexivity];
       match goal with
       | |- context [Dispute_create ?d ?w0] =>
           pose proof (Dispute_create_frame d w0) as (He & Hb & Ht);
           destruct (Dispute_create d w0) as [[a|e] w1]
       end; cbn in *; assumption.
  intros now booking ie Hb He.
  rewrite settleEscrow_unfold, Hb, He. cbn [fst].
  destruct (settle_waits booking now); [split; reflexivity|].
  split; [|discriminate].
  destruct (users _ !! b_proId booking); discriminate.
Qed.

Lemma createDispute_leaves_escrow_alone_witness :
  let w' := snd (createDispute 0 (Some 0) (Some "no_show") None world_frozen) in
  (exists e, list_find (fun e => e_bookingId e = 0) (escrows w') = Some (0, e) /\
             e_state e = st_disputed) /\
  (fst (settleEscrow 0 four_days w') = Ok None
   <-> settle_waits (mkBooking 0 1 bs_completed 5000%Q 5000%Q ps_escrowed
                       (Some "paystack") (Some 0) None None false false false None
                       0%Z) four_days = true).
Proof.
  cbv zeta. split; [eexists; split; reflexivity|].
  exact (proj2 (proj2 (proj2 (createDispute_leaves_escrow_alone world_frozen 0
                                (Some 0) (Some "no_show") None)))
           four_days _ (0, _) eq_refl eq_refl).
Defined.

(** C6 as stated fails: a dispute is opened on booking B1 while its escrow
    is held.  The escrow is still [held] afterwards, and four days after
    completion settleEscrow goes down its release path instead of
    skipping. *)
Lemma createDispute_does_not_freeze :
  let w' := snd (createDispute 0 (Some 0) (Some "no_show") None world_completed) in
  (exists e, list_find (fun e => e_bookingId e = 0) (escrows w') = Some (0, e) /\
             e_state e = st_held) /\
  fst (settleEscrow 0 four_days w') <> Ok None.
Proof.
  cbv zeta. split; [eexists; split; reflexivity|].
  vm_compute. discriminate.
Qed.

(** ** Escrow state arrows *)

Lemma moved_refl T w : moved T (escrows w) w.
Proof. intros i e H. eauto. Qed.

Lemma moved_same_escrows T l0 w w' :
  escrows w' = escrows w -> moved T l0 w -> moved T l0 w'.
Proof. intros E H i e Hi. rewrite E. apply H, Hi. Qed.

(** Writing at [i] a document whose state is a target of [T], or the state
    that the stored document has. *)
Lemma moved_write T l0 w i (new : Escrow) :
  (forall s, T s (e_state new)) \/
  (exists cur, escrows w !! i = Some cur /\ e_state new = e_state cur) ->
  moved T l0 w ->
  moved T l0 (set_escrows (<[ i := new ]> (escrows w)) w).
Proof.
  intros Hn H j e Hj. destruct (H j e Hj) as (e' & He' & Hs). cbn.
  destruct (decide (i = j)) as [->|Hne].
  - exists new. split.
    + apply list_lookup_insert_eq. eapply lookup_lt_Some, He'.
    + destruct Hn as [Hn|(cur & Hc & ->)]; [right; apply Hn|].
      rewrite He' in Hc. injection Hc as <-. exact Hs.
  - exists e'. split; [|exact Hs]. rewrite list_lookup_insert_ne; auto.
Qed.

Lemma moved_write_at T l0 w i (e0 new : Escrow) :
  l0 !! i = Some e0 -> T (e_state e0) (e_state new) ->
  moved T l0 w ->
  moved T l0 (set_escrows (<[ i := new ]> (escrows w)) w).
Proof.
  intros H0 Ht H j e Hj. destruct (H j e Hj) as (e' & He' & Hs). cbn.
  destruct (decide (i = j)) as [->|Hne].
  - exists new. split.
    + apply list_lookup_insert_eq. eapply lookup_lt_Some, He'.
    + rewrite H0 in Hj. injection Hj as <-. right. exact Ht.
  - exists e'. split; [|exact Hs]. rewrite list_lookup_insert_ne; auto.
Qed.

Lemma moved_append T l0 w (new : Escrow) :
  moved T l0 w -> moved T l0 (set_escrows (escrows w ++ [new]) w).
Proof.
  intros H j e Hj. destruct (H j e Hj) as (e' & He' & Hs). cbn.
  exists e'. split; [|exact Hs]. apply lookup_app_l_Some, He'.
Qed.

Section Targets.
Context (T : EscrowState -> EscrowState -> Prop) (l0 : list Escrow).

Lemma moved_Booking_save i old new now :
  preserves (moved T l0) (Booking_save i old new now).
Proof.
  apply preserves_modify. intros w H.
  destruct (decide (old = new)); [exact H|]. eapply moved_same_escrows; [|exact H]. reflexivity.
Qed.

Lemma moved_Escrow_save i old new now :
  (forall s, T s (e_state new)) ->
  preserves (moved T l0) (Escrow_save i old new now).
Proof.
  intros Hn. apply preserves_modify. intros w H.
  destruct (decide (old = new)); [exact H|].
  apply moved_write; [left; exact Hn|exact H].
Qed.

Lemma moved_Escrow_write i new now :
  (forall s, T s (e_state new)) ->
  preserves (moved T l0) (Escrow_write i new now).
Proof.
  intros Hn. apply preserves_modify. intros w H.
  apply moved_write; [left; exact Hn|exact H].
Qed.

Lemma moved_Escrow_insert e : preserves (moved T l0) (Escrow_insert e).
Proof. intros w H. apply moved_append, H. Qed.

Lemma moved_Escrow_create e : preserves (moved T l0) (Escrow_create e).
Proof.
  unfold Escrow_create.
  preserves_walk ltac:(first [apply moved_Escrow_insert | solve [auto with reads]]).
Qed.

Lemma moved_Escrow_upsert_bookingId e now :
  preserves (moved T l0) (Escrow_upsert_bookingId e now).
Proof.
  intros w H. unfold Escrow_upsert_bookingId, mbind, M_bind,
    Escrow_findOne_bookingId, gets, modify.
  destruct (list_find _ (escrows w)) as [[i cur]|] eqn:Hf; cbn.
  - apply moved_write; [|exact H]. right. exists cur. split; [|reflexivity].
    apply list_find_Some in Hf as (Hi & _). exact Hi.
  - apply moved_append, H.
Qed.

Lemma moved_Transaction_create p : preserves (moved T l0) (Transaction_create p).
Proof.
  unfold Transaction_create.
  destruct (p_bookingId p), (p_amount p), (p_reference p) as [r|];
    try apply preserves_throw.
  destruct (negb (truthyS r)); [apply preserves_throw|].
  preserves_walk ltac:(first
    [ solve [auto with reads]
    | (intros w H; eapply moved_same_escrows; [|exact H]; reflexivity) ]).
Qed.

Lemma moved_recordTransaction p : preserves (moved T l0) (recordTransaction p).
Proof.
  unfold recordTransaction.
  preserves_walk ltac:(first
    [ solve [auto with reads] | apply moved_Transaction_create ]).
Qed.
End Targets.

Lemma handleWebhook_moved l0 signatureOk body gateway verify now :
  preserves (moved webhook_targets l0)
            (handleWebhook signatureOk body gateway verify now).
Proof.
  unfold handleWebhook.
  preserves_walk ltac:(first
    [ solve [auto with reads]
    | apply moved_Booking_save
    | apply moved_Escrow_create
    | apply moved_Escrow_upsert_bookingId
    | apply moved_recordTransaction
    | (apply moved_Escrow_save; intros ?; cbn; unfold webhook_targets; auto) ]).
Qed.

Lemma paystackRoute_moved l0 authorized event data_reference data_amount now :
  preserves (moved route_targets l0)
            (paystackRoute authorized event data_reference data_amount now).
Proof.
  unfold paystackRoute.
  preserves_walk ltac:(first
    [ solve [auto with reads]
    | apply moved_Escrow_create
    | apply moved_Transaction_create
    | (apply moved_Escrow_save; intros ?; cbn; unfold route_targets; auto)
    | (apply preserves_modify; intros ? ?;
       eapply moved_same_escrows; [|eassumption]; reflexivity) ]).
Qed.

Lemma flutterwaveRoute_moved l0 authorized body_event data_status data_tx_ref
    data_reference data_amount now :
  preserves (moved route_targets l0)
            (flutterwaveRoute authorized body_event data_status data_tx_ref
               data_reference data_amount now).
Proof.
  unfold flutterwaveRoute.
  preserves_walk ltac:(first
    [ solve [auto with reads]
    | apply moved_Escrow_create
    | apply moved_Transaction_create
    | (apply moved_Escrow_save; intros ?; cbn; unfold route_targets; auto)
    | (apply preserves_modify; intros ? ?;
       eapply moved_same_escrows; [|eassumption]; reflexivity) ]).
Qed.

Lemma recordTransaction_escrows p w :
  escrows (snd (recordTransaction p w)) = escrows w.
Proof.
  unfold recordTransaction, mbind, M_bind, Transaction_findOne_reference, gets.
  assert (Hc : escrows (snd (Transaction_create p w)) = escrows w).
  { unfold Transaction_create.
    destruct (p_bookingId p), (p_amount p), (p_reference p) as [r|]; try reflexivity.
    destruct (negb (truthyS r)); [reflexivity|].
    unfold mbind, M_bind, Transaction_findOne_reference, gets.
    destruct (list_find _ _); reflexivity. }
  destruct (p_reference p) as [r|]; [destruct (truthyS r)|]; cbn.
  1: destruct (list_find _ _); [reflexivity|].
  all: exact Hc.
Qed.

Lemma moveFunds_moved k l0 bookingId initiatedBy note dflt call now rnd :
  forall w, escrows w = l0 ->
  moved (funds_arrow k) l0 (snd (moveFunds k bookingId initiatedBy note dflt call now rnd w)).
Proof.
  intros w <-.
  unfold moveFunds, try_catch, withTransaction, mbind, M_bind,
    Booking_findById, Escrow_findOne_bookingId, gets, _error, throw.
  destruct (bookings w !! bookingId) as [booking|]; [|apply moved_refl].
  destruct (list_find _ (escrows w)) as [[eid escrow]|] eqn:He; [|apply moved_refl].
  destruct (state_in_held_pending_disputed (e_state escrow)) eqn:Hg; cbn [negb];
    [|apply moved_refl].
  destruct call as [result|e]; cbn [mret M_ret]; [|apply moved_refl].
  match goal with
  | |- context [recordTransaction ?p w] =>
      pose proof (recordTransaction_escrows p w) as Hr;
      destruct (recordTransaction p w) as [[a|err] w1]
  end; [|apply moved_refl].
  cbn in Hr. cbn.
  apply list_find_Some in He as (Hi & _).
  destruct (decide (booking = _)); cbn.
  all: intros j e0 Hj; unfold set_bookings, set_escrows; cbn [escrows]; rewrite Hr.
  all: destruct (decide (eid = j)) as [->|Hne];
    [ eexists; split; [apply list_lookup_insert_eq; eapply lookup_lt_Some, Hj|];
      right; split; [congruence|cbn; destruct (payout_ok result); auto]
    | exists e0; split; [rewrite list_lookup_insert_ne; auto|auto] ].
Qed.

(** [initializeEscrow] from the adapter call on: the ledger entry and the
    booking, neither of which touches an escrow. *)
Ltac initializeEscrow_tail initResult w1 H1 :=
  destruct (orb _ _); [destruct initResult|]; cbn [mret M_ret];
    try apply moved_refl;
  match goal with
  | |- context [recordTransaction ?p w1] =>
      let Hr := fresh "Hr" in
      pose proof (recordTransaction_escrows p w1) as Hr;
      destruct (recordTransaction p w1) as [[tx|err] w2];
      [|apply moved_refl];
      cbn in Hr; unfold Booking_save, modify; cbn;
      eapply moved_same_escrows; [|exact H1];
      destruct (decide (_ = _)); cbn; exact Hr
  end.

Lemma initializeEscrow_moved bookingId amount gateway initResult now w :
  moved init_arrow (escrows w)
        (snd (initializeEscrow bookingId amount gateway initResult now w)).
Proof.
  unfold initializeEscrow, try_catch, withTransaction, mbind, M_bind,
    Booking_findById, Escrow_findOne_bookingId, gets, _error, throw.
  destruct (bookings w !! bookingId) as [booking|]; [|apply moved_refl].
  destruct (list_find _ (escrows w)) as [[eid escrow]|] eqn:He.
  - destruct (state_in_held_released (e_state escrow)) eqn:Hg;
      cbn [mret M_ret fst snd]; [apply moved_refl|].
    destruct amount as [a|]; [|apply moved_refl].
    apply list_find_Some in He as (Hi & _).
    unfold Escrow_save, modify. cbn [mret M_ret].
    match goal with
    | |- context [if decide (escrow = ?new) then w else ?w'] =>
        assert (H1 : moved init_arrow (escrows w)
                       (if decide (escrow = new) then w else w'))
          by (destruct (decide (escrow = new));
              [apply moved_refl
              |apply (moved_write_at _ _ _ _ escrow);
               [exact Hi|split; [exact Hg|reflexivity]|apply moved_refl]]);
        generalize dependent (if decide (escrow = new) then w else w')
    end.
    intros w1 H1. initializeEscrow_tail initResult w1 H1.
  - cbn [mret M_ret fst snd].
    destruct amount as [a|]; [|apply moved_refl].
    unfold Escrow_create, mbind, M_bind, Escrow_findOne_bookingId, gets.
    cbn [e_bookingId]. rewrite He. unfold Escrow_insert. cbn [mret M_ret].
    match goal with
    | |- context [set_escrows (escrows w ++ [?new]) w] =>
        pose proof (moved_append init_arrow (escrows w) w new
                      (moved_refl _ _)) as H1;
        generalize dependent (set_escrows (escrows w ++ [new]) w)
    end.
    intros w1 H1. initializeEscrow_tail initResult w1 H1.
Qed.

Lemma Escrow_findByIdAndUpdate_moved T l0 i (f : Escrow -> Escrow) now :
  (forall cur, e_state (f cur) = e_state cur \/
               forall e, l0 !! i = Some e -> T (e_state e) (e_state (f cur))) ->
  preserves (moved T l0) (Escrow_findByIdAndUpdate i f now).
Proof.
  intros Hf. apply preserves_modify. intros w H.
  destruct (escrows w !! i) as [cur|] eqn:Hc; [|exact H].
  intros j e Hj. destruct (H j e Hj) as (e' & He' & Hs). cbn.
  destruct (decide (i = j)) as [->|Hne].
  - eexists. split; [apply list_lookup_insert_eq; eapply lookup_lt_Some, He'|].
    cbn. rewrite He' in Hc. injection Hc as <-.
    destruct (Hf e') as [->|Ht]; [exact Hs|]. right. apply Ht, Hj.
  - exists e'. split; [|exact Hs]. rewrite list_lookup_insert_ne; auto.
Qed.

Lemma reconcileEscrows_step_moved l0 verify now i e s :
  l0 !! i = Some e ->
  preserves (moved reconcile_arrow l0) (reconcileEscrows_step verify now (i, e) s).
Proof.
  intros Hi. unfold reconcileEscrows_step.
  destruct (orS (e_gatewayReference e) None) as [gref|]; [|apply preserves_ret].
  destruct (verify _ gref) as [v|]; [|apply preserves_ret].
  apply preserves_bind; [|intros ?; apply preserves_ret].
  destruct (String.eqb (lowerOpt (v_status v)) "success"); cbn [andb].
  - destruct (state_in_held_released (e_state e)) eqn:Hs; cbn [negb].
    + apply Escrow_findByIdAndUpdate_moved. intros cur. left. reflexivity.
    + apply Escrow_findByIdAndUpdate_moved. intros cur. right.
      intros e1 He1. rewrite Hi in He1. injection He1 as <-.
      split; [exact Hs|reflexivity].
  - apply Escrow_findByIdAndUpdate_moved. intros cur. left. reflexivity.
Qed.

Lemma reconcileEscrows_loop_moved l0 verify now (l : list (ObjectId * Escrow)) :
  Forall (fun ie => l0 !! fst ie = Some (snd ie)) l ->
  forall s, preserves (moved reconcile_arrow l0) (reconcileEscrows_loop verify now l s).
Proof.
  induction 1 as [|[i e] l Hie Hl IH]; intros s; cbn [reconcileEscrows_loop].
  - apply preserves_ret.
  - apply preserves_bind; [apply reconcileEscrows_step_moved, Hie|].
    intros s'. apply IH.
Qed.

Lemma with_ids_lookup {A} (l : list A) :
  Forall (fun ix => l !! fst ix = Some (snd ix)) (with_ids l).
Proof.
  apply List.Forall_forall. intros [i x] Hin.
  apply list_elem_of_In in Hin. unfold with_ids in Hin.
  apply elem_of_lookup_imap in Hin as (j & y & [= -> ->] & Hj). exact Hj.
Qed.

Lemma reconcileEscrows_moved since verify now w :
  moved reconcile_arrow (escrows w) (snd (reconcileEscrows since verify now w)).
Proof.
  unfold reconcileEscrows, mbind, M_bind, gets.
  apply reconcileEscrows_loop_moved; [|apply moved_refl].
  apply List.Forall_forall. intros ie Hin. apply filter_In in Hin as [Hin _].
  pose proof (with_ids_lookup (escrows w)) as H.
  rewrite List.Forall_forall in H. apply H, Hin.
Qed.

Lemma reconcileTransactions_escrows limit runBy w :
  escrows (snd (reconcileTransactions limit runBy w)) = escrows w.
Proof.
  unfold reconcileTransactions, mbind, M_bind, gets, id, modify.
  destruct (scan (check_transaction w) _ _ _ _) as [issues1 txChecked].
  destruct (scan (check_escrow w) _ _ _ _) as [issues escrowsChecked].
  destruct runBy; [reflexivity| |];
    (destruct (Nat.ltb 0 (length issues)); [|reflexivity]);
    unfold notifyAdmins, createNotification, mbind, M_bind, modify;
    cbn [r_totalIssues mret M_ret snd];
    destruct (Nat.ltb 10 (length issues)); reflexivity.
Qed.

Lemma run_moved (op : Op) (w : World) : moved (arrow op) (escrows w) (run op w).
Proof.
  destruct op; cbn [run arrow].
  - apply handleWebhook_moved, moved_refl.
  - apply paystackRoute_moved, moved_refl.
  - apply moveFunds_moved. reflexivity.
  - apply moveFunds_moved. reflexivity.
  - rewrite settleEscrow_world. apply moved_refl.
  - apply reconcileEscrows_moved.
  - eapply moved_same_escrows; [apply reconcileTransactions_escrows|apply moved_refl].
  - apply initializeEscrow_moved.
  - apply flutterwaveRoute_moved, moved_refl.
Qed.

Lemma keeps_no_arrow (op : Op) (s s' : EscrowState) :
  terminal s = true -> keeps s op -> arrow op s s' -> False.
Proof.
  destruct op; cbn; intros Ht Hk Ha; try contradiction.
  - destruct Ha as [Hg _]. destruct s; discriminate.
  - destruct Ha as [Hg _]. destruct s; discriminate.
  - destruct Ha as [Hg _]. subst s. discriminate.
  - destruct Ha as [Hg _]. subst s. discriminate.
Qed.

(** C3, as the code has it.  Each of the operations handleWebhook, the
    /paystack route, the /flutterwave route, initializeEscrow, releaseFunds,
    refundFunds, settleEscrow, reconcileEscrows and reconcileTransactions
    leaves every escrow in place and either keeps its state or changes it
    along an arrow of that operation: handleWebhook sets [held] or
    [cancelled] and the two routes [held] or [refunded], from any state;
    releaseFunds goes from [held], [pending] or [disputed] to [released] or
    [disputed], refundFunds from the same states to [refunded] or
    [disputed]; reconcileEscrows goes to [held] and initializeEscrow to
    [pending], both from any state but [held] and [released]; settleEscrow
    and reconcileTransactions change no state.  So a [released], [refunded]
    or [cancelled] escrow keeps its state along every sequence of
    releaseFunds, refundFunds, settleEscrow and reconcileTransactions calls,
    and a [released] one also when the sequence contains reconcileEscrows
    and initializeEscrow calls. *)
Theorem escrow_state_arrows :
  (forall (op : Op) (w : World) (i : ObjectId) (e : Escrow),
      escrows w !! i = Some e ->
      exists e', escrows (run op w) !! i = Some e' /\
                 (e_state e' = e_state e \/ arrow op (e_state e) (e_state e'))) /\
  (forall (ops : list Op) (w : World) (i : ObjectId) (e : Escrow),
      terminal (e_state e) = true ->
      Forall (keeps (e_state e)) ops ->
      escrows w !! i = Some e ->
      exists e', escrows (runs ops w) !! i = Some e' /\ e_state e' = e_state e).
Proof.
  split.
  - intros op w i e Hi. exact (run_moved op w i e Hi).
  - intros ops. induction ops as [|op ops IH]; intros w i e Ht Hk Hi.
    + exists e. split; [exact Hi|reflexivity].
    + inversion Hk as [|? ? Hop Hops]; subst.
      destruct (run_moved op w i e Hi) as (e1 & H1 & [Hs|Ha]).
      * destruct (IH (run op w) i e1) as (e' & He' & Hs'); [congruence|congruence|exact H1|].
        exists e'. split; [exact He'|congruence].
      * exfalso. eapply keeps_no_arrow; eauto.
Qed.

Lemma escrow_state_arrows_witness :
  (exists e', escrows (run (op_releaseFunds 1 None "" payout_at_ms
                              1700000000000%Z 4821) world_two_held) !! 1
              = Some e' /\
              (e_state e' = st_held \/
               arrow (op_releaseFunds 1 None "" payout_at_ms 1700000000000%Z 4821)
                     st_held (e_state e'))) /\
  (exists e', escrows (runs [op_settleEscrow 1 1700000500000%Z;
                             op_reconcileEscrows None verify_all_success
                               1700000600000%Z;
                             op_refundFunds 1 None "" payout_at_ms
                               1700000700000%Z 12;
                             op_releaseFunds 1 None "" payout_at_ms
                               1700000800000%Z 13;
                             op_reconcileTransactions 5000 RunBy_null;
                             op_initializeEscrow 1 (Some 7000%Q) PAYSTACK
                               (Some (mkInitResult None (Some "R2-d") None None))
                               1700000900000%Z]
                         world_first_released) !! 1 = Some e' /\
              e_state e' = st_released).
Proof.
  split.
  - exact (proj1 escrow_state_arrows
             (op_releaseFunds 1 None "" payout_at_ms 1700000000000%Z 4821)
             world_two_held 1
             (mkEscrow 1 7000%Q st_held (Some "paystack") (Some "R2") None false
                None 2500%Z)
             eq_refl).
  - refine (proj2 escrow_state_arrows _ world_first_released 1
              (mkEscrow 1 7000%Q st_released (Some "paystack") (Some "R2") None
                 false None 1700000000000%Z)
              eq_refl _ eq_refl).
    repeat constructor.
Defined.

(** C3 as stated fails: the escrow of booking 1 is [released]; a failed
    second payment attempt for the booking moves it to [cancelled], a
    successful one moves it to [held]. *)
Lemma webhook_moves_released_escrow :
  (exists e, escrows world_first_released !! 1 = Some e /\
             e_state e = st_released) /\
  (exists e', escrows (run (op_handleWebhook true charge_failed_retry PAYSTACK
                              None 1700000100000%Z) world_first_released) !! 1
              = Some e' /\ e_state e' = st_cancelled) /\
  (exists e', escrows (run (op_handleWebhook true charge_success_retry PAYSTACK
                              (verify_all_success PAYSTACK "R2-c")
                              1700000100000%Z) world_first_released) !! 1
              = Some e' /\ e_state e' = st_held).
Proof.
  split; [|split]; eexists; (split; [vm_compute; reflexivity|reflexivity]).
Qed.

(** * Further properties of the services and their callers *)

(** ** recordTransaction *)

Lemma list_find_app_fresh {A} (P : A -> Prop) `{forall x, Decision (P x)}
    (l : list A) (x : A) :
  list_find P l = None -> P x -> list_find P (l ++ [x]) = Some (length l, x).
Proof.
  intros Hn Hx. rewrite list_find_app_r by exact Hn.
  cbn. rewrite decide_True by exact Hx. cbn. reflexivity.
Qed.

(** X1. recordTransaction with a booking, an amount and a non-empty
    reference that the ledger does not hold appends exactly one Transaction
    carrying the call's fields and returns it; a lookup by that reference
    then finds it, and every later recordTransaction with that reference
    returns that same document and writes nothing. *)
Theorem recordTransaction_fresh_reference (w : World) (p : TxParams)
    (b : ObjectId) (a : Number) (r : string) :
  p_bookingId p = Some b ->
  p_amount p = Some a ->
  p_reference p = Some r ->
  r <> "" ->
  list_find (fun t => t_reference t = r) (transactions w) = None ->
  let tx := mkTransaction (Some b) (p_customerId p) (p_creativeId p) a (p_type p)
              (p_status p) (p_paymentGateway p) r (p_idempotencyKey p)
              (p_note p) in
  let i := length (transactions w) in
  let w' := set_transactions (transactions w ++ [tx]) w in
  recordTransaction p w = (Ok (i, tx), w') /\
  list_find (fun t => t_reference t = r) (transactions w') = Some (i, tx) /\
  (forall p', p_reference p' = Some r -> recordTransaction p' w' = (Ok (i, tx), w')).
Proof.
  intros Hb Ha Hr Hne Hf tx i w'.
  pose proof (truthyS_true r Hne) as Ht.
  assert (Hf' : list_find (fun t => t_reference t = r) (transactions w')
                = Some (i, tx)).
  { apply (list_find_app_fresh (fun t => t_reference t = r)); [exact Hf|reflexivity]. }
  split; [|split; [exact Hf'|]].
  - unfold recordTransaction, Transaction_create. rewrite Hb, Ha, Hr, Ht.
    unfold mbind, M_bind, Transaction_findOne_reference, gets. rewrite Hf.
    cbn [negb]. rewrite Hf. reflexivity.
  - intros p' Hp'. apply (recordTransaction_existing w' p' r i tx Hp' Ht Hf').
Qed.

Lemma recordTransaction_fresh_reference_witness :
  let tx := mkTransaction (Some 0) (Some 0) None 5000%Q ty_escrow tx_pending
              (Some "paystack") "R1" None "initialization" in
  let w' := set_transactions [tx] world_B1 in
  recordTransaction (mkTxParams (Some 0) (Some 0) None (Some 5000%Q) ty_escrow
                       tx_pending (Some "paystack") (Some "R1") None
                       "initialization") world_B1 = (Ok (0, tx), w') /\
  list_find (fun t => t_reference t = "R1") (transactions w') = Some (0, tx) /\
  (forall p', p_reference p' = Some "R1" -> recordTransaction p' w' = (Ok (0, tx), w')).
Proof.
  apply (recordTransaction_fresh_reference world_B1
           (mkTxParams (Some 0) (Some 0) None (Some 5000%Q) ty_escrow
              tx_pending (Some "paystack") (Some "R1") None "initialization")
           0 5000%Q "R1"); try reflexivity.
  discriminate.
Defined.

(** X2. recordTransaction fails only on the validation of the insert: when
    it throws, nothing was written, and the call lacked its bookingId, its
    amount, or a non-empty reference.  It never fails on the unique index of
    [reference]. *)
Theorem recordTransaction_throws_only_validation (w : World) (p : TxParams)
    (e : Err) :
  fst (recordTransaction p w) = Throw e ->
  snd (recordTransaction p w) = w /\
  ((p_bookingId p = None /\ e = ValidationError "bookingId") \/
   (p_amount p = None /\ e = ValidationError "amount") \/
   (falsyS (p_reference p) = true /\ e = ValidationError "reference")).
Proof.
  unfold recordTransaction, Transaction_create, falsyS, mbind, M_bind,
    Transaction_findOne_reference, gets.
  destruct (p_reference p) as [r|]; [destruct (truthyS r) eqn:Ht|].
  - destruct (list_find _ (transactions w)) as [[i t]|] eqn:Hf; cbn.
    + discriminate.
    + destruct (p_bookingId p), (p_amount p); cbn; rewrite ?Ht; cbn; rewrite ?Hf; cbn;
        try discriminate; intros [= <-]; auto.
  - cbn. destruct (p_bookingId p), (p_amount p); cbn; rewrite ?Ht; cbn;
      intros [= <-]; auto.
  - cbn. destruct (p_bookingId p), (p_amount p); cbn; intros [= <-]; auto.
Qed.

Lemma recordTransaction_throws_only_validation_witness :
  let p := mkTxParams None None None (Some 5000%Q) ty_escrow tx_success
             (Some "paystack") (Some "R9") None "webhook_success" in
  snd (recordTransaction p world_B1) = world_B1 /\
  ((p_bookingId p = None /\
    ValidationError "bookingId" = ValidationError "bookingId") \/
   (p_amount p = None /\ ValidationError "bookingId" = ValidationError "amount") \/
   (falsyS (p_reference p) = true /\
    ValidationError "bookingId" = ValidationError "reference")).
Proof.
  apply (recordTransaction_throws_only_validation world_B1
           (mkTxParams None None None (Some 5000%Q) ty_escrow tx_success
              (Some "paystack") (Some "R9") None "webhook_success")
           (ValidationError "bookingId")).
  reflexivity.
Defined.

(** ** Settlement, one booking and the batch *)

(** X3. settleEscrow never hands back an escrow and never writes: for
    every database, booking and time it throws, or it answers [null], and
    it answers [null] only for a booking that is still inside its review
    window.  The database after the call is the one before. *)
Theorem settleEscrow_returns_only_null (w : World) (bookingId : ObjectId)
    (now : Date) :
  snd (settleEscrow bookingId now w) = w /\
  ((exists e, fst (settleEscrow bookingId now w) = Throw e) \/
   (fst (settleEscrow bookingId now w) = Ok None /\
    exists booking, bookings w !! bookingId = Some booking /\
                    settle_waits booking now = true)).
Proof.
  rewrite settleEscrow_unfold. split; [reflexivity|]. cbn [fst].
  destruct (bookings w !! bookingId) as [booking|]; [|eauto].
  destruct (list_find _ (escrows w)); [|eauto].
  destruct (settle_waits booking now) eqn:Hw; [eauto|].
  destruct (users w !! b_proId booking); eauto.
Qed.

Lemma autoSettle_loop_count (clock : nat -> Date) (w : World)
    (l : list Escrow) :
  forall (k : nat) (c : nat),
  (forall e, e ∈ l -> e ∈ escrows w) ->
  autoSettle_loop clock k (imap (fun j => pair (k + j)) l) c w
  = (Ok (c + length (List.filter (still_waiting clock w)
                       (imap (fun j => pair (k + j)) l))), w).
Proof.
  induction l as [|e l IH]; intros k c Hin.
  - cbn. rewrite Nat.add_0_r. reflexivity.
  - cbn [imap autoSettle_loop].
    assert (Hext : imap ((fun j => pair (k + j)) ∘ S) l
                   = imap (fun j => pair (S k + j)) l).
    { apply imap_ext. intros j x _. cbn. f_equal. lia. }
    rewrite Hext.
    unfold mbind at 1. unfold M_bind at 1. unfold try_catch.
    unfold mbind at 1. unfold M_bind at 1.
    rewrite settleEscrow_unfold.
    cbn [List.filter]. unfold still_waiting at 1. cbn [fst snd].
    rewrite Nat.add_0_r.
    assert (He : e ∈ escrows w) by (apply Hin; left).
    destruct (bookings w !! e_bookingId e) as [booking|].
    + destruct (list_find (fun x => e_bookingId x = e_bookingId e) (escrows w))
        as [ie|] eqn:Hf.
      * destruct (settle_waits booking (clock k)).
        -- cbn. rewrite IH by (intros x Hx; apply Hin; right; exact Hx).
           rewrite Nat.add_succ_r. reflexivity.
        -- destruct (users w !! b_proId booking); cbn;
             rewrite IH by (intros x Hx; apply Hin; right; exact Hx); reflexivity.
      * exfalso. apply list_find_None in Hf.
        rewrite List.Forall_forall in Hf. apply (Hf e); [|reflexivity].
        apply list_elem_of_In. exact He.
    + cbn. rewrite IH by (intros x Hx; apply Hin; right; exact Hx). reflexivity.
Qed.

(** X4. autoSettlePendingEscrows never throws and leaves the database as
    it was.  The number it reports as released is 0 when the query on the
    undeclared path [status] reaches the database, and otherwise the number
    of escrows whose booking is still waiting for reviews, that is, of the
    calls of settleEscrow that answered [null]. *)
Theorem autoSettlePendingEscrows_releases_nothing (strictQuery : bool)
    (clock : nat -> Date) (w : World) :
  autoSettlePendingEscrows strictQuery clock w
  = (Ok (if strictQuery
         then length (List.filter (still_waiting clock w) (with_ids (escrows w)))
         else 0), w).
Proof.
  unfold autoSettlePendingEscrows, mbind, M_bind, Escrow_find_status, gets.
  destruct strictQuery.
  - pose proof (autoSettle_loop_count clock w (escrows w) 0 0 (fun e H => H)) as H.
    cbn in H. exact H.
  - assert (Hnil : List.filter
              (fun ie : ObjectId * Escrow =>
                 bool_decide (Escrow_status (snd ie) = Some "held"))
              (with_ids (escrows w)) = []).
    { induction (with_ids (escrows w)) as [|x l IH]; [reflexivity|].
      cbn. exact IH. }
    rewrite Hnil. reflexivity.
Qed.

(** ** Sessions *)

(** A body run in a session whose failure is rethrown leaves the database
    as it was when it throws. *)
Lemma atomic_throw {A} (m : M A) (msg : string) (w : World) (e : Err) :
  fst (try_catch (withTransaction m) (fun err => _error msg err) w) = Throw e ->
  snd (try_catch (withTransaction m) (fun err => _error msg err) w) = w /\
  exists cause, fst (m w) = Throw cause /\
                e = Error (msg ++ " — " ++ err_message cause).
Proof.
  unfold try_catch, withTransaction, _error, throw.
  destruct (m w) as [[a|cause] w']; cbn; [discriminate|].
  intros [= <-]. eauto.
Qed.

(** ** Release and refund: the booking, and the endpoints *)

Lemma moveFunds_booking (k : FundsKind) (w : World) (bookingId : ObjectId)
    (booking : Booking) (eid : ObjectId) (escrow : Escrow) initiatedBy note dflt
    (result : option PayoutResult) now rnd :
  truthyS (fk_prefix k) = true ->
  bookings w !! bookingId = Some booking ->
  list_find (fun e => e_bookingId e = bookingId) (escrows w) = Some (eid, escrow) ->
  state_in_held_pending_disputed (e_state escrow) = true ->
  let ok := payout_ok result in
  let out := moveFunds k bookingId initiatedBy note dflt (Ok result) now rnd w in
  exists b', bookings (snd out) !! bookingId = Some b' /\
    b_status b' = (if ok then fk_bookingStatus k else b_status booking) /\
    b_paymentStatus b' = (if ok then fk_paymentStatus k else b_paymentStatus booking) /\
    b_paymentReleased b' = b_paymentReleased booking.
Proof.
  intros Hk Hb He Hg. cbv zeta.
  pose proof (funds_reference_truthy k result now rnd Hk) as Hrt.
  assert (Hlt : bookingId < length (bookings w)).
  { eapply lookup_lt_Some, Hb. }
  unfold moveFunds, try_catch, withTransaction, mbind, M_bind,
    Booking_findById, Escrow_findOne_bookingId, gets.
  rewrite Hb, He. cbv zeta. rewrite Hg. cbn [negb].
  cbn [mret M_ret].
  unfold recordTransaction, mbind, M_bind. cbn [p_reference].
  remember (funds_reference k result now rnd) as reference eqn:Href.
  remember (payout_ok result) as ok eqn:Hok.
  rewrite Hrt.
  unfold Transaction_findOne_reference, gets.
  destruct (list_find (λ t, t_reference t = reference) (transactions w))
    as [[j t]|] eqn:Hf.
  - cbn. destruct (decide (booking = _)) as [Heq|Hneq]; cbn.
    + exists booking. split; [exact Hb|].
      pose proof (f_equal b_status Heq) as H1.
      pose proof (f_equal b_paymentStatus Heq) as H2. cbn in H1, H2. auto.
    + eexists. split; [apply list_lookup_insert_eq, Hlt|]. cbn. auto.
  - unfold Transaction_create. cbn [p_bookingId p_amount p_reference].
    rewrite Hrt. cbn [negb].
    unfold mbind, M_bind, Transaction_findOne_reference, gets.
    rewrite Hf. cbn. destruct (decide (booking = _)) as [Heq|Hneq]; cbn.
    + exists booking. split; [exact Hb|].
      pose proof (f_equal b_status Heq) as H1.
      pose proof (f_equal b_paymentStatus Heq) as H2. cbn in H1, H2. auto.
    + eexists. split; [apply list_lookup_insert_eq, Hlt|]. cbn. auto.
Qed.

(** X5. refundFunds on a booking with an escrow: when the escrow is not
    held, pending or disputed it throws and changes nothing.  When the guard
    passes and the refund call returns, the escrow ends [refunded] if the
    gateway reported success and [disputed] otherwise; the booking becomes
    [cancelled] and [refunded] on success and keeps its status and payment
    status otherwise; and a [refund] Transaction whose status mirrors the
    gateway's answer is appended unless the ledger already holds the
    reference. *)
Theorem refundFunds_outcome (w : World) (bookingId : ObjectId)
    (booking : Booking) (eid : ObjectId) (escrow : Escrow)
    (initiatedBy : option ObjectId) (reason : string)
    (result : option PayoutResult) (now : Date) (rnd : nat) :
  bookings w !! bookingId = Some booking ->
  list_find (fun e => e_bookingId e = bookingId) (escrows w) = Some (eid, escrow) ->
  let ok := payout_ok result in
  let reference := funds_reference refundKind result now rnd in
  let out := refundFunds bookingId initiatedBy reason (Ok result) now rnd w in
  (state_in_held_pending_disputed (e_state escrow) = false ->
     (exists e, fst out = Throw e) /\ snd out = w) /\
  (state_in_held_pending_disputed (e_state escrow) = true ->
     fst out = Ok (mkFundsReturn ok reference) /\
     (exists e', escrows (snd out) !! eid = Some e' /\
                 e_state e' = (if ok then st_refunded else st_disputed)) /\
     (exists b', bookings (snd out) !! bookingId = Some b' /\
                 b_status b' = (if ok then bs_cancelled else b_status booking) /\
                 b_paymentStatus b'
                 = (if ok then ps_refunded else b_paymentStatus booking)) /\
     match list_find (fun t => t_reference t = reference) (transactions w) with
     | Some _ => transactions (snd out) = transactions w
     | None =>
         exists t, transactions (snd out) = (transactions w ++ [t])%list /\
                   t_type t = ty_refund /\
                   t_status t = (if ok then tx_success else tx_failed) /\
                   t_reference t = reference /\
                   t_bookingId t = Some bookingId
     end).
Proof.
  intros Hb He ok reference out.
  destruct (moveFunds_outcome refundKind w bookingId booking eid escrow
              initiatedBy reason "refund" result now rnd eq_refl Hb He)
    as [Hfail Hpass].
  split; [exact Hfail|].
  intros Hg. destruct (Hpass Hg) as (Hr & He' & Hl).
  split; [exact Hr|]. split; [exact He'|]. split; [|exact Hl].
  destruct (moveFunds_booking refundKind w bookingId booking eid escrow
              initiatedBy reason "refund" result now rnd eq_refl Hb He Hg)
    as (b' & Hb' & Hs & Hp & _).
  exists b'. auto.
Qed.

Lemma refundFunds_outcome_witness :
  let result := Some (mkPayoutResult false None) in
  let out := refundFunds 1 None "" (Ok result) 1700000000000%Z 4821
               world_two_held in
  (state_in_held_pending_disputed st_held = false ->
     (exists e, fst out = Throw e) /\ snd out = world_two_held) /\
  (state_in_held_pending_disputed st_held = true ->
     fst out = Ok (mkFundsReturn false "REF-1700000000000-4821") /\
     (exists e', escrows (snd out) !! 1 = Some e' /\ e_state e' = st_disputed) /\
     (exists b', bookings (snd out) !! 1 = Some b' /\
                 b_status b' = bs_confirmed /\ b_paymentStatus b' = ps_escrowed) /\
     exists t, transactions (snd out)
               = (transactions world_two_held ++ [t])%list /\
               t_type t = ty_refund /\
               t_status t = tx_failed /\
               t_reference t = "REF-1700000000000-4821" /\
               t_bookingId t = Some 1).
Proof.
  exact (refundFunds_outcome world_two_held 1
           (mkBooking 0 1 bs_confirmed 7000%Q 7000%Q ps_escrowed
              (Some "paystack") (Some 1) None None false false false None 2500%Z)
           1
           (mkEscrow 1 7000%Q st_held (Some "paystack") (Some "R2") None false
              None 2500%Z)
           None "" (Some (mkPayoutResult false None))
           1700000000000%Z 4821 eq_refl eq_refl).
Defined.

Lemma moveFunds_throw_unchanged k bookingId user note dflt call now rnd w e :
  fst (moveFunds k bookingId user note dflt call now rnd w) = Throw e ->
  snd (moveFunds k bookingId user note dflt call now rnd w) = w.
Proof. unfold moveFunds. intros H. apply atomic_throw in H as [H _]. exact H. Qed.

Lemma moveFunds_throws k bookingId user note dflt call now rnd w :
  (exists err, call = Throw err) \/ bookings w !! bookingId = None \/
  list_find (fun e => e_bookingId e = bookingId) (escrows w) = None ->
  exists e, fst (moveFunds k bookingId user note dflt call now rnd w) = Throw e.
Proof.
  intros H.
  unfold moveFunds, try_catch, withTransaction, mbind, M_bind,
    Booking_findById, Escrow_findOne_bookingId, gets.
  destruct (bookings w !! bookingId) as [booking|]; [|cbn; eauto].
  destruct (list_find _ (escrows w)) as [[eid escrow]|]; [|cbn; eauto].
  destruct (negb _); [cbn; eauto|].
  destruct H as [[err ->]|[H|H]]; [|discriminate..].
  cbn. eauto.
Qed.

(** X6. The endpoints POST /release/:bookingId and /refund/:bookingId
    answer 200 with the service's result, or 500 with the database as it was
    before the request.  They answer 500 when the gateway call throws, when
    the booking does not exist and when the booking has no escrow. *)
Theorem escrow_release_refund_answers (release : bool) (bookingId : ObjectId)
    (user : option ObjectId) (text : option string)
    (call : Result (option PayoutResult)) (now : Date) (rnd : nat) (w : World) :
  let out := (if release then escrow_release else escrow_refund)
               bookingId user text call now rnd w in
  ((exists data, fst out = mkResponse 200 (funds_data data)) \/
   ((exists error, fst out = mkResponse 500 (funds_error error)) /\ snd out = w)) /\
  ((exists err, call = Throw err) \/ bookings w !! bookingId = None \/
   list_find (fun e => e_bookingId e = bookingId) (escrows w) = None ->
   res_status (fst out) = 500).
Proof.
  cbv zeta.
  assert (Hgen : forall k note dflt,
    let out := respond (moveFunds k bookingId user note dflt call now rnd)
                 (fun result => mkResponse 200 (funds_data result))
                 (fun err => mkResponse 500 (funds_error (err_message err))) w in
    ((exists data, fst out = mkResponse 200 (funds_data data)) \/
     ((exists error, fst out = mkResponse 500 (funds_error error)) /\ snd out = w)) /\
    ((exists err, call = Throw err) \/ bookings w !! bookingId = None \/
     list_find (fun e => e_bookingId e = bookingId) (escrows w) = None ->
     res_status (fst out) = 500)).
  { intros k note dflt. cbv zeta. unfold respond.
    pose proof (moveFunds_throw_unchanged k bookingId user note dflt call now rnd w) as Hu.
    pose proof (moveFunds_throws k bookingId user note dflt call now rnd w) as Ht.
    destruct (moveFunds k bookingId user note dflt call now rnd w) as [[data|e] w'];
      cbn in *.
    - split; [eauto|]. intros H. destruct (Ht H) as [e He]. discriminate.
    - split; [|reflexivity]. right. split; [eauto|]. eapply Hu. reflexivity. }
  destruct release; [apply (Hgen releaseKind)|apply (Hgen refundKind)].
Qed.

Lemma escrow_release_refund_answers_witness :
  let out := escrow_release 1 None None (Throw (Error "timeout of 10000ms exceeded"))
               1700000000000%Z 4821 world_two_held in
  ((exists data, fst out = mkResponse 200 (funds_data data)) \/
   ((exists error, fst out = mkResponse 500 (funds_error error)) /\
    snd out = world_two_held)) /\
  res_status (fst out) = 500.
Proof.
  pose proof (escrow_release_refund_answers true 1 None None
                (Throw (Error "timeout of 10000ms exceeded")) 1700000000000%Z
                4821 world_two_held) as H.
  split; [exact (proj1 H)|]. apply (proj2 H). left. eexists. reflexivity.
Defined.

(** ** initializeEscrow *)

Lemma list_find_insert_same {A} (P : A -> Prop) `{forall x, Decision (P x)}
    (l : list A) (i : nat) (x y : A) :
  list_find P l = Some (i, x) -> P y -> list_find P (<[i := y]> l) = Some (i, y).
Proof.
  intros Hf Hy. apply list_find_Some in Hf as (Hi & Hx & Hbefore).
  apply list_find_Some. split; [|split].
  - apply list_lookup_insert_eq. eapply lookup_lt_Some, Hi.
  - exact Hy.
  - intros j z Hj Hlt. rewrite list_lookup_insert_ne in Hj by lia.
    eapply Hbefore; eauto.
Qed.

(** What a save of the escrow of a booking leaves to be found. *)
Lemma Escrow_save_find (w : World) (b : ObjectId) (i : ObjectId)
    (old new : Escrow) (now : Date) :
  list_find (fun e => e_bookingId e = b) (escrows w) = Some (i, old) ->
  e_bookingId new = b ->
  let w' := snd (Escrow_save i old new now w) in
  fst (Escrow_save i old new now w) = Ok tt /\
  bookings w' = bookings w /\ transactions w' = transactions w /\
  exists e', list_find (fun e => e_bookingId e = b) (escrows w') = Some (i, e') /\
             e_state e' = e_state new /\ e_amount e' = e_amount new /\
             e_paymentGateway e' = e_paymentGateway new /\
             e_gatewayReference e' = e_gatewayReference new.
Proof.
  intros Hf Hb. unfold Escrow_save, modify. cbn.
  destruct (decide (old = new)) as [->|Hne]; cbn.
  - do 3 (split; [reflexivity|]). exists new. auto.
  - do 3 (split; [reflexivity|]). eexists. split.
    + eapply (list_find_insert_same (fun e => e_bookingId e = b) _ i old _ Hf).
      exact Hb.
    + cbn. auto.
Qed.

Lemma Booking_save_lookup (w : World) (i : ObjectId) (old new : Booking)
    (now : Date) :
  bookings w !! i = Some old ->
  let w' := snd (Booking_save i old new now w) in
  fst (Booking_save i old new now w) = Ok tt /\
  escrows w' = escrows w /\ transactions w' = transactions w /\
  exists b', bookings w' !! i = Some b' /\
             (b' = new \/ b' = Booking_stamp new now).
Proof.
  intros Hi. unfold Booking_save, modify. cbn.
  destruct (decide (old = new)) as [->|Hne]; cbn.
  - do 3 (split; [reflexivity|]). exists new. auto.
  - do 3 (split; [reflexivity|]). eexists. split; [|right; reflexivity].
    apply list_lookup_insert_eq. eapply lookup_lt_Some, Hi.
Qed.

Lemma Escrow_create_fresh (e : Escrow) (w : World) :
  list_find (fun x => e_bookingId x = e_bookingId e) (escrows w) = None ->
  Escrow_create e w = (Ok (length (escrows w)), set_escrows (escrows w ++ [e]) w).
Proof.
  intros Hf. unfold Escrow_create, mbind, M_bind, Escrow_findOne_bookingId, gets.
  rewrite Hf. reflexivity.
Qed.

(** [recordTransaction] with a booking, an amount and a non-empty
    reference, in closed form. *)
Lemma recordTransaction_closed (w : World) (p : TxParams) (b : ObjectId)
    (a : Number) (r : string) :
  p_bookingId p = Some b -> p_amount p = Some a -> p_reference p = Some r ->
  truthyS r = true ->
  recordTransaction p w =
  match list_find (fun t => t_reference t = r) (transactions w) with
  | Some tx => (Ok tx, w)
  | None =>
      let tx := mkTransaction (Some b) (p_customerId p) (p_creativeId p) a
                  (p_type p) (p_status p) (p_paymentGateway p) r
                  (p_idempotencyKey p) (p_note p) in
      (Ok (length (transactions w), tx),
       set_transactions (transactions w ++ [tx]) w)
  end.
Proof.
  intros Hb Ha Hr Ht.
  unfold recordTransaction, Transaction_create. rewrite Hb, Ha, Hr, Ht.
  unfold mbind, M_bind, Transaction_findOne_reference, gets.
  destruct (list_find _ (transactions w)) as [tx|] eqn:Hf; [reflexivity|].
  cbn [negb]. rewrite Hf. reflexivity.
Qed.

Lemma initializeEscrow_success_run (w : World) (bookingId : ObjectId)
    (booking : Booking) (a : Number) (gateway : string) (ir : InitResult)
    (r : string) (now : Date) :
  bookings w !! bookingId = Some booking ->
  match list_find (fun e => e_bookingId e = bookingId) (escrows w) with
  | Some (_, e) => state_in_held_released (e_state e) = false
  | None => True
  end ->
  gateway_supported gateway = true ->
  orS (ir_reference ir) (orS (ir_gd_reference ir) (ir_gd_tx_ref ir)) = Some r ->
  r <> "" ->
  let eid := match list_find (fun e => e_bookingId e = bookingId) (escrows w) with
             | Some (i, _) => i
             | None => length (escrows w)
             end in
  exists w',
  initializeEscrow bookingId (Some a) gateway (Some ir) now w
  = (Ok (mkInitReturn true None (ir_authorization_url ir) (Some r) (Some eid)), w') /\
  (exists e', list_find (fun e => e_bookingId e = bookingId) (escrows w')
              = Some (eid, e') /\
              e_state e' = st_pending /\ e_amount e' = a /\
              e_paymentGateway e' = Some gateway) /\
  (exists b', bookings w' !! bookingId = Some b' /\
              b_paymentStatus b' = ps_pending /\
              b_paymentGateway b' = Some gateway /\
              b_status b' = b_status booking) /\
  match list_find (fun t => t_reference t = r) (transactions w) with
  | Some _ => transactions w' = transactions w
  | None =>
      transactions w'
      = (transactions w ++
         [mkTransaction (Some bookingId) (Some (b_customerId booking)) None a
            ty_escrow tx_pending (Some gateway) r
            (Some (makeIdempotencyKey "tx:init" (Some bookingId) r))
            "initialization"])%list
  end.
Proof.
  intros Hb He Hg Hr Hne. cbv zeta.
  pose proof (truthyS_true r Hne) as Ht.
  unfold initializeEscrow, try_catch, withTransaction.
  unfold mbind at 1. unfold M_bind at 1. unfold Booking_findById, gets at 1.
  rewrite Hb.
  unfold mbind at 1. unfold M_bind at 1. unfold Escrow_findOne_bookingId, gets at 1.
  unfold gateway_supported in Hg.
  destruct (list_find (fun e => e_bookingId e = bookingId) (escrows w))
    as [[i e]|] eqn:Hf.
  - rewrite He. unfold mbind at 1. unfold M_bind at 1. cbn [mret M_ret].
    unfold mbind at 1. unfold M_bind at 1.
    unfold mbind at 1. unfold M_bind at 1.
    assert (Hbid : e_bookingId e = bookingId).
    { apply list_find_Some in Hf as (_ & H & _). exact H. }
    match goal with |- context [Escrow_save i e ?new now w] =>
      destruct (Escrow_save_find w bookingId i e new now Hf Hbid)
        as (Hs1 & Hs2 & Hs3 & e' & Hs4 & Hs5 & Hs6 & Hs7 & _);
      destruct (Escrow_save i e new now w) as [res1 w1] eqn:Hsave
    end.
    cbn [fst snd] in *. subst res1. cbn [mret M_ret].
    rewrite Hg.
    unfold mbind at 1. unfold M_bind at 1. cbn [mret M_ret]. cbv zeta.
    rewrite Hr.
    cbn [e_state e_amount e_paymentGateway] in Hs5, Hs6, Hs7.
    unfold mbind at 1. unfold M_bind at 1.
    match goal with |- context [recordTransaction ?p ?w0] =>
      rewrite (recordTransaction_closed w0 p bookingId a r eq_refl eq_refl
                 eq_refl Ht) end.
    rewrite Hs3.
    cbn [p_customerId p_creativeId p_type p_status p_paymentGateway
         p_idempotencyKey p_note default].
    destruct (list_find (fun t => t_reference t = r) (transactions w))
      as [tx|] eqn:Hft.
    + unfold mbind at 1. unfold M_bind at 1.
      match goal with |- context [Booking_save bookingId booking ?new now w1] =>
        destruct (Booking_save_lookup w1 bookingId booking new now
                    ltac:(rewrite Hs2; exact Hb))
          as (Hb1 & Hb2 & Hb3 & b' & Hb4 & Hb5);
        destruct (Booking_save bookingId booking new now w1) as [res2 w2] eqn:Hbs
      end.
      cbn [fst snd] in *. subst res2.
      cbv beta iota delta [mret M_ret].
      eexists. split; [reflexivity|]. split; [|split].
      * exists e'. rewrite Hb2. auto.
      * exists b'. split; [exact Hb4|]. destruct Hb5 as [->| ->]; cbn; auto.
      * rewrite Hb3. exact Hs3.
    + unfold mbind at 1. unfold M_bind at 1.
      match goal with |- context [Booking_save bookingId booking ?new now ?w1'] =>
        destruct (Booking_save_lookup w1' bookingId booking new now
                    ltac:(cbn; rewrite Hs2; exact Hb))
          as (Hb1 & Hb2 & Hb3 & b' & Hb4 & Hb5);
        destruct (Booking_save bookingId booking new now w1') as [res2 w2] eqn:Hbs
      end.
      cbn [fst snd] in *. subst res2.
      cbv beta iota delta [mret M_ret].
      eexists. split; [reflexivity|]. split; [|split].
      * exists e'. rewrite Hb2. cbn. auto.
      * exists b'. split; [exact Hb4|]. destruct Hb5 as [->| ->]; cbn; auto.
      * rewrite Hb3. reflexivity.
  - unfold mbind at 1. unfold M_bind at 1. cbn [mret M_ret].
    unfold mbind at 1. unfold M_bind at 1.
    rewrite Escrow_create_fresh by exact Hf.
    rewrite Hg.
    unfold mbind at 1. unfold M_bind at 1. cbn [mret M_ret]. cbv zeta.
    rewrite Hr.
    unfold mbind at 1. unfold M_bind at 1.
    match goal with |- context [recordTransaction ?p ?w0] =>
      rewrite (recordTransaction_closed w0 p bookingId a r eq_refl eq_refl
                 eq_refl Ht) end.
    cbn [p_customerId p_creativeId p_type p_status p_paymentGateway
         p_idempotencyKey p_note default].
    assert (Hfind : forall w',
      escrows w' = (escrows w ++ [mkEscrow bookingId a st_pending (Some gateway)
                       None (Some (makeIdempotencyKey "init" (Some bookingId) ""))
                       false None now])%list ->
      exists e', list_find (fun e => e_bookingId e = bookingId) (escrows w')
                 = Some (length (escrows w), e') /\
                 e_state e' = st_pending /\ e_amount e' = a /\
                 e_paymentGateway e' = Some gateway).
    { intros w' ->. eexists. split.
      - apply (list_find_app_fresh (fun e => e_bookingId e = bookingId));
          [exact Hf|reflexivity].
      - cbn. auto. }
    change (transactions (set_escrows _ w)) with (transactions w).
    destruct (list_find (fun t => t_reference t = r) (transactions w))
      as [tx|] eqn:Hft.
    + unfold mbind at 1. unfold M_bind at 1.
      match goal with |- context [Booking_save bookingId booking ?new now ?w1'] =>
        destruct (Booking_save_lookup w1' bookingId booking new now Hb)
          as (Hb1 & Hb2 & Hb3 & b' & Hb4 & Hb5);
        destruct (Booking_save bookingId booking new now w1') as [res2 w2] eqn:Hbs
      end.
      cbn [fst snd] in *. subst res2.
      cbv beta iota delta [mret M_ret].
      eexists. split; [reflexivity|]. split; [|split].
      * apply Hfind. rewrite Hb2. reflexivity.
      * exists b'. split; [exact Hb4|]. destruct Hb5 as [->| ->]; cbn; auto.
      * rewrite Hb3. reflexivity.
    + unfold mbind at 1. unfold M_bind at 1.
      match goal with |- context [Booking_save bookingId booking ?new now ?w1'] =>
        destruct (Booking_save_lookup w1' bookingId booking new now Hb)
          as (Hb1 & Hb2 & Hb3 & b' & Hb4 & Hb5);
        destruct (Booking_save bookingId booking new now w1') as [res2 w2] eqn:Hbs
      end.
      cbn [fst snd] in *. subst res2.
      cbv beta iota delta [mret M_ret].
      eexists. split; [reflexivity|]. split; [|split].
      * apply Hfind. rewrite Hb2. reflexivity.
      * exists b'. split; [exact Hb4|]. destruct Hb5 as [->| ->]; cbn; auto.
      * rewrite Hb3. reflexivity.
Qed.

(** X7. initializeEscrow for an existing booking whose escrow, if any, is
    neither held nor released, with an amount, a supported gateway and a
    gateway answer carrying a non-empty reference: it returns success with
    that reference; the booking's escrow is then [pending] with the amount
    and gateway of the call, whatever state it had (so a refunded, cancelled
    or disputed escrow is reset to pending); the booking's paymentStatus is
    [pending]; and the ledger gets one [pending] escrow Transaction for the
    reference unless it already holds that reference. *)
Theorem initializeEscrow_success (w : World) (bookingId : ObjectId)
    (booking : Booking) (a : Number) (gateway : string) (ir : InitResult)
    (r : string) (now : Date) :
  bookings w !! bookingId = Some booking ->
  match list_find (fun e => e_bookingId e = bookingId) (escrows w) with
  | Some (_, e) => state_in_held_released (e_state e) = false
  | None => True
  end ->
  gateway_supported gateway = true ->
  orS (ir_reference ir) (orS (ir_gd_reference ir) (ir_gd_tx_ref ir)) = Some r ->
  r <> "" ->
  let out := initializeEscrow bookingId (Some a) gateway (Some ir) now w in
  let eid := match list_find (fun e => e_bookingId e = bookingId) (escrows w) with
             | Some (i, _) => i
             | None => length (escrows w)
             end in
  fst out = Ok (mkInitReturn true None (ir_authorization_url ir) (Some r)
                  (Some eid)) /\
  (exists e', list_find (fun e => e_bookingId e = bookingId) (escrows (snd out))
              = Some (eid, e') /\
              e_state e' = st_pending /\ e_amount e' = a /\
              e_paymentGateway e' = Some gateway) /\
  (exists b', bookings (snd out) !! bookingId = Some b' /\
              b_paymentStatus b' = ps_pending /\
              b_paymentGateway b' = Some gateway /\
              b_status b' = b_status booking) /\
  match list_find (fun t => t_reference t = r) (transactions w) with
  | Some _ => transactions (snd out) = transactions w
  | None =>
      transactions (snd out)
      = (transactions w ++
         [mkTransaction (Some bookingId) (Some (b_customerId booking)) None a
            ty_escrow tx_pending (Some gateway) r
            (Some (makeIdempotencyKey "tx:init" (Some bookingId) r))
            "initialization"])%list
  end.
Proof.
  intros Hb He Hg Hr Hne. cbv zeta.
  destruct (initializeEscrow_success_run w bookingId booking a gateway ir r now
              Hb He Hg Hr Hne) as (w' & -> & H).
  cbn [fst snd]. split; [reflexivity|exact H].
Qed.

Lemma initializeEscrow_success_witness :
  let ir := mkInitResult (Some "https://checkout.paystack.com/x") (Some "R1")
              None None in
  let out := initializeEscrow 0 (Some 5000%Q) PAYSTACK (Some ir) 1000%Z world_B1 in
  fst out = Ok (mkInitReturn true None (Some "https://checkout.paystack.com/x")
                  (Some "R1") (Some 0)) /\
  (exists e', list_find (fun e => e_bookingId e = 0) (escrows (snd out))
              = Some (0, e') /\
              e_state e' = st_pending /\ e_amount e' = 5000%Q /\
              e_paymentGateway e' = Some PAYSTACK) /\
  (exists b', bookings (snd out) !! 0 = Some b' /\
              b_paymentStatus b' = ps_pending /\
              b_paymentGateway b' = Some PAYSTACK /\
              b_status b' = bs_pending) /\
  transactions (snd out)
  = [mkTransaction (Some 0) (Some 0) None 5000%Q ty_escrow tx_pending
       (Some PAYSTACK) "R1" (Some (makeIdempotencyKey "tx:init" (Some 0) "R1"))
       "initialization"].
Proof.
  exact (initializeEscrow_success world_B1 0 booking_B1 5000%Q PAYSTACK
           (mkInitResult (Some "https://checkout.paystack.com/x") (Some "R1")
              None None)
           "R1" 1000%Z eq_refl I eq_refl eq_refl ltac:(discriminate)).
Defined.

Lemma recordTransaction_falsy_reference (p : TxParams) (w : World) :
  falsyS (p_reference p) = true ->
  exists e, recordTransaction p w = (Throw e, w).
Proof.
  unfold falsyS, recordTransaction, Transaction_create, mbind, M_bind.
  destruct (p_reference p) as [r|].
  - intros Hr. apply negb_true_iff in Hr. rewrite Hr. cbn.
    destruct (p_bookingId p), (p_amount p); cbn; rewrite ?Hr; cbn; eauto.
  - intros _. cbn. destruct (p_bookingId p), (p_amount p); cbn; eauto.
Qed.

Lemma initializeEscrow_refusal (w : World) (bookingId : ObjectId)
    (booking : Booking) (eid : ObjectId) (e : Escrow) amount gateway initResult now :
  bookings w !! bookingId = Some booking ->
  list_find (fun x => e_bookingId x = bookingId) (escrows w) = Some (eid, e) ->
  state_in_held_released (e_state e) = true ->
  initializeEscrow bookingId amount gateway initResult now w
  = (Ok (mkInitReturn false (Some "Escrow already initialized or completed")
           None None (Some eid)), w).
Proof.
  intros Hb Hf Hs.
  unfold initializeEscrow, try_catch, withTransaction, mbind, M_bind,
    Booking_findById, Escrow_findOne_bookingId, gets.
  rewrite Hb, Hf, Hs. reflexivity.
Qed.

(** X8. initializeEscrow on a booking whose escrow is already held or
    released writes nothing and returns [success: false] with the escrow's
    id; the endpoint POST /initiate wraps that refusal in a 200 response
    whose own [success] is true. *)
Theorem initializeEscrow_refuses_paid_escrow (w : World) (bookingId : ObjectId)
    (booking : Booking) (eid : ObjectId) (e : Escrow) (amount : option Number)
    (email gateway : option string) (initResult : option InitResult)
    (now : Date) :
  bookings w !! bookingId = Some booking ->
  list_find (fun x => e_bookingId x = bookingId) (escrows w) = Some (eid, e) ->
  e_state e = st_held \/ e_state e = st_released ->
  let refusal := mkInitReturn false (Some "Escrow already initialized or completed")
                   None None (Some eid) in
  initializeEscrow bookingId amount (default PAYSTACK gateway) initResult now w
  = (Ok refusal, w) /\
  (falsyN amount = false -> falsyS email = false ->
   escrow_initiate (Some bookingId) amount email gateway initResult now w
   = (mkResponse 200 (initiate_data refusal), w)).
Proof.
  intros Hb Hf Hs. cbv zeta.
  assert (Hp : state_in_held_released (e_state e) = true).
  { destruct Hs as [-> | ->]; reflexivity. }
  pose proof (initializeEscrow_refusal w bookingId booking eid e amount
                (default PAYSTACK gateway) initResult now Hb Hf Hp) as Hrun.
  split; [exact Hrun|].
  intros Ha He. unfold escrow_initiate, respond. rewrite Ha, He. cbn [orb].
  rewrite Hrun. reflexivity.
Qed.

Lemma initializeEscrow_refuses_paid_escrow_witness :
  let refusal := mkInitReturn false (Some "Escrow already initialized or completed")
                   None None (Some 1) in
  initializeEscrow 1 (Some 9000%Q) PAYSTACK None 3000%Z world_two_held
  = (Ok refusal, world_two_held) /\
  escrow_initiate (Some 1) (Some 9000%Q) (Some "ada@example.com") None None
    3000%Z world_two_held
  = (mkResponse 200 (initiate_data refusal), world_two_held).
Proof.
  pose proof (initializeEscrow_refuses_paid_escrow world_two_held 1
                (mkBooking 0 1 bs_confirmed 7000%Q 7000%Q ps_escrowed
                   (Some "paystack") (Some 1) None None false false false None 2500%Z)
                1
                (mkEscrow 1 7000%Q st_held (Some "paystack") (Some "R2") None
                   false None 2500%Z)
                (Some 9000%Q) (Some "ada@example.com") None None 3000%Z
                eq_refl eq_refl (or_introl eq_refl)) as H.
  split; [exact (proj1 H)|]. apply (proj2 H); reflexivity.
Defined.

Lemma initializeEscrow_throws (w : World) (bookingId : ObjectId)
    (amount : option Number) (gateway : string)
    (initResult : option InitResult) (now : Date) :
  bookings w !! bookingId = None \/
  (match list_find (fun e => e_bookingId e = bookingId) (escrows w) with
   | Some (_, e) => state_in_held_released (e_state e) = false
   | None => True
   end /\
   (amount = None \/ gateway_supported gateway = false \/ initResult = None \/
    exists ir, initResult = Some ir /\
               falsyS (orS (ir_reference ir)
                         (orS (ir_gd_reference ir) (ir_gd_tx_ref ir))) = true)) ->
  exists e, fst (initializeEscrow bookingId amount gateway initResult now w)
            = Throw e.
Proof.
  intros H.
  unfold initializeEscrow, try_catch, withTransaction.
  unfold mbind at 1. unfold M_bind at 1. unfold Booking_findById, gets at 1.
  destruct (bookings w !! bookingId) as [booking|] eqn:Hb; [|cbn; eauto].
  destruct H as [H|[He Hc]]; [discriminate|].
  unfold mbind at 1. unfold M_bind at 1. unfold Escrow_findOne_bookingId, gets at 1.
  unfold gateway_supported in Hc.
  destruct (list_find (fun e => e_bookingId e = bookingId) (escrows w))
    as [[i e]|] eqn:Hf.
  - rewrite He. unfold mbind at 1. unfold M_bind at 1. cbn [mret M_ret].
    unfold mbind at 1. unfold M_bind at 1.
    destruct amount as [a|]; [|cbn; eauto].
    unfold mbind at 1. unfold M_bind at 1.
    match goal with |- context [Escrow_save i e ?new now w] =>
      destruct (Escrow_save i e new now w) as [[[]|err] w1] eqn:Hsave
    end; [|cbn; eauto].
    cbn [mret M_ret].
    destruct (orb _ _) eqn:Hg; [|cbn; eauto].
    destruct initResult as [ir|]; [|cbn; eauto].
    destruct Hc as [Hc|[Hc|[Hc|(ir' & [= <-] & Hr)]]]; try discriminate.
    unfold mbind at 1. unfold M_bind at 1. cbn [mret M_ret]. cbv zeta.
    unfold mbind at 1. unfold M_bind at 1.
    match goal with |- context [recordTransaction ?p ?w0] =>
      destruct (recordTransaction_falsy_reference p w0 Hr) as [err ->] end.
    cbn. eauto.
  - unfold mbind at 1. unfold M_bind at 1. cbn [mret M_ret].
    unfold mbind at 1. unfold M_bind at 1.
    destruct amount as [a|]; [|cbn; eauto].
    rewrite Escrow_create_fresh by exact Hf.
    destruct (orb _ _) eqn:Hg; [|cbn; eauto].
    destruct initResult as [ir|]; [|cbn; eauto].
    destruct Hc as [Hc|[Hc|[Hc|(ir' & [= <-] & Hr)]]]; try discriminate.
    unfold mbind at 1. unfold M_bind at 1. cbn [mret M_ret]. cbv zeta.
    unfold mbind at 1. unfold M_bind at 1.
    match goal with |- context [recordTransaction ?p ?w0] =>
      destruct (recordTransaction_falsy_reference p w0 Hr) as [err ->] end.
    cbn. eauto.
Qed.

Lemma initializeEscrow_atomic (w : World) (bookingId : ObjectId)
    (amount : option Number) (gateway : string)
    (initResult : option InitResult) (now : Date) (e : Err) :
  fst (initializeEscrow bookingId amount gateway initResult now w) = Throw e ->
  snd (initializeEscrow bookingId amount gateway initResult now w) = w /\
  exists cause, e = Error ("initializeEscrow failed — " ++ err_message cause).
Proof.
  intros He. unfold initializeEscrow in *.
  apply atomic_throw in He as (Hw & cause & _ & ->). split; [exact Hw|]. eauto.
Qed.

(** X9. initializeEscrow either returns or throws an error prefixed with
    "initializeEscrow failed" and leaves the database as it was.  It throws
    when the booking does not exist, and, for an escrow that is not held or
    released, when the amount is missing, the gateway is not supported, the
    gateway call fails or its answer carries no reference: the pending
    escrow written before the gateway call is rolled back. *)
Theorem initializeEscrow_rolls_back (w : World) (bookingId : ObjectId)
    (amount : option Number) (gateway : string)
    (initResult : option InitResult) (now : Date) :
  let out := initializeEscrow bookingId amount gateway initResult now w in
  ((exists r, fst out = Ok r) \/
   ((exists cause, fst out = Throw (Error ("initializeEscrow failed — "
                                          ++ err_message cause))) /\
    snd out = w)) /\
  (bookings w !! bookingId = None \/
   (match list_find (fun e => e_bookingId e = bookingId) (escrows w) with
    | Some (_, e) => state_in_held_released (e_state e) = false
    | None => True
    end /\
    (amount = None \/ gateway_supported gateway = false \/ initResult = None \/
     exists ir, initResult = Some ir /\
                falsyS (orS (ir_reference ir)
                          (orS (ir_gd_reference ir) (ir_gd_tx_ref ir))) = true)) ->
   (exists e, fst out = Throw e) /\ snd out = w).
Proof.
  cbv zeta.
  pose proof (initializeEscrow_atomic w bookingId amount gateway initResult now)
    as Hat.
  split.
  - destruct (fst (initializeEscrow bookingId amount gateway initResult now w))
      as [r|e] eqn:Hr; [eauto|].
    right. destruct (Hat e eq_refl) as (Hw & cause & ->). eauto.
  - intros H. destruct (initializeEscrow_throws w bookingId amount gateway
                          initResult now H) as [e He].
    split; [eauto|]. apply (Hat e He).
Qed.

Lemma initializeEscrow_rolls_back_witness :
  let out := initializeEscrow 0 (Some 5000%Q) "stripe" None 1000%Z world_B1 in
  ((exists r, fst out = Ok r) \/
   ((exists cause, fst out = Throw (Error ("initializeEscrow failed — "
                                          ++ err_message cause))) /\
    snd out = world_B1)) /\
  (exists e, fst out = Throw e) /\ snd out = world_B1.
Proof.
  pose proof (initializeEscrow_rolls_back world_B1 0 (Some 5000%Q) "stripe" None
                1000%Z) as H.
  split; [exact (proj1 H)|]. apply (proj2 H).
  right. split; [exact I|]. right. left. reflexivity.
Defined.

(** X10. The endpoint POST /initiate answers 400 and touches nothing when
    bookingId, amount or email is missing, an amount of 0 and an empty email
    included; otherwise it answers 200 with the service's result, or 500
    with the database as it was before the request. *)
Theorem escrow_initiate_answers (bookingId : option ObjectId)
    (amount : option Number) (email gateway : option string)
    (initResult : option InitResult) (now : Date) (w : World) :
  let out := escrow_initiate bookingId amount email gateway initResult now w in
  (if bool_decide (bookingId = None) || falsyN amount || falsyS email
   then out = (mkResponse 400 initiate_required, w)
   else (exists data, fst out = mkResponse 200 (initiate_data data)) \/
        ((exists error, fst out = mkResponse 500 (initiate_error error)) /\
         snd out = w)).
Proof.
  cbv zeta. unfold escrow_initiate.
  destruct bookingId as [bid|]; [|reflexivity].
  rewrite bool_decide_eq_false_2 by discriminate.
  cbn [orb].
  destruct (falsyN amount || falsyS email); [reflexivity|].
  unfold respond.
  pose proof (initializeEscrow_atomic w bid amount (default PAYSTACK gateway)
                initResult now) as Hat.
  destruct (initializeEscrow bid amount (default PAYSTACK gateway) initResult
              now w) as [[r|e] w']; cbn [fst snd] in *.
  - left. eauto.
  - right. split; [eauto|]. apply (Hat e eq_refl).
Qed.

(** ** handleWebhook *)

Lemma try_catch_returns {A} (m : M A) (f : Err -> A) (w : World) :
  exists a, fst (try_catch m (fun err => mret (f err)) w) = Ok a.
Proof.
  unfold try_catch. destruct (m w) as [[a|e] w']; cbn; eauto.
Qed.

(** X11. handleWebhook never throws, whatever the payload, the gateway
    name and the database: every failure inside it comes back as a result
    object.  So both webhook endpoints of escrowRoutes answer 200 with the
    handler's own result, and their catch branch is never taken. *)
Theorem handleWebhook_never_throws (signatureOk : bool) (body : WebhookBody)
    (verify : option VerifyResult) (now : Date) (w : World) :
  (forall gateway, exists result,
     fst (handleWebhook signatureOk body gateway verify now w) = Ok result) /\
  (exists result,
     fst (handleWebhook signatureOk body PAYSTACK verify now w) = Ok result /\
     fst (escrow_webhook_paystack signatureOk body verify now w)
     = mkResponse 200 result) /\
  (exists result,
     fst (handleWebhook signatureOk body FLUTTERWAVE verify now w) = Ok result /\
     fst (escrow_webhook_flutterwave signatureOk body verify now w)
     = mkResponse 200 result).
Proof.
  assert (H : forall gateway, exists a,
    fst (handleWebhook signatureOk body gateway verify now w) = Ok a).
  { intros gateway. unfold handleWebhook. apply try_catch_returns. }
  split; [exact H|].
  split; [destruct (H PAYSTACK) as [result Hr]|destruct (H FLUTTERWAVE) as [result Hr]].
  all: exists result; split; [exact Hr|].
  all: unfold escrow_webhook_paystack, escrow_webhook_flutterwave, respond.
  all: destruct (handleWebhook signatureOk body _ verify now w) as [[a|e] w'];
    cbn in *; congruence.
Qed.

Lemma webhook_verified (gateway : string) :
  gateway_supported gateway = true ->
  (if String.eqb gateway PAYSTACK then mret true
   else if String.eqb gateway FLUTTERWAVE then mret true
   else throw (Error "Unknown gateway for webhook"))
  = (mret true : M bool).
Proof.
  unfold gateway_supported.
  destruct (String.eqb gateway PAYSTACK); [reflexivity|].
  destruct (String.eqb gateway FLUTTERWAVE); [reflexivity|discriminate].
Qed.

(** X12. A webhook for an unknown gateway, with a signature that does not
    verify, or without a reference is answered with [success: false] (the
    error, "signature_verification_failed", "no_reference", in that order
    of precedence) and writes nothing. *)
Theorem handleWebhook_rejects (signatureOk : bool) (body : WebhookBody)
    (gateway : string) (verify : option VerifyResult) (now : Date) (w : World) :
  gateway_supported gateway && signatureOk
    && negb (falsyS (webhook_reference gateway body)) = false ->
  handleWebhook signatureOk body gateway verify now w
  = (Ok (if negb (gateway_supported gateway)
         then wr_error_of (Error "Unknown gateway for webhook")
         else if negb signatureOk
              then wr_reason_of false "signature_verification_failed"
              else wr_reason_of false "no_reference"), w).
Proof.
  intros H. unfold handleWebhook, gateway_supported, falsyS in *.
  destruct (String.eqb gateway PAYSTACK) eqn:Hp;
    [|destruct (String.eqb gateway FLUTTERWAVE) eqn:Hf].
  3: reflexivity.
  all: cbn [orb andb negb] in *.
  all: destruct signatureOk; [|reflexivity].
  all: cbn [andb] in H.
  all: destruct (webhook_reference gateway body) as [r|]; [|reflexivity].
  all: apply negb_false_iff in H; rewrite H.
  all: unfold try_catch, mbind, M_bind; cbn [mret M_ret negb]; reflexivity.
Qed.

Lemma handleWebhook_rejects_witness :
  handleWebhook false charge_success_R1 PAYSTACK verify_success_5000 2000%Z
    world_initialized
  = (Ok (wr_reason_of false "signature_verification_failed"), world_initialized).
Proof.
  apply (handleWebhook_rejects false charge_success_R1 PAYSTACK
           verify_success_5000 2000%Z world_initialized).
  reflexivity.
Defined.

(** X13. A verified webhook with a reference whose event is neither a
    success nor a failure event is answered [handled: "noop"]; it writes no
    Transaction and changes no booking, and the only thing it may leave
    behind is one new pending escrow for the booking its metadata names. *)
Theorem handleWebhook_unhandled_event (w : World) (body : WebhookBody) (gateway : string)
    (verify : option VerifyResult) (now : Date) (r : string) :
  gateway_supported gateway = true ->
  webhook_reference gateway body = Some r -> r <> "" ->
  webhook_isSuccess gateway body = false ->
  webhook_isFailure gateway body = false ->
  fst (handleWebhook true body gateway verify now w) = Ok (wr_handled_of "noop") /\
  grown w (snd (handleWebhook true body gateway verify now w)).
Proof.
  intros Hg Hr Hne Hs Hf.
  pose proof (truthyS_true r Hne) as Ht.
  unfold handleWebhook. rewrite Hr, Ht, Hs, Hf.
  rewrite (webhook_verified gateway Hg).
  unfold Escrow_upsert_bookingId, Escrow_insert.
  unfold try_catch, mbind, M_bind, Booking_findById, Escrow_findOne_bookingId,
    Escrow_findOne_gatewayReference, gets.
  cbn [mret M_ret negb].
  destruct (webhook_bookingId gateway body) as [bid|].
  - destruct (bookings w !! bid) as [b|] eqn:Hb.
    + destruct (list_find (fun e => e_bookingId e = bid) (escrows w))
        as [[i e]|] eqn:Hfe;
        cbv beta iota delta [mret M_ret fst snd modify]; cbn [e_bookingId].
      * split; [reflexivity|]. unfold grown. auto.
      * rewrite Hfe. cbv beta iota delta [fst snd].
        split; [reflexivity|]. unfold grown. cbn. split; [reflexivity|].
        split; [reflexivity|]. right. eexists. split; reflexivity.
    + cbn. split; [reflexivity|]. unfold grown. auto.
  - destruct (list_find _ (escrows w)) as [[i e]|] eqn:Hfe;
      cbv beta iota delta [mret M_ret fst snd modify]; cbn [e_bookingId].
    + destruct (bookings w !! e_bookingId e); cbn;
        (split; [reflexivity|]); unfold grown; auto.
    + split; [reflexivity|]. unfold grown. auto.
Qed.

Lemma handleWebhook_unhandled_event_witness :
  let body := mkWebhookBody (Some "subscription.create")
                (Some (mkWebhookData (Some "S1") None None None (Some 0) None
                         None None None))
                (mkWebhookData None None None None None None None None None) in
  fst (handleWebhook true body PAYSTACK None 2000%Z world_B1)
  = Ok (wr_handled_of "noop") /\
  grown world_B1 (snd (handleWebhook true body PAYSTACK None 2000%Z world_B1)).
Proof.
  apply (handleWebhook_unhandled_event world_B1
           (mkWebhookBody (Some "subscription.create")
              (Some (mkWebhookData (Some "S1") None None None (Some 0) None
                       None None None))
              (mkWebhookData None None None None None None None None None))
           PAYSTACK None 2000%Z "S1"); try reflexivity.
  discriminate.
Defined.

(** X14. A verified success webhook whose reference the ledger already
    holds with status [success] is answered "already_processed": no
    Transaction is written, no booking and no existing escrow is changed;
    at most one pending escrow is created for a booking that had none. *)
Theorem handleWebhook_already_processed (w : World) (body : WebhookBody)
    (gateway : string) (verify : option VerifyResult) (now : Date) (r : string)
    (i : ObjectId) (tx : Transaction) :
  gateway_supported gateway = true ->
  webhook_reference gateway body = Some r -> r <> "" ->
  webhook_isSuccess gateway body = true ->
  list_find (fun t => t_reference t = r) (transactions w) = Some (i, tx) ->
  t_status tx = tx_success ->
  fst (handleWebhook true body gateway verify now w)
  = Ok (wr_reason_of true "already_processed") /\
  grown w (snd (handleWebhook true body gateway verify now w)).
Proof.
  intros Hg Hr Hne Hs Hft Hst.
  pose proof (truthyS_true r Hne) as Ht.
  unfold handleWebhook. rewrite Hr, Ht, Hs, (webhook_verified gateway Hg).
  unfold Escrow_upsert_bookingId, Escrow_insert.
  unfold try_catch, withTransaction, mbind, M_bind, Booking_findById,
    Escrow_findOne_bookingId, Escrow_findOne_gatewayReference,
    Transaction_findOne_reference, gets.
  cbn [mret M_ret negb].
  destruct (webhook_bookingId gateway body) as [bid|].
  - destruct (bookings w !! bid) as [b|] eqn:Hb.
    + destruct (list_find (fun e => e_bookingId e = bid) (escrows w))
        as [[j e]|] eqn:Hfe;
        cbv beta iota delta [mret M_ret fst snd modify]; cbn [e_bookingId].
      * rewrite Hft, Hst, bool_decide_eq_true_2 by reflexivity.
        split; [reflexivity|]. unfold grown. auto.
      * rewrite Hfe. cbv beta iota delta [fst snd].
        cbn [transactions set_escrows].
        rewrite Hft, Hst, bool_decide_eq_true_2 by reflexivity.
        split; [reflexivity|]. unfold grown. cbn. split; [reflexivity|].
        split; [reflexivity|]. right. eexists. split; reflexivity.
    + cbv beta iota delta [mret M_ret fst snd modify].
      rewrite Hft, Hst, bool_decide_eq_true_2 by reflexivity.
      split; [reflexivity|]. unfold grown. auto.
  - destruct (list_find _ (escrows w)) as [[j e]|] eqn:Hfe;
      cbv beta iota delta [mret M_ret fst snd modify]; cbn [e_bookingId].
    + destruct (bookings w !! e_bookingId e);
        cbv beta iota delta [mret M_ret fst snd modify fmap option_fmap option_map];
        rewrite Hft, Hst, bool_decide_eq_true_2 by reflexivity;
        (split; [reflexivity|]); unfold grown; auto.
    + rewrite Hft, Hst, bool_decide_eq_true_2 by reflexivity.
      split; [reflexivity|]. unfold grown. auto.
Qed.

Lemma handleWebhook_already_processed_witness :
  fst (handleWebhook true charge_success_R1 PAYSTACK verify_success_5000 3000%Z
         (world_paid_directly 2000%Z))
  = Ok (wr_reason_of true "already_processed") /\
  grown (world_paid_directly 2000%Z)
    (snd (handleWebhook true charge_success_R1 PAYSTACK verify_success_5000
            3000%Z (world_paid_directly 2000%Z))).
Proof.
  apply (handleWebhook_already_processed (world_paid_directly 2000%Z)
           charge_success_R1 PAYSTACK verify_success_5000 3000%Z "R1" 0
           (mkTransaction (Some 0) (Some 0) None 5000%Q ty_escrow tx_success
              (Some "paystack") "R1" (Some "tx:webhook:0:R1") "webhook_success"));
    try reflexivity.
  discriminate.
Defined.

(** The tail of the success branch, from the save of the escrow on. *)
Ltac webhook_success_tail w1 bid b j e Hfind Hbid Hbk :=
  unfold mbind at 1; unfold M_bind at 1;
  unfold mbind at 1; unfold M_bind at 1;
  match goal with |- context [Escrow_save j e ?new ?now w1] =>
    let Hs2 := fresh "Hs2" in let Hs3 := fresh "Hs3" in
    let e' := fresh "e'" in let Hs4 := fresh "Hs4" in let Hs5 := fresh "Hs5" in
    let Hs8 := fresh "Hs8" in let w2 := fresh "w2" in let res := fresh "res" in
    let H1 := fresh "H1" in
    destruct (Escrow_save_find w1 bid j e new now Hfind Hbid)
      as (H1 & Hs2 & Hs3 & e' & Hs4 & Hs5 & _ & _ & Hs8);
    destruct (Escrow_save j e new now w1) as [res w2];
    cbn [fst snd] in H1, Hs2, Hs3, Hs4; subst res;
    cbn [e_state e_gatewayReference Escrow_with_held] in Hs5, Hs8;
    cbv beta iota delta [mret M_ret];
    unfold mbind at 1; unfold M_bind at 1;
    match goal with |- context [Booking_save bid b ?newb now w2] =>
      let Hb2 := fresh "Hb2" in let Hb3 := fresh "Hb3" in
      let b' := fresh "b'" in let Hb4 := fresh "Hb4" in let Hb5 := fresh "Hb5" in
      let w3 := fresh "w3" in let res2 := fresh "res2" in let H2 := fresh "H2" in
      destruct (Booking_save_lookup w2 bid b newb now
                  ltac:(rewrite Hs2; exact Hbk))
        as (H2 & Hb2 & Hb3 & b' & Hb4 & Hb5);
      destruct (Booking_save bid b newb now w2) as [res2 w3];
      cbn [fst snd] in H2, Hb2, Hb3, Hb4; subst res2;
      cbv beta iota delta [mret M_ret];
      exists w3; split; [reflexivity|]; split;
      [ exists j, e', b'; rewrite Hb2;
        split; [exact Hs4|]; split; [exact Hs5|]; split; [exact Hs8|];
        split; [exact Hb4|];
        destruct Hb5 as [-> | ->]; cbn; auto
      | rewrite Hb3, Hs3 ]
    end
  end.

(** X15. A verified success webhook that names an existing booking and
    whose reference the ledger does not hold as [success] is answered
    [success: true]; afterwards the booking's escrow (created if there was
    none, and whatever state it was in) is [held] and carries the reference,
    the booking is [escrowed] and points at that escrow, a [pending] booking
    became [confirmed], and the ledger got one [success] escrow Transaction
    for the reference unless it already held the reference, in which case
    the ledger is left as it was. *)
Theorem handleWebhook_success_holds (w : World) (body : WebhookBody)
    (gateway : string) (verify : option VerifyResult) (now : Date) (r : string)
    (bid : ObjectId) (b : Booking) :
  gateway_supported gateway = true ->
  webhook_reference gateway body = Some r -> r <> "" ->
  webhook_bookingId gateway body = Some bid ->
  bookings w !! bid = Some b ->
  webhook_isSuccess gateway body = true ->
  match list_find (fun t => t_reference t = r) (transactions w) with
  | Some (_, tx) => t_status tx <> tx_success
  | None => True
  end ->
  exists w',
  handleWebhook true body gateway verify now w = (Ok (wr_plain true), w') /\
  (exists eid e' b',
     list_find (fun e => e_bookingId e = bid) (escrows w') = Some (eid, e') /\
     e_state e' = st_held /\
     e_gatewayReference e' = Some r /\
     bookings w' !! bid = Some b' /\
     b_paymentStatus b' = ps_escrowed /\
     b_escrowId b' = Some eid /\
     b_status b' = (if bool_decide (b_status b = bs_pending) then bs_confirmed
                    else b_status b) /\
     b_paymentReleased b' = b_paymentReleased b) /\
  match list_find (fun t => t_reference t = r) (transactions w) with
  | Some _ => transactions w' = transactions w
  | None =>
      exists t, transactions w' = (transactions w ++ [t])%list /\
                t_type t = ty_escrow /\ t_status t = tx_success /\
                t_reference t = r /\ t_bookingId t = Some bid /\
                t_customerId t = Some (b_customerId b)
  end.
Proof.
  intros Hg Hr Hne Hbid Hb Hs Hfresh.
  pose proof (truthyS_true r Hne) as Ht.
  unfold handleWebhook. rewrite Hr, Ht, Hs, Hbid, (webhook_verified gateway Hg).
  unfold Escrow_upsert_bookingId, Escrow_insert.
  unfold try_catch, withTransaction.
  unfold mbind at 1. unfold M_bind at 1. cbn [mret M_ret negb].
  unfold mbind at 1. unfold M_bind at 1.
  unfold mbind at 1. unfold M_bind at 1.
  unfold Booking_findById at 1. unfold gets at 1. rewrite Hb.
  unfold mbind at 1. unfold M_bind at 1.
  unfold Escrow_findOne_bookingId at 1. unfold gets at 1.
  destruct (list_find (fun e => e_bookingId e = bid) (escrows w))
    as [[j e]|] eqn:Hfe;
    cbv beta iota delta [mret M_ret fst snd].
  - unfold mbind at 1. unfold M_bind at 1.
    cbv beta iota delta [mret M_ret fst snd].
    unfold mbind at 1. unfold M_bind at 1.
    unfold Transaction_findOne_reference at 1. unfold gets at 1.
    assert (Hbid' : e_bookingId (Escrow_with_held e r
                      (orN (v_amount <$> verify)
                         (scaled_amount gateway (webhook_data gateway body))))
                    = bid).
    { cbn. apply list_find_Some in Hfe as (_ & H & _). exact H. }
    destruct (list_find (fun t => t_reference t = r) (transactions w))
      as [[k tx]|] eqn:Hft.
    + rewrite bool_decide_eq_false_2 by exact Hfresh.
      unfold mbind at 1. unfold M_bind at 1.
      match goal with |- context [recordTransaction ?p ?w0] =>
        rewrite (recordTransaction_closed w0 p bid _ r eq_refl eq_refl eq_refl Ht)
      end.
      rewrite Hft.
      webhook_success_tail w bid b j e Hfe Hbid' Hb. reflexivity.
    + unfold mbind at 1. unfold M_bind at 1.
      match goal with |- context [recordTransaction ?p ?w0] =>
        rewrite (recordTransaction_closed w0 p bid _ r eq_refl eq_refl eq_refl Ht)
      end.
      rewrite Hft. cbv zeta.
      match goal with |- context [set_transactions ?l w] =>
        set (w1 := set_transactions l w) end.
      assert (Hfe1 : list_find (fun e => e_bookingId e = bid) (escrows w1)
                     = Some (j, e)) by exact Hfe.
      assert (Hb1 : bookings w1 !! bid = Some b) by exact Hb.
      webhook_success_tail w1 bid b j e Hfe1 Hbid' Hb1.
      eexists. split; [reflexivity|]. cbn. auto.
  - unfold mbind at 1. unfold M_bind at 1.
    unfold mbind at 1. unfold M_bind at 1.
    unfold mbind at 1. unfold M_bind at 1.
    unfold Escrow_findOne_bookingId at 1. unfold gets at 1.
    cbn [e_bookingId]. rewrite Hfe.
    unfold mbind at 1. unfold M_bind at 1.
    cbv beta iota delta [mret M_ret fst snd].
    match goal with |- context [set_escrows (escrows w ++ [?fresh])%list w] =>
      set (e := fresh); set (w0 := set_escrows (escrows w ++ [e])%list w) end.
    assert (Hfe0 : list_find (fun x => e_bookingId x = bid) (escrows w0)
                   = Some (length (escrows w), e)).
    { apply (list_find_app_fresh (fun x => e_bookingId x = bid));
        [exact Hfe|reflexivity]. }
    assert (Hb0 : bookings w0 !! bid = Some b) by exact Hb.
    assert (Hbid' : e_bookingId (Escrow_with_held e r
                      (orN (v_amount <$> verify)
                         (scaled_amount gateway (webhook_data gateway body))))
                    = bid) by reflexivity.
    unfold mbind at 1. unfold M_bind at 1.
    unfold Transaction_findOne_reference at 1. unfold gets at 1.
    change (transactions w0) with (transactions w).
    destruct (list_find (fun t => t_reference t = r) (transactions w))
      as [[k tx]|] eqn:Hft.
    + rewrite bool_decide_eq_false_2 by exact Hfresh.
      unfold mbind at 1. unfold M_bind at 1.
      match goal with |- context [recordTransaction ?p ?w0] =>
        rewrite (recordTransaction_closed w0 p bid _ r eq_refl eq_refl eq_refl Ht)
      end.
      change (transactions w0) with (transactions w). rewrite Hft.
      webhook_success_tail w0 bid b (length (escrows w)) e Hfe0 Hbid' Hb0.
      reflexivity.
    + unfold mbind at 1. unfold M_bind at 1.
      match goal with |- context [recordTransaction ?p ?w0] =>
        rewrite (recordTransaction_closed w0 p bid _ r eq_refl eq_refl eq_refl Ht)
      end.
      change (transactions w0) with (transactions w). rewrite Hft. cbv zeta.
      match goal with |- context [set_transactions ?l w0] =>
        set (w1 := set_transactions l w0) end.
      assert (Hfe1 : list_find (fun e => e_bookingId e = bid) (escrows w1)
                     = Some (length (escrows w), e)) by exact Hfe0.
      assert (Hb1 : bookings w1 !! bid = Some b) by exact Hb.
      webhook_success_tail w1 bid b (length (escrows w)) e Hfe1 Hbid' Hb1.
      eexists. split; [reflexivity|]. cbn. auto.
Qed.

Lemma handleWebhook_success_holds_witness :
  exists w',
  handleWebhook true charge_success_R1 PAYSTACK verify_success_5000 2000%Z
    world_initialized = (Ok (wr_plain true), w') /\
  (exists eid e' b',
     list_find (fun e => e_bookingId e = 0) (escrows w') = Some (eid, e') /\
     e_state e' = st_held /\
     e_gatewayReference e' = Some "R1" /\
     bookings w' !! 0 = Some b' /\
     b_paymentStatus b' = ps_escrowed /\
     b_escrowId b' = Some eid /\
     b_status b' = bs_confirmed /\
     b_paymentReleased b' = false) /\
  transactions w' = transactions world_initialized.
Proof.
  exact (handleWebhook_success_holds world_initialized charge_success_R1 PAYSTACK
           verify_success_5000 2000%Z "R1" 0
           (mkBooking 0 1 bs_pending 5000%Q 0%Q ps_pending (Some "paystack")
              None None None false false false None 1000%Z)
           eq_refl eq_refl ltac:(discriminate) eq_refl eq_refl eq_refl
           ltac:(discriminate)).
Defined.

(** The tail of the failure branch, from the save of the booking on. *)
Ltac webhook_failure_tail w1 bid b j e Hfind Hbid Hbk :=
  unfold mbind at 1; unfold M_bind at 1; cbv beta iota;
  match goal with |- context [Booking_save bid b ?newb ?now w1] =>
    let Hb2 := fresh "Hb2" in let Hb3 := fresh "Hb3" in
    let b' := fresh "b'" in let Hb4 := fresh "Hb4" in let Hb5 := fresh "Hb5" in
    let w2 := fresh "w2" in let res2 := fresh "res2" in let H2 := fresh "H2" in
    destruct (Booking_save_lookup w1 bid b newb now Hbk)
      as (H2 & Hb2 & Hb3 & b' & Hb4 & Hb5);
    destruct (Booking_save bid b newb now w1) as [res2 w2];
    cbn [fst snd] in H2, Hb2, Hb3, Hb4; subst res2;
    cbv beta iota delta [mret M_ret];
    unfold mbind at 1; unfold M_bind at 1; cbv beta iota;
    match goal with |- context [Escrow_save j e ?new now w2] =>
      let Hs2 := fresh "Hs2" in let Hs3 := fresh "Hs3" in
      let e' := fresh "e'" in let Hs4 := fresh "Hs4" in let Hs5 := fresh "Hs5" in
      let w3 := fresh "w3" in let res := fresh "res" in
      let H1 := fresh "H1" in
      destruct (Escrow_save_find w2 bid j e new now
                  ltac:(rewrite Hb2; exact Hfind) Hbid)
        as (H1 & Hs2 & Hs3 & e' & Hs4 & Hs5 & _);
      destruct (Escrow_save j e new now w2) as [res w3];
      cbn [fst snd] in H1, Hs2, Hs3, Hs4; subst res;
      cbn [e_state Escrow_with_state] in Hs5;
      cbv beta iota delta [mret M_ret];
      exists w3; split; [reflexivity|]; split;
      [ exists j, e', b'; rewrite Hs2;
        split; [exact Hs4|]; split; [exact Hs5|];
        split; [exact Hb4|];
        destruct Hb5 as [-> | ->]; cbn; auto
      | rewrite Hs3, Hb3 ]
    end
  end.

(** X16. A verified failure webhook that names an existing booking is
    answered [handled: "failure"]; afterwards the booking's paymentStatus
    is [failed], the booking's escrow (created if there was none) is
    [cancelled] whatever state it was in, held and released included, and
    the ledger got one [failed] escrow Transaction for the reference unless
    it already held the reference. *)
Theorem handleWebhook_failure_cancels (w : World) (body : WebhookBody)
    (gateway : string) (verify : option VerifyResult) (now : Date) (r : string)
    (bid : ObjectId) (b : Booking) :
  gateway_supported gateway = true ->
  webhook_reference gateway body = Some r -> r <> "" ->
  webhook_bookingId gateway body = Some bid ->
  bookings w !! bid = Some b ->
  webhook_isSuccess gateway body = false ->
  webhook_isFailure gateway body = true ->
  exists w',
  handleWebhook true body gateway verify now w
  = (Ok (wr_handled_of "failure"), w') /\
  (exists eid e' b',
     list_find (fun e => e_bookingId e = bid) (escrows w') = Some (eid, e') /\
     e_state e' = st_cancelled /\
     bookings w' !! bid = Some b' /\
     b_paymentStatus b' = ps_failed /\
     b_status b' = b_status b) /\
  match list_find (fun t => t_reference t = r) (transactions w) with
  | Some _ => transactions w' = transactions w
  | None =>
      exists t, transactions w' = (transactions w ++ [t])%list /\
                t_type t = ty_escrow /\ t_status t = tx_failed /\
                t_reference t = r /\ t_bookingId t = Some bid
  end.
Proof.
  intros Hg Hr Hne Hbid Hb Hs Hf.
  pose proof (truthyS_true r Hne) as Ht.
  unfold handleWebhook. rewrite Hr, Ht, Hs, Hf, Hbid, (webhook_verified gateway Hg).
  unfold Escrow_upsert_bookingId, Escrow_insert.
  unfold try_catch.
  unfold mbind at 1. unfold M_bind at 1. cbn [mret M_ret negb].
  unfold mbind at 1. unfold M_bind at 1.
  unfold mbind at 1. unfold M_bind at 1.
  unfold Booking_findById at 1. unfold gets at 1. rewrite Hb.
  unfold mbind at 1. unfold M_bind at 1.
  unfold Escrow_findOne_bookingId at 1. unfold gets at 1.
  destruct (list_find (fun e => e_bookingId e = bid) (escrows w))
    as [[j e]|] eqn:Hfe;
    cbv beta iota delta [mret M_ret fst snd].
  - unfold mbind at 1. unfold M_bind at 1.
    cbv beta iota delta [mret M_ret fst snd].
    assert (Hbid' : e_bookingId (Escrow_with_state e st_cancelled) = bid).
    { cbn. apply list_find_Some in Hfe as (_ & H & _). exact H. }
    unfold mbind at 1. unfold M_bind at 1.
    match goal with |- context [recordTransaction ?p ?w0] =>
      rewrite (recordTransaction_closed w0 p bid _ r eq_refl eq_refl eq_refl Ht)
    end.
    destruct (list_find (fun t => t_reference t = r) (transactions w))
      as [[k tx]|] eqn:Hft.
    + webhook_failure_tail w bid b j e Hfe Hbid' Hb. reflexivity.
    + cbv zeta.
      match goal with |- context [set_transactions ?l w] =>
        set (w1 := set_transactions l w) end.
      assert (Hfe1 : list_find (fun e => e_bookingId e = bid) (escrows w1)
                     = Some (j, e)) by exact Hfe.
      assert (Hb1 : bookings w1 !! bid = Some b) by exact Hb.
      webhook_failure_tail w1 bid b j e Hfe1 Hbid' Hb1.
      eexists. split; [reflexivity|]. cbn. auto.
  - unfold mbind at 1. unfold M_bind at 1.
    unfold mbind at 1. unfold M_bind at 1.
    unfold mbind at 1. unfold M_bind at 1.
    unfold Escrow_findOne_bookingId at 1. unfold gets at 1.
    cbn [e_bookingId]. rewrite Hfe.
    unfold mbind at 1. unfold M_bind at 1.
    cbv beta iota delta [mret M_ret fst snd].
    match goal with |- context [set_escrows (escrows w ++ [?fresh])%list w] =>
      set (e := fresh); set (w0 := set_escrows (escrows w ++ [e])%list w) end.
    assert (Hfe0 : list_find (fun x => e_bookingId x = bid) (escrows w0)
                   = Some (length (escrows w), e)).
    { apply (list_find_app_fresh (fun x => e_bookingId x = bid));
        [exact Hfe|reflexivity]. }
    assert (Hb0 : bookings w0 !! bid = Some b) by exact Hb.
    assert (Hbid' : e_bookingId (Escrow_with_state e st_cancelled) = bid)
      by reflexivity.
    unfold mbind at 1. unfold M_bind at 1.
    match goal with |- context [recordTransaction ?p ?w0] =>
      rewrite (recordTransaction_closed w0 p bid _ r eq_refl eq_refl eq_refl Ht)
    end.
    change (transactions w0) with (transactions w).
    destruct (list_find (fun t => t_reference t = r) (transactions w))
      as [[k tx]|] eqn:Hft.
    + webhook_failure_tail w0 bid b (length (escrows w)) e Hfe0 Hbid' Hb0.
      reflexivity.
    + cbv zeta.
      match goal with |- context [set_transactions ?l w0] =>
        set (w1 := set_transactions l w0) end.
      assert (Hfe1 : list_find (fun e => e_bookingId e = bid) (escrows w1)
                     = Some (length (escrows w), e)) by exact Hfe0.
      assert (Hb1 : bookings w1 !! bid = Some b) by exact Hb.
      webhook_failure_tail w1 bid b (length (escrows w)) e Hfe1 Hbid' Hb1.
      eexists. split; [reflexivity|]. cbn. auto.
Qed.

Lemma handleWebhook_failure_cancels_witness :
  exists w',
  handleWebhook true charge_failed_retry PAYSTACK None 3000%Z world_two_held
  = (Ok (wr_handled_of "failure"), w') /\
  (exists eid e' b',
     list_find (fun e => e_bookingId e = 1) (escrows w') = Some (eid, e') /\
     e_state e' = st_cancelled /\
     bookings w' !! 1 = Some b' /\
     b_paymentStatus b' = ps_failed /\
     b_status b' = bs_confirmed) /\
  exists t, transactions w' = (transactions world_two_held ++ [t])%list /\
            t_type t = ty_escrow /\ t_status t = tx_failed /\
            t_reference t = "R2-b" /\ t_bookingId t = Some 1.
Proof.
  exact (handleWebhook_failure_cancels world_two_held charge_failed_retry PAYSTACK
           None 3000%Z "R2-b" 1
           (mkBooking 0 1 bs_confirmed 7000%Q 7000%Q ps_escrowed
              (Some "paystack") (Some 1) None None false false false None 2500%Z)
           eq_refl eq_refl ltac:(discriminate) eq_refl eq_refl eq_refl eq_refl).
Defined.

(** ** reconcileEscrows *)

Lemma set_escrows_same (w : World) : set_escrows (escrows w) w = w.
Proof. destruct w; reflexivity. Qed.

Lemma reconcileEscrows_step_run verify now i e s w :
  escrows w !! i = Some e ->
  exists s',
    reconcileEscrows_step verify now (i, e) s w
    = (Ok s', set_escrows (<[i := reconcile_doc verify now e]> (escrows w)) w) /\
    rs_checked s' = S (rs_checked s) /\
    summary_total s' = S (summary_total s).
Proof.
  intros Hi. unfold reconcileEscrows_step, reconcile_doc, summary_total.
  destruct (orS (e_gatewayReference e) None) as [gref|].
  - destruct (verify _ gref) as [v|].
    + unfold mbind, M_bind, Escrow_findByIdAndUpdate, modify.
      destruct (String.eqb (lowerOpt (v_status v)) "success" &&
                negb (state_in_held_released (e_state e))); rewrite Hi; cbn;
        (eexists; split; [reflexivity|]; cbn; split; [reflexivity|lia]).
    + rewrite list_insert_id by exact Hi. rewrite set_escrows_same.
      eexists. split; [reflexivity|]. cbn. split; [reflexivity|].
      rewrite length_app. cbn. lia.
  - rewrite list_insert_id by exact Hi. rewrite set_escrows_same.
    eexists. split; [reflexivity|]. cbn. split; [reflexivity|lia].
Qed.

Lemma reconcileEscrows_loop_run verify now (l : list (ObjectId * Escrow)) :
  forall s w,
  NoDup (l.*1) ->
  Forall (fun ie => escrows w !! fst ie = Some (snd ie)) l ->
  exists s',
    reconcileEscrows_loop verify now l s w
    = (Ok s', set_escrows (reconciled_list verify now l (escrows w)) w) /\
    rs_checked s' = rs_checked s + length l /\
    summary_total s' = summary_total s + length l.
Proof.
  induction l as [|[i e] l IH]; intros s w Hnd Hall.
  - cbn. rewrite set_escrows_same. exists s. split; [reflexivity|]. lia.
  - cbn [reconcileEscrows_loop]. unfold mbind, M_bind.
    apply Forall_cons in Hall as [Hi Hall]. cbn [fst snd] in Hi.
    apply NoDup_cons in Hnd as [Hni Hnd].
    destruct (reconcileEscrows_step_run verify now i e s w Hi)
      as (s1 & -> & Hc1 & Ht1).
    set (w1 := set_escrows (<[i := reconcile_doc verify now e]> (escrows w)) w).
    destruct (IH s1 w1 Hnd) as (s' & Hrun & Hc & Ht).
    { apply List.Forall_forall. intros [j d] Hin.
      rewrite List.Forall_forall in Hall. specialize (Hall _ Hin). cbn in *.
      rewrite list_lookup_insert_ne; [exact Hall|].
      intros ->. apply Hni. cbn. apply list_elem_of_In in Hin.
      apply (list_elem_of_fmap_2 fst) in Hin. exact Hin. }
    exists s'. rewrite Hrun. split; [|cbn [length]; lia].
    f_equal.
Qed.

Lemma reconciled_list_lookup verify now (l : list (ObjectId * Escrow)) :
  forall docs j,
  NoDup (l.*1) ->
  reconciled_list verify now l docs !! j
  = match list_find (fun ie => fst ie = j) l with
    | Some (_, ie) => if decide (j < length docs)
                      then Some (reconcile_doc verify now (snd ie)) else None
    | None => docs !! j
    end.
Proof.
  induction l as [|[i e] l IH]; intros docs j Hnd; [reflexivity|].
  apply NoDup_cons in Hnd as [Hni Hnd].
  cbn [reconciled_list fold_left fst snd].
  change (fold_left _ l ?d) with (reconciled_list verify now l d).
  rewrite IH by exact Hnd. cbn [list_find fst].
  destruct (decide (i = j)) as [->|Hne].
  - assert (Hn : list_find (fun ie : ObjectId * Escrow => fst ie = j) l = None).
    { apply list_find_None. apply List.Forall_forall. intros [k d] Hin Hk.
      cbn in Hk. subst k. apply Hni. apply list_elem_of_In in Hin.
      apply (list_elem_of_fmap_2 fst) in Hin. exact Hin. }
    rewrite Hn. cbn.
    destruct (decide (j < length docs)) as [Hlt|Hge].
    + apply list_lookup_insert_eq. exact Hlt.
    + apply lookup_ge_None. rewrite length_insert. lia.
  - rewrite length_insert.
    destruct (list_find _ l) as [[k [j' d]]|]; cbn; [reflexivity|].
    apply list_lookup_insert_ne. exact Hne.
Qed.

Lemma with_ids_fst {A} (l : list A) :
  forall k, (imap (fun j => pair (k + j)) l).*1 = seq k (length l).
Proof.
  induction l as [|x l IH]; intros k; [reflexivity|].
  cbn [imap fmap list_fmap length seq]. rewrite Nat.add_0_r. cbn. f_equal.
  rewrite <- IH. f_equal. apply imap_ext. intros j y _. cbn. f_equal. lia.
Qed.

Lemma filter_fst_NoDup {A} (q : ObjectId * A -> bool) (l : list (ObjectId * A)) :
  NoDup (l.*1) -> NoDup ((List.filter q l).*1).
Proof.
  induction l as [|[i x] l IH]; intros Hnd; [exact Hnd|].
  cbn in Hnd. apply NoDup_cons in Hnd as [Hni Hnd]. cbn [List.filter].
  destruct (q (i, x)); [|apply IH, Hnd].
  cbn. apply NoDup_cons. split; [|apply IH, Hnd].
  intros Hin. apply Hni.
  apply list_elem_of_fmap in Hin as ([j y] & Hj & Hin). cbn in Hj. subst j.
  apply list_elem_of_In, filter_In in Hin as [Hin _].
  apply list_elem_of_In in Hin. apply (list_elem_of_fmap_2 fst) in Hin. exact Hin.
Qed.

Lemma found_NoDup (since : option Date) (docs : list Escrow) :
  NoDup ((List.filter (reconcile_query since) (with_ids docs)).*1).
Proof.
  apply filter_fst_NoDup. unfold with_ids.
  change (NoDup ((imap (fun j => pair (0 + j)) docs).*1)).
  rewrite with_ids_fst. apply NoDup_seq.
Qed.

Lemma found_lookup (since : option Date) (docs : list Escrow) (i : ObjectId)
    (e : Escrow) :
  In (i, e) (List.filter (reconcile_query since) (with_ids docs)) <->
  docs !! i = Some e /\ reconcile_query since (i, e) = true.
Proof.
  rewrite filter_In. split; intros [H1 H2]; (split; [|exact H2]).
  - pose proof (with_ids_lookup docs) as H. rewrite List.Forall_forall in H.
    apply (H (i, e) H1).
  - apply list_elem_of_In. unfold with_ids. apply elem_of_lookup_imap.
    exists i, e. auto.
Qed.

(** X17. reconcileEscrows never throws.  Its summary counts every escrow
    the query found exactly once: [checked] is the number of unreconciled
    escrows (updated since [since], when given), and [reconciled], [flagged]
    and the number of [errors] add up to [checked].  It writes no booking
    and no Transaction and neither adds nor removes an escrow. *)
Theorem reconcileEscrows_summary (since : option Date)
    (verify : string -> string -> option VerifyResult) (now : Date) (w : World) :
  exists s w',
    reconcileEscrows since verify now w = (Ok s, w') /\
    rs_checked s
    = length (List.filter (reconcile_query since) (with_ids (escrows w))) /\
    rs_reconciled s + rs_flagged s + length (rs_errors s) = rs_checked s /\
    bookings w' = bookings w /\
    transactions w' = transactions w /\
    length (escrows w') = length (escrows w).
Proof.
  unfold reconcileEscrows, mbind, M_bind, gets.
  set (found := List.filter (reconcile_query since) (with_ids (escrows w))).
  destruct (reconcileEscrows_loop_run verify now found
              (mkReconcileSummary 0 0 0 []) w (found_NoDup since (escrows w)))
    as (s' & Hrun & Hc & Ht).
  { apply List.Forall_forall. intros [i e] Hin.
    apply found_lookup in Hin as [Hi _]. exact Hi. }
  rewrite Hrun. eexists _, _. split; [reflexivity|].
  unfold summary_total in Ht. cbn in Hc, Ht.
  split; [exact Hc|]. split; [lia|]. cbn.
  split; [reflexivity|]. split; [reflexivity|].
  unfold reconciled_list. clear.
  generalize (escrows w). induction found as [|ie l IH]; intros docs; [reflexivity|].
  cbn. rewrite IH. apply length_insert.
Qed.

(** X18. The escrows after reconcileEscrows, document by document: an
    escrow that the query does not select (already reconciled, or last
    updated before [since]) is left as it is; so is a selected escrow
    without gateway reference or whose verification call fails; every other
    selected escrow is marked reconciled and stamped, and becomes [held]
    exactly when the gateway reports success and it was neither held nor
    released, keeping its state otherwise.  Booking, amount, gateway and
    reference of an escrow never change. *)
Theorem reconcileEscrows_documents (since : option Date)
    (verify : string -> string -> option VerifyResult) (now : Date) (w : World) :
  escrows (snd (reconcileEscrows since verify now w))
  = imap (fun i e => if reconcile_query since (i, e)
                     then reconcile_doc verify now e else e)
         (escrows w).
Proof.
  unfold reconcileEscrows, mbind, M_bind, gets.
  set (found := List.filter (reconcile_query since) (with_ids (escrows w))).
  pose proof (found_NoDup since (escrows w)) as Hnd. fold found in Hnd.
  destruct (reconcileEscrows_loop_run verify now found
              (mkReconcileSummary 0 0 0 []) w Hnd)
    as (s' & Hrun & _).
  { apply List.Forall_forall. intros [i e] Hin.
    apply found_lookup in Hin as [Hi _]. exact Hi. }
  rewrite Hrun. cbn [snd escrows set_escrows].
  apply list_eq. intros j.
  rewrite reconciled_list_lookup by exact Hnd. rewrite list_lookup_imap.
  destruct (list_find (fun ie : ObjectId * Escrow => fst ie = j) found)
    as [[k [j' d]]|] eqn:Hf.
  - apply list_find_Some in Hf as (Hk & Hj & _). cbn in Hj. subst j'.
    apply list_elem_of_lookup_2, list_elem_of_In, found_lookup in Hk as [Hd Hq].
    rewrite Hd. cbn. rewrite Hq.
    rewrite decide_True by (eapply lookup_lt_Some, Hd). reflexivity.
  - destruct (escrows w !! j) as [d|] eqn:Hd; cbn; [|reflexivity].
    destruct (reconcile_query since (j, d)) eqn:Hq; [|reflexivity].
    exfalso. apply list_find_None in Hf. rewrite List.Forall_forall in Hf.
    apply (Hf (j, d)); [|reflexivity]. apply found_lookup. auto.
Qed.

(** ** reconcileTransactions and its controller *)

Lemma check_escrow_one (w : World) (i : ObjectId) (esc : Escrow) :
  length (check_escrow w i esc) = 1.
Proof.
  unfold check_escrow. destruct (bookings w !! e_bookingId esc); [|reflexivity].
  destruct (list_find _ (transactions w)) as [[j t]|] eqn:Hf; [|reflexivity].
  exfalso. apply list_find_Some in Hf as (_ & (_ & Hp & _) & _).
  destruct (t_type t); discriminate.
Qed.

(** What a scan adds: at most one issue per document looked at, and never
    more documents than the limit or the collection has. *)
Lemma scan_counts {A} (check : ObjectId -> A -> list Issue) (limit : nat) :
  (forall i x, length (check i x) <= 1) ->
  forall (l : list (ObjectId * A)) (issues : list Issue) (checked : nat),
    let out := scan check limit l issues checked in
    checked <= snd out /\
    snd out <= checked + length l /\
    (checked <= limit -> snd out <= limit) /\
    length issues <= length (fst out) /\
    length (fst out) - length issues <= snd out - checked.
Proof.
  intros Hc l. induction l as [|[i x] l IH]; intros issues checked; cbv zeta.
  - cbn. lia.
  - cbn [scan length].
    destruct (Nat.leb_spec limit checked) as [Hl|Hl]; cbn [orb fst snd]; [lia|].
    destruct (Nat.leb_spec MAX_ISSUES (length issues)) as [Hm|Hm];
      cbn [fst snd]; [lia|].
    specialize (IH (issues ++ check i x)%list (S checked)). cbv zeta in IH.
    rewrite length_app in IH. specialize (Hc i x). lia.
Qed.

Lemma scan_counts_exact {A} (check : ObjectId -> A -> list Issue) (limit : nat) :
  (forall i x, length (check i x) = 1) ->
  forall (l : list (ObjectId * A)) (issues : list Issue) (checked : nat),
    let out := scan check limit l issues checked in
    length (fst out) = length issues + (snd out - checked) /\ checked <= snd out.
Proof.
  intros Hc l. induction l as [|[i x] l IH]; intros issues checked; cbv zeta.
  - cbn. lia.
  - cbn [scan length].
    destruct (Nat.leb_spec limit checked) as [Hl|Hl]; cbn [orb fst snd]; [lia|].
    destruct (Nat.leb_spec MAX_ISSUES (length issues)) as [Hm|Hm];
      cbn [fst snd]; [lia|].
    specialize (IH (issues ++ check i x)%list (S checked)). cbv zeta in IH.
    rewrite length_app in IH. specialize (Hc i x). lia.
Qed.

Lemma with_ids_length {A} (l : list A) : length (with_ids l) = length l.
Proof. unfold with_ids. apply length_imap. Qed.

(** [reconcileTransactions] in closed form. *)
Lemma reconcileTransactions_run (limit : nat) (runBy : RunBy) (w : World) :
  match runBy with
  | RunBy_default =>
      reconcileTransactions limit runBy w = (Throw (ValidationError "runBy"), w)
  | _ =>
      exists report w',
        reconcileTransactions limit runBy w = (Ok report, w') /\
        reports w' = (reports w ++ [report])%list /\
        bookings w' = bookings w /\ escrows w' = escrows w /\
        transactions w' = transactions w /\ disputes w' = disputes w /\
        r_runBy report = match runBy with RunBy_user u => Some u | _ => None end /\
        r_totalTransactionsChecked report <= Nat.min limit (length (transactions w)) /\
        r_totalEscrowsChecked report <= Nat.min limit (length (escrows w)) /\
        (exists fromLedger,
           fromLedger <= r_totalTransactionsChecked report /\
           r_totalIssues report = fromLedger + r_totalEscrowsChecked report) /\
        notifications w'
        = (notifications w ++
           if Nat.ltb 0 (r_totalIssues report)
           then map (fun iu =>
                       mkNotification (Some (fst iu)) "reconciliation_alert"
                         ("Reconciliation found "
                          ++ show_nat (r_totalIssues report) ++ " issue(s)") None)
                    (admins w)
                ++ [mkNotification None "RECONCILIATION_ISSUE"
                      "Reconciliation Issues Detected"
                      (Some (if Nat.ltb 10 (r_totalIssues report) then "high"
                             else "medium"))]
           else [])%list
  end.
Proof.
  unfold reconcileTransactions, mbind, M_bind, gets, id, modify.
  pose proof (scan_counts (check_transaction w) limit (check_transaction_length w)
                (with_ids (transactions w)) [] 0) as H1.
  destruct (scan (check_transaction w) limit (with_ids (transactions w)) [] 0)
    as [issues1 txChecked].
  pose proof (scan_counts (check_escrow w) limit
                ltac:(intros i x; rewrite check_escrow_one; lia)
                (with_ids (escrows w)) issues1 0) as H2.
  pose proof (scan_counts_exact (check_escrow w) limit (check_escrow_one w)
                (with_ids (escrows w)) issues1 0) as H3.
  destruct (scan (check_escrow w) limit (with_ids (escrows w)) issues1 0)
    as [issues escrowsChecked].
  cbv zeta in *. cbn [fst snd length] in *.
  rewrite with_ids_length in H1. rewrite with_ids_length in H2.
  unfold notifyAdmins, createNotification, modify.
  change (truthyS ("Reconciliation found "
                   ++ show_nat (length issues) ++ " issue(s)")) with true.
  destruct runBy as [| |u]; [reflexivity| |].
  all: destruct (Nat.ltb 0 (length issues)) eqn:Hpos.
  all: cbn [mret M_ret r_totalIssues].
  all: destruct (Nat.ltb 10 (length issues)) eqn:Hten.
  all: cbn -[MAX_ISSUES take Nat.ltb Nat.min String.append show_nat admins map].
  all: eexists _, _; split; [reflexivity|].
  all: cbn -[MAX_ISSUES take Nat.ltb Nat.min String.append show_nat admins map].
  all: rewrite Hpos, ?Hten, ?app_nil_r, <- ?app_assoc.
  all: do 6 (split; [reflexivity|]).
  all: split; [lia|]; split; [lia|]; split; [|unfold admins; reflexivity].
  all: exists (length issues1); lia.
Qed.

(** X19. reconcileTransactions called without [runBy] throws the
    validation error of the report and stores nothing.  With [runBy] null
    or a user it returns: exactly one report is appended; no booking,
    escrow, Transaction or dispute is written; both checked counts stay
    within the limit and the size of their collection; every escrow it
    looked at raised exactly one issue, so [totalIssues] is the number of
    escrows checked plus at most one issue per Transaction checked; and
    exactly when there is an issue it stores one Notification for each user
    with role admin (none when there is no admin) and then one
    AdminNotification, whose severity is high above 10 issues and medium
    otherwise. *)
Theorem reconcileTransactions_report (limit : nat) (runBy : RunBy) (w : World) :
  match runBy with
  | RunBy_default =>
      reconcileTransactions limit runBy w = (Throw (ValidationError "runBy"), w)
  | _ =>
      exists report w',
        reconcileTransactions limit runBy w = (Ok report, w') /\
        reports w' = (reports w ++ [report])%list /\
        bookings w' = bookings w /\ escrows w' = escrows w /\
        transactions w' = transactions w /\ disputes w' = disputes w /\
        r_runBy report = match runBy with RunBy_user u => Some u | _ => None end /\
        r_totalTransactionsChecked report <= Nat.min limit (length (transactions w)) /\
        r_totalEscrowsChecked report <= Nat.min limit (length (escrows w)) /\
        (exists fromLedger,
           fromLedger <= r_totalTransactionsChecked report /\
           r_totalIssues report = fromLedger + r_totalEscrowsChecked report) /\
        notifications w'
        = (notifications w ++
           if Nat.ltb 0 (r_totalIssues report)
           then map (fun iu =>
                       mkNotification (Some (fst iu)) "reconciliation_alert"
                         ("Reconciliation found "
                          ++ show_nat (r_totalIssues report) ++ " issue(s)") None)
                    (admins w)
                ++ [mkNotification None "RECONCILIATION_ISSUE"
                      "Reconciliation Issues Detected"
                      (Some (if Nat.ltb 10 (r_totalIssues report) then "high"
                             else "medium"))]
           else [])%list
  end.
Proof. exact (reconcileTransactions_run limit runBy w). Qed.

(** X20. The controller function [runReconciliation] of
    controllers/reconciliationController.js, called on any request and any
    database, answers 201 with the report: it passes [req.user?.id || null]
    as [runBy], never undefined, so its reconciliation run cannot throw and
    the 500 branch of the function is never taken; one report is stored,
    whose [runBy] is [req.user.id] when the request carries a user and null
    otherwise.  The report counts at least one issue per escrow checked.
    This is a property of the function: index.js mounts no router for it,
    and routes/adminReconciliationRoutes.js takes its handlers from another
    module. *)
Theorem runReconciliation_always_201 (user : option ObjectId) (w : World) :
  exists report,
    fst (runReconciliation user w) = mkResponse 201 (reconciliation_report report) /\
    reports (snd (runReconciliation user w)) = (reports w ++ [report])%list /\
    r_runBy report = user /\
    r_totalEscrowsChecked report <= r_totalIssues report.
Proof.
  unfold runReconciliation, respond.
  pose proof (reconcileTransactions_run 5000
                match user with Some u => RunBy_user u | None => RunBy_null end w)
    as H.
  destruct user as [u|]; destruct H as (report & w' & -> & Hr & _ & _ & _ & _ & Hu
                                        & _ & _ & (n & _ & Hn) & _);
    exists report; cbn [fst snd res_status]; (split; [reflexivity|]);
    (split; [exact Hr|]); (split; [exact Hu|]); lia.
Qed.

(** ** Disputes: the service and its controller *)

(** X21. createDispute never stores a dispute: for every input it throws,
    "Booking not found" without the booking and otherwise the validation
    error of the required path [initiatorId], which the service never
    passes; the database is left as it was.  The endpoint POST
    /api/disputes/create therefore answers 400 for every request and
    writes nothing. *)
Theorem createDispute_never_creates (w : World) (bookingId : ObjectId)
    (raisedBy : option ObjectId) (reason description : option string) :
  createDispute bookingId raisedBy reason description w
  = (Throw (match bookings w !! bookingId with
            | Some _ => ValidationError "initiatorId"
            | None => Error "Booking not found"
            end), w) /\
  forall initiatorId booking,
    snd (disputeController_createDispute initiatorId booking reason description w)
    = w /\
    res_status (fst (disputeController_createDispute initiatorId booking reason
                       description w)) = 400.
Proof.
  assert (H : forall b, createDispute b raisedBy reason description w
    = (Throw (match bookings w !! b with
              | Some _ => ValidationError "initiatorId"
              | None => Error "Booking not found"
              end), w)).
  { intros b. unfold createDispute, mbind, M_bind, Booking_findById, gets.
    destruct (bookings w !! b); reflexivity. }
  split; [apply H|].
  intros initiatorId booking. unfold disputeController_createDispute, respond.
  destruct booking as [b|]; [|split; reflexivity].
  destruct (falsyS reason); [split; reflexivity|].
  assert (H' : createDispute b None reason description w
    = (Throw (match bookings w !! b with
              | Some _ => ValidationError "initiatorId"
              | None => Error "Booking not found"
              end), w)).
  { unfold createDispute, mbind, M_bind, Booking_findById, gets.
    destruct (bookings w !! b); reflexivity. }
  rewrite H'. split; reflexivity.
Qed.

(** X22. resolveDispute never returns normally: it throws for every
    input, on the missing dispute, on a resolution outside the enum, on the
    missing booking, or on the booking status "dispute_resolved" that the
    schema rejects.  It never changes a booking, an escrow or the ledger,
    never notifies the admins and never adds or removes a dispute.  The
    endpoint POST /api/disputes/:id/resolve hands the service the id string
    where it expects its argument object, so it answers 400 for every
    request and leaves the database as it was. *)
Theorem resolveDispute_never_returns (w : World) (disputeId : ObjectId)
    (resolvedBy : option ObjectId) (resolution : option string) (now : Date) :
  let out := resolveDispute disputeId resolvedBy resolution now w in
  (exists e, fst out = Throw e) /\
  bookings (snd out) = bookings w /\
  escrows (snd out) = escrows w /\
  transactions (snd out) = transactions w /\
  notifications (snd out) = notifications w /\
  length (disputes (snd out)) = length (disputes w) /\
  disputeController_resolveDispute disputeId resolvedBy resolution now w
  = (mkResponse 400
       (dispute_message (if falsyS resolution then "resolution is required"
                         else "Dispute not found")), w).
Proof.
  cbv zeta. split; [|split; [|split; [|split; [|split; [|split]]]]].
  7: { unfold disputeController_resolveDispute.
       destruct (falsyS resolution); reflexivity. }
  all: unfold resolveDispute, mbind, M_bind, gets, modify, Booking_findById.
  all: destruct (disputes w !! disputeId) as [dispute|]; [|cbn; eauto].
  all: destruct resolution as [s|]; [destruct (Resolution_of_string s)|].
  all: cbn; try destruct (bookings w !! d_bookingId dispute); cbn.
  all: rewrite ?length_insert; eauto.
Qed.

(** ** routes/webhooks.js *)

Lemma paystack_reference_truthy (data_reference : option string) :
  truthyS (paystack_reference data_reference) = true.
Proof.
  unfold paystack_reference.
  destruct (orS_truthy data_reference "dummy_ref" eq_refl) as (r & -> & Hr).
  exact Hr.
Qed.



(** The route from the update of the ledger entry on. *)
Ltac paystack_tail w1 i t r bid Hft :=
  unfold mbind at 1; unfold M_bind at 1;
  unfold mbind at 1; unfold M_bind at 1;
  unfold modify at 1;
  match goal with |- context [set_transactions (<[i := ?t']> (transactions w1)) w1] =>
    let w2 := fresh "w2" in let Hl := fresh "Hl" in
    set (w2 := set_transactions (<[i := t']> (transactions w1)) w1);
    assert (Hl : exists i' t'', list_find (fun x => t_reference x = r)
                                 (transactions w2) = Some (i', t'') /\
                               t_status t'' = tx_success /\
                               length (transactions w2) = length (transactions w1))
      by (exists i, t'; split;
          [ eapply (list_find_insert_same (fun x => t_reference x = r) _ i t _ Hft);
            cbn; apply list_find_Some in Hft as (_ & H & _); exact H
          | split; [reflexivity|apply length_insert] ]);
    unfold mbind at 1; unfold M_bind at 1;
    unfold Escrow_findOne_gatewayReference at 1; unfold gets at 1;
    change (escrows w2) with (escrows w1);
    let eid := fresh "eid" in let e := fresh "e" in let Hfe := fresh "Hfe" in
    destruct (list_find (fun e => e_gatewayReference e = Some r) (escrows w1))
      as [[eid e]|] eqn:Hfe;
    [ unfold Escrow_save, modify;
      let Heq := fresh "Heq" in
      destruct (decide (e = Escrow_with_state e st_held)) as [Heq|Heq];
      (eexists _, _; split; [reflexivity|]; split; [reflexivity|];
       split; [exact Hl|]; split; [reflexivity|]);
      [ exists e; split;
        [ apply list_find_Some in Hfe as (Hi & _); exact Hi
        | rewrite Heq; reflexivity ]
      | eexists; split;
        [ apply list_lookup_insert_eq; apply list_find_Some in Hfe as (Hi & _);
          eapply lookup_lt_Some, Hi
        | reflexivity ] ]
    | unfold mbind at 1; unfold M_bind at 1;
      unfold Escrow_create, Escrow_insert;
      unfold mbind at 1; unfold M_bind at 1;
      unfold Escrow_findOne_bookingId at 1; unfold gets at 1;
      cbn [e_bookingId]; change (escrows w2) with (escrows w1);
      destruct (list_find (fun e => e_bookingId e = bid) (escrows w1))
        as [[? ?]|];
      (eexists _, _; split; [reflexivity|]; split; [reflexivity|];
       split; [exact Hl|]; split; reflexivity) ]
  end.

(** X24. The Paystack route on [charge.success] for a reference that a
    booking carries: the ledger entry for the reference is created if
    missing and set to [success] whatever status it had, and no booking is
    changed.  The escrow with that gateway reference becomes [held] (200);
    without one, a held escrow is created for the booking (200), unless
    the booking already has an escrow: then the insert hits the unique
    index, the route answers 500, the escrow is untouched and the ledger
    entry stays [success]. *)
Theorem paystackRoute_charge_success (data_reference : option string)
    (data_amount : option Number) (now : Date) (w : World) (bid : ObjectId)
    (b : Booking) :
  let reference := paystack_reference data_reference in
  list_find (fun b => b_paymentReference b = Some reference) (bookings w)
  = Some (bid, b) ->
  exists status w',
    paystackRoute true (Some "charge.success") data_reference data_amount now w
    = (Ok status, w') /\
    bookings w' = bookings w /\
    (exists i t, list_find (fun t => t_reference t = reference) (transactions w')
                 = Some (i, t) /\
                 t_status t = tx_success /\
                 length (transactions w')
                 = match list_find (fun t => t_reference t = reference)
                                   (transactions w) with
                   | Some _ => length (transactions w)
                   | None => S (length (transactions w))
                   end) /\
    match list_find (fun e => e_gatewayReference e = Some reference) (escrows w) with
    | Some (eid, e) =>
        status = 200 /\
        exists e', escrows w' !! eid = Some e' /\ e_state e' = st_held
    | None =>
        match list_find (fun e => e_bookingId e = bid) (escrows w) with
        | Some _ => status = 500 /\ escrows w' = escrows w
        | None =>
            status = 200 /\
            escrows w'
            = (escrows w ++ [mkEscrow bid (b_totalAmount b) st_held
                               (Some "paystack") (Some reference) None false
                               None now])%list
        end
    end.
Proof.
  cbv zeta. intros Hf.
  pose proof (paystack_reference_truthy data_reference) as Ht.
  unfold paystackRoute, try_catch. cbn [negb].
  fold (paystack_reference data_reference).
  set (r := paystack_reference data_reference) in *.
  unfold mbind at 1. unfold M_bind at 1. unfold gets at 1. rewrite Hf.
  unfold mbind at 1. unfold M_bind at 1. cbn [mret M_ret].
  unfold mbind at 1. unfold M_bind at 1.
  unfold Transaction_findOne_reference at 1. unfold gets at 1.
  rewrite bool_decide_eq_true_2 by reflexivity.
  destruct (list_find (fun t => t_reference t = r) (transactions w))
    as [[i t]|] eqn:Hft.
  - unfold mbind at 1. unfold M_bind at 1. cbn [mret M_ret fst snd].
    paystack_tail w i t r bid Hft.
  - unfold mbind at 1. unfold M_bind at 1.
    unfold Transaction_create. cbn [p_bookingId p_amount p_reference fst snd].
    rewrite Ht. cbn [negb].
    unfold mbind at 1. unfold M_bind at 1.
    unfold Transaction_findOne_reference at 1. unfold gets at 1. rewrite Hft.
    cbv zeta. cbn [fst snd].
    match goal with |- context [set_transactions (transactions w ++ [?tx])%list w] =>
      set (t := tx); set (w1 := set_transactions (transactions w ++ [t])%list w) end.
    assert (Hft1 : list_find (fun t => t_reference t = r) (transactions w1)
                   = Some (length (transactions w), t)).
    { apply (list_find_app_fresh (fun t => t_reference t = r));
        [exact Hft|reflexivity]. }
    change (bookings w) with (bookings w1).
    change (escrows w) with (escrows w1).
    replace (S (length (transactions w))) with (length (transactions w1))
      by (cbn; rewrite length_app; cbn; lia).
    paystack_tail w1 (length (transactions w)) t r bid Hft1.
Qed.

Lemma paystackRoute_charge_success_witness :
  exists status w',
    paystackRoute true (Some "charge.success") (Some "PR1") (Some 500000%Q)
      2000%Z world_pending_reference = (Ok status, w') /\
    bookings w' = bookings world_pending_reference /\
    (exists i t, list_find (fun t => t_reference t = "PR1") (transactions w')
                 = Some (i, t) /\
                 t_status t = tx_success /\
                 length (transactions w') = 1) /\
    status = 500 /\ escrows w' = escrows world_pending_reference.
Proof.
  exact (paystackRoute_charge_success (Some "PR1") (Some 500000%Q) 2000%Z
           world_pending_reference 0
           (mkBooking 0 1 bs_pending 5000%Q 0%Q ps_pending (Some "paystack") None
              (Some "PR1") None false false false None 1000%Z)
           eq_refl).
Defined.

(** ** createReview *)

Lemma Review_create_run bookingId reviewerId targetId reviewerRole targetRole
    rating comment (rw : ReviewWorld) :
  list_find (fun r => rv_bookingId r = bookingId /\ rv_reviewerId r = reviewerId
                      /\ rv_targetId r = targetId) (rw_reviews rw) = None ->
  Review_create bookingId reviewerId targetId reviewerRole targetRole rating
    comment rw
  = match rating with
    | None => (Throw (ValidationError "rating"), rw)
    | Some r =>
        if negb (Qle_bool 1 r && Qle_bool r 5)
        then (Throw (ValidationError "rating"), rw)
        else if match trim <$> comment with
                | Some c => Nat.ltb 1000 (length c)
                | None => false
                end
             then (Throw (ValidationError "comment"), rw)
             else
               let review := mkReview bookingId reviewerId targetId reviewerRole
                               targetRole r (trim <$> comment) in
               (Ok review, mkReviewWorld (rw_db rw) (rw_reviews rw ++ [review]))
    end.
Proof.
  intros Hf. unfold Review_create.
  destruct rating as [r|]; [|reflexivity].
  destruct (negb _); [reflexivity|].
  destruct (match trim <$> comment with Some c => _ | None => false end);
    [reflexivity|].
  unfold mbind, RM_bind, Review_findOne. rewrite Hf. reflexivity.
Qed.

Lemma ReviewWorld_eta (rw : ReviewWorld) :
  mkReviewWorld (rw_db rw) (rw_reviews rw) = rw.
Proof. destruct rw; reflexivity. Qed.

(** [createReview] in closed form. *)
Lemma createReview_unfold (bookingId reviewerId : ObjectId)
    (rating : option Number) (comment : option JsString) (now later : Date)
    (rw : ReviewWorld) :
  createReview bookingId reviewerId rating comment now later rw
  = match bookings (rw_db rw) !! bookingId with
    | None => (Throw (Error "Booking not found"), rw)
    | Some booking =>
      if negb (bool_decide (b_status booking = bs_completed))
      then (Throw (Error "You can only review after booking completion"), rw)
      else
        match review_roles booking reviewerId with
        | None => (Throw (Error "You are not a participant in this booking"), rw)
        | Some (reviewerRole, targetId, targetRole) =>
          match list_find (fun r => rv_bookingId r = bookingId
                                    /\ rv_reviewerId r = reviewerId
                                    /\ rv_targetId r = targetId)
                          (rw_reviews rw) with
          | Some _ =>
              (Throw (Error "You have already submitted a review for this booking"),
               rw)
          | None =>
            match rating with
            | None => (Throw (ValidationError "rating"), rw)
            | Some r =>
              if negb (Qle_bool 1 r && Qle_bool r 5)
              then (Throw (ValidationError "rating"), rw)
              else if match trim <$> comment with
                      | Some c => Nat.ltb 1000 (length c)
                      | None => false
                      end
                   then (Throw (ValidationError "comment"), rw)
                   else
                     let review := mkReview bookingId reviewerId targetId
                                     reviewerRole targetRole r (trim <$> comment) in
                     let booking' :=
                       mkBooking (b_customerId booking) (b_proId booking)
                         (b_status booking) (b_totalAmount booking)
                         (b_escrowAmount booking) (b_paymentStatus booking)
                         (b_paymentGateway booking) (b_escrowId booking)
                         (b_paymentReference booking) (b_txRef booking)
                         (match reviewerRole with
                          | role_customer => true
                          | role_pro => b_customerReviewed booking
                          end)
                         (match reviewerRole with
                          | role_pro => true
                          | role_customer => b_proReviewed booking
                          end)
                         (b_paymentReleased booking) (b_settledAt booking)
                         (b_updatedAt booking) in
                     (Ok review,
                      mkReviewWorld
                        (snd (Booking_save bookingId booking booking' now (rw_db rw)))
                        (rw_reviews rw ++ [review]))
            end
          end
        end
    end.
Proof.
  unfold createReview.
  unfold mbind at 1. unfold RM_bind at 1. unfold on_db at 1.
  unfold Booking_findById, gets.
  destruct (bookings (rw_db rw) !! bookingId) as [booking|];
    rewrite ?ReviewWorld_eta; [|reflexivity].
  destruct (negb _); [reflexivity|].
  destruct (review_roles booking reviewerId) as [[[reviewerRole targetId] targetRole]|];
    [|reflexivity].
  unfold mbind at 1. unfold RM_bind at 1. unfold Review_findOne at 1.
  destruct (list_find _ (rw_reviews rw)) as [x|] eqn:Hf; [reflexivity|].
  unfold mbind at 1. unfold RM_bind at 1.
  rewrite (Review_create_run _ _ _ _ _ _ _ rw Hf).
  destruct rating as [r|]; [|reflexivity].
  destruct (negb _); [reflexivity|].
  destruct (match trim <$> comment with Some c => _ | None => false end);
    [reflexivity|].
  cbv zeta.
  unfold mbind, RM_bind, on_db, rtry_catch. cbn [rw_db rw_reviews].
  unfold Booking_save at 1, modify at 1. cbn [fst snd].
  match goal with |- context [settleEscrow bookingId later ?db] =>
    rewrite (settleEscrow_unfold db bookingId later);
    destruct (match bookings db !! bookingId with Some _ => _ | None => _ end)
  end; cbn [mret RM_ret rw_db rw_reviews].
  all: unfold Booking_save, modify; reflexivity.
Qed.

(** X25. createReview writes nothing before its last check: whenever it
    throws, the database and the reviews are the ones before the call, and
    the error is one of its four guards (booking missing, booking not
    completed, reviewer not a participant, review already submitted) or the
    validation of the rating or the comment.  It never fails on the unique
    index of the reviews. *)
Theorem createReview_rejects_before_writing (bookingId reviewerId : ObjectId)
    (rating : option Number) (comment : option JsString) (now later : Date)
    (rw : ReviewWorld) (e : Err) :
  fst (createReview bookingId reviewerId rating comment now later rw) = Throw e ->
  snd (createReview bookingId reviewerId rating comment now later rw) = rw /\
  In e [Error "Booking not found";
        Error "You can only review after booking completion";
        Error "You are not a participant in this booking";
        Error "You have already submitted a review for this booking";
        ValidationError "rating"; ValidationError "comment"].
Proof.
  rewrite createReview_unfold.
  destruct (bookings (rw_db rw) !! bookingId) as [booking|];
    [|intros [= <-]; cbn; auto].
  destruct (negb _); [intros [= <-]; cbn; auto|].
  destruct (review_roles booking reviewerId) as [[[reviewerRole targetId] targetRole]|];
    [|intros [= <-]; cbn; auto].
  destruct (list_find _ (rw_reviews rw)); [intros [= <-]; cbn; auto 10|].
  destruct rating as [r|]; [|intros [= <-]; cbn; auto 10].
  destruct (negb _); [intros [= <-]; cbn; auto 10|].
  destruct (match trim <$> comment with Some c => _ | None => false end);
    [intros [= <-]; cbn; auto 10|].
  discriminate.
Qed.

Lemma createReview_rejects_before_writing_witness :
  snd (createReview 0 7 (Some 5%Q) None 5000%Z 5001%Z
         (mkReviewWorld world_completed [])) = mkReviewWorld world_completed [] /\
  In (Error "You are not a participant in this booking")
     [Error "Booking not found";
      Error "You can only review after booking completion";
      Error "You are not a participant in this booking";
      Error "You have already submitted a review for this booking";
      ValidationError "rating"; ValidationError "comment"].
Proof.
  apply (createReview_rejects_before_writing 0 7 (Some 5%Q) None 5000%Z 5001%Z
           (mkReviewWorld world_completed [])).
  reflexivity.
Defined.

(** X26. createReview by a participant of a completed booking, with a
    rating between 1 and 5, a comment that after trimming has at most 1000
    UTF-16 code units, and no earlier review of the same direction: it
    returns the review and stores it with the comment trimmed as
    [String.prototype.trim] does (ASCII and Unicode white space and line
    terminators at both ends); the booking gets the reviewer's own flag
    and keeps the other; escrows, ledger, [paymentReleased] and [settledAt]
    are as before.  Once both flags are set, the settlement it attempts
    throws, which createReview swallows: the second review does not release
    the escrow. *)
Theorem createReview_marks_booking (bookingId reviewerId : ObjectId)
    (r : Number) (comment : option JsString) (now later : Date)
    (rw : ReviewWorld) (booking : Booking) (reviewerRole targetRole : Role)
    (targetId : ObjectId) :
  bookings (rw_db rw) !! bookingId = Some booking ->
  b_status booking = bs_completed ->
  review_roles booking reviewerId = Some (reviewerRole, targetId, targetRole) ->
  list_find (fun x => rv_bookingId x = bookingId /\ rv_reviewerId x = reviewerId
                      /\ rv_targetId x = targetId) (rw_reviews rw) = None ->
  Qle_bool 1 r && Qle_bool r 5 = true ->
  match trim <$> comment with
  | Some c => Nat.ltb 1000 (length c)
  | None => false
  end = false ->
  let review := mkReview bookingId reviewerId targetId reviewerRole targetRole r
                  (trim <$> comment) in
  exists rw',
    createReview bookingId reviewerId (Some r) comment now later rw
    = (Ok review, rw') /\
    rw_reviews rw' = (rw_reviews rw ++ [review])%list /\
    escrows (rw_db rw') = escrows (rw_db rw) /\
    transactions (rw_db rw') = transactions (rw_db rw) /\
    exists b',
      bookings (rw_db rw') !! bookingId = Some b' /\
      b_customerReviewed b'
      = (match reviewerRole with
         | role_customer => true
         | role_pro => b_customerReviewed booking
         end) /\
      b_proReviewed b'
      = (match reviewerRole with
         | role_pro => true
         | role_customer => b_proReviewed booking
         end) /\
      b_paymentReleased b' = b_paymentReleased booking /\
      b_settledAt b' = b_settledAt booking /\
      (b_customerReviewed b' = true -> b_proReviewed b' = true ->
       exists e, fst (settleEscrow bookingId later (rw_db rw')) = Throw e).
Proof.
  intros Hb Hs Hroles Hf Hr Hlen. cbv zeta.
  rewrite createReview_unfold, Hb, Hroles, Hf, Hr.
  rewrite (bool_decide_eq_true_2 _ Hs). cbn [negb].
  rewrite Hlen. cbv zeta.
  eexists. split; [reflexivity|]. cbn [rw_reviews rw_db].
  split; [reflexivity|].
  match goal with |- context [Booking_save bookingId booking ?new now (rw_db rw)] =>
    destruct (Booking_save_lookup (rw_db rw) bookingId booking new now Hb)
      as (_ & He & Ht & b' & Hb' & Hnew);
    set (db' := snd (Booking_save bookingId booking new now (rw_db rw))) in *
  end.
  split; [exact He|]. split; [exact Ht|].
  exists b'. split; [exact Hb'|].
  assert (Hcr : b_customerReviewed b'
                = match reviewerRole with
                  | role_customer => true
                  | role_pro => b_customerReviewed booking
                  end) by (destruct Hnew as [-> | ->]; reflexivity).
  assert (Hpr : b_proReviewed b'
                = match reviewerRole with
                  | role_pro => true
                  | role_customer => b_proReviewed booking
                  end) by (destruct Hnew as [-> | ->]; reflexivity).
  assert (Hup : b_updatedAt b' = b_updatedAt booking \/ b_updatedAt b' = now)
    by (destruct Hnew as [-> | ->]; cbn; auto).
  split; [exact Hcr|]. split; [exact Hpr|].
  split; [destruct Hnew as [-> | ->]; reflexivity|].
  split; [destruct Hnew as [-> | ->]; reflexivity|].
  intros Hc1 Hp1. rewrite settleEscrow_unfold, Hb'. cbn [fst].
  destruct (list_find _ (escrows db')); [|eauto].
  unfold settle_waits. rewrite Hc1, Hp1. cbn [negb orb]. rewrite andb_false_r.
  destruct (users db' !! b_proId b'); eauto.
Qed.

Lemma createReview_marks_booking_witness :
  let on_time := [111; 110; 32; 116; 105; 109; 101]%N in
  let review := mkReview 0 1 0 role_pro role_customer 4%Q (Some on_time) in
  let rw := mkReviewWorld world_completed
              [mkReview 0 0 1 role_customer role_pro 5%Q None] in
  exists rw',
    createReview 0 1 (Some 4%Q)
      (Some [160; 9; 111; 110; 32; 116; 105; 109; 101; 8233; 32; 65279]%N)
      5000%Z 5001%Z rw
    = (Ok review, rw') /\
    rw_reviews rw' = (rw_reviews rw ++ [review])%list /\
    escrows (rw_db rw') = escrows world_completed /\
    transactions (rw_db rw') = transactions world_completed /\
    exists b',
      bookings (rw_db rw') !! 0 = Some b' /\
      b_customerReviewed b' = false /\
      b_proReviewed b' = true /\
      b_paymentReleased b' = false /\
      b_settledAt b' = None /\
      (b_customerReviewed b' = true -> b_proReviewed b' = true ->
       exists e, fst (settleEscrow 0 5001%Z (rw_db rw')) = Throw e).
Proof.
  exact (createReview_marks_booking 0 1 4%Q
           (Some [160; 9; 111; 110; 32; 116; 105; 109; 101; 8233; 32; 65279]%N)
           5000%Z 5001%Z
           (mkReviewWorld world_completed
              [mkReview 0 0 1 role_customer role_pro 5%Q None])
           (mkBooking 0 1 bs_completed 5000%Q 5000%Q ps_escrowed
              (Some "paystack") (Some 0) None None false false false None 0%Z)
           role_pro role_customer 0
           eq_refl eq_refl eq_refl eq_refl eq_refl eq_refl).
Defined.

(** X27. No call of createReview, accepted or rejected, changes an escrow
    or the ledger, adds or removes a booking, or changes the status, the
    paymentStatus, [paymentReleased] or [settledAt] of any booking. *)
Theorem createReview_never_releases (bookingId reviewerId : ObjectId)
    (rating : option Number) (comment : option JsString) (now later : Date)
    (rw : ReviewWorld) :
  let rw' := snd (createReview bookingId reviewerId rating comment now later rw) in
  escrows (rw_db rw') = escrows (rw_db rw) /\
  transactions (rw_db rw') = transactions (rw_db rw) /\
  length (bookings (rw_db rw')) = length (bookings (rw_db rw)) /\
  forall i b', bookings (rw_db rw') !! i = Some b' ->
    exists b, bookings (rw_db rw) !! i = Some b /\
              b_paymentReleased b' = b_paymentReleased b /\
              b_settledAt b' = b_settledAt b /\
              b_paymentStatus b' = b_paymentStatus b /\
              b_status b' = b_status b.
Proof.
  cbv zeta. rewrite createReview_unfold.
  assert (Hsame : forall i b', bookings (rw_db rw) !! i = Some b' ->
    exists b, bookings (rw_db rw) !! i = Some b /\
              b_paymentReleased b' = b_paymentReleased b /\
              b_settledAt b' = b_settledAt b /\
              b_paymentStatus b' = b_paymentStatus b /\
              b_status b' = b_status b) by eauto 10.
  destruct (bookings (rw_db rw) !! bookingId) as [booking|] eqn:Hb; [|auto].
  destruct (negb _); [auto|].
  destruct (review_roles booking reviewerId) as [[[reviewerRole targetId] targetRole]|];
    [|auto].
  destruct (list_find _ (rw_reviews rw)); [auto|].
  destruct rating as [r|]; [|auto].
  destruct (negb _); [auto|].
  destruct (match trim <$> comment with Some c => _ | None => false end); [auto|].
  cbv zeta. cbn [snd rw_db].
  unfold Booking_save, modify. cbn [snd].
  destruct (decide _) as [Heq|Hne]; [auto|].
  cbn [escrows transactions bookings set_bookings].
  split; [reflexivity|]. split; [reflexivity|].
  split; [apply length_insert|].
  intros i b' Hi. destruct (decide (i = bookingId)) as [->|Hni].
  - rewrite list_lookup_insert_eq in Hi by (eapply lookup_lt_Some, Hb).
    injection Hi as <-. exists booking. cbn. auto.
  - rewrite list_lookup_insert_ne in Hi by auto. eauto 10.
Qed.

Lemma createReview_never_releases_witness :
  exists b, bookings world_completed !! 0 = Some b /\
            false = b_paymentReleased b /\
            None = b_settledAt b /\
            ps_escrowed = b_paymentStatus b /\
            bs_completed = b_status b.
Proof.
  exact (proj2 (proj2 (proj2
           (createReview_never_releases 0 0 (Some 5%Q) None 5000%Z 5001%Z
              (mkReviewWorld world_completed []))))
           0
           (mkBooking 0 1 bs_completed 5000%Q 5000%Q ps_escrowed
              (Some "paystack") (Some 0) None None true false false None 5000%Z)
           eq_refl).
Defined.
